(** * COVID pipeline: schema normaliser, quality checks and 7-day metrics

    A shallow embedding of [covid_pipeline/assets/datos.py],
    [covid_pipeline/assets/checks.py] and [covid_pipeline/assets/metricas.py].

    Conventions of the embedding.
    - A column label is a byte string (UTF-8); the byte-order mark U+FEFF is
      its three-byte encoding.  [str.strip] and [str.lower] are modelled on
      the ASCII range, other bytes are left alone.
    - A numeric cell is an exact rational or the missing marker (NaN and
      [pd.NA] are not told apart in a cell; that a [pd.NA] turns a float
      column into an object column is modelled where the source meets it,
      in [metrica_incidencia_7d_asset]); rounding of binary floating point
      is not modelled.  The quotient computed by the growth metric has its
      own type [float] with the two infinities, because the source handles
      them.
    - The frame operations are those of pandas on a frame whose column
      labels are pairwise distinct: [df[c]] is the column labelled [c].
      Where a label is repeated pandas works on every column that carries
      it (or refuses the frame), while [get] reads the first one; the
      statements whose truth depends on which of them is read carry
      [NoDup (columns df)].
    - A pandas frame is a mutable object: [_canon] is written over a store
      of frames so that the assignment to [df.columns] is visible. *)

From Stdlib Require Import String Ascii DecimalString Bool Arith ZArith QArith Lia.
From Stdlib Require Import List Permutation Sorted.
Import ListNotations.

Close Scope Q_scope.
Local Open Scope string_scope.
Local Open Scope nat_scope.
Local Open Scope list_scope.

(** ** Python string helpers used on column labels *)

Module PyStr.

Definition isspace (c : ascii) : bool :=
  let n := nat_of_ascii c in
  ((9 <=? n) && (n <=? 13)) || ((28 <=? n) && (n <=? 32)).

Fixpoint lstrip (s : string) : string :=
  match s with
  | EmptyString => EmptyString
  | String c s' => if isspace c then lstrip s' else s
  end.

Fixpoint rev (s : string) : string :=
  match s with
  | EmptyString => EmptyString
  | String c s' => (rev s' ++ String c EmptyString)%string
  end.

Definition rstrip (s : string) : string := rev (lstrip (rev s)).

(** [c.strip()] *)
Definition strip (s : string) : string := rstrip (lstrip s).

Definition is_bom (a b c : ascii) : bool :=
  (nat_of_ascii a =? 239) && (nat_of_ascii b =? 187) && (nat_of_ascii c =? 191).

Definition BOM : string :=
  String (ascii_of_nat 239) (String (ascii_of_nat 187) (String (ascii_of_nat 191) EmptyString)).

(** [c.replace(BOM, empty)]: every occurrence is removed, left to right. *)
Fixpoint remove_bom (s : string) : string :=
  match s with
  | EmptyString => EmptyString
  | String a s1 =>
      match s1 with
      | String b (String c s3) =>
          if is_bom a b c then remove_bom s3 else String a (remove_bom s1)
      | _ => String a (remove_bom s1)
      end
  end.

Definition lower_char (c : ascii) : ascii :=
  let n := nat_of_ascii c in
  if (65 <=? n) && (n <=? 90) then ascii_of_nat (n + 32) else c.

(** [.str.lower()] *)
Fixpoint lower (s : string) : string :=
  match s with
  | EmptyString => EmptyString
  | String c s' => String (lower_char c) (lower s')
  end.

(** [", ".join(xs)] *)
Fixpoint join (sep : string) (xs : list string) : string :=
  match xs with
  | [] => EmptyString
  | [x] => x
  | x :: t => (x ++ sep ++ join sep t)%string
  end.

(** [repr] of a list of plain strings, as an f-string prints it. *)
Definition repr_list (xs : list string) : string :=
  ("[" ++ join ", " (map (fun s => "'" ++ s ++ "'")%string xs) ++ "]")%string.

Definition str_of_nat (n : nat) : string :=
  NilEmpty.string_of_uint (Nat.to_uint n).

End PyStr.

(** ** Frames *)

Inductive cell : Type :=
| CNull
| CStr (s : string)
| CNum (q : Q)
| CDate (d : Z).

Record DataFrame : Type := mkDF {
  columns : list string;
  rows : list (list cell)
}.

Definition mem (c : string) (cols : list string) : bool :=
  existsb (String.eqb c) cols.

Fixpoint col_index (c : string) (cols : list string) : option nat :=
  match cols with
  | [] => None
  | h :: t => if String.eqb c h then Some 0
              else option_map S (col_index c t)
  end.

(** The cell of row [r] under label [c]: the column labelled [c] of a
    frame with pairwise distinct labels, the first such column otherwise. *)
Definition get (cols : list string) (c : string) (r : list cell) : cell :=
  match col_index c cols with
  | Some i => nth i r CNull
  | None => CNull
  end.

Definition isnull (v : cell) : bool :=
  match v with CNull => true | _ => false end.

(** Equality of cells as pandas hashes them: two missing values are equal. *)
Definition cell_eqb (a b : cell) : bool :=
  match a, b with
  | CNull, CNull => true
  | CStr s, CStr t => String.eqb s t
  | CNum p, CNum q => Qeq_bool p q
  | CDate d, CDate e => Z.eqb d e
  | _, _ => false
  end.

Fixpoint key_eqb (a b : list cell) : bool :=
  match a, b with
  | [], [] => true
  | x :: a', y :: b' => cell_eqb x y && key_eqb a' b'
  | _, _ => false
  end.

Definition key_of (cols subset : list string) (r : list cell) : list cell :=
  map (fun c => get cols c r) subset.

(** ** datos.py *)

Definition PAIS_BASE : string := "Ecuador".
Definition PAIS_COMPARATIVO : string := "Peru".
Definition PAISES : list string := [PAIS_BASE; PAIS_COMPARATIVO].

Definition ALT : list (string * list string) :=
  [ ("location", ["location"; "entity"; "country"; "country_name"; "location_name"; "place"]);
    ("date", ["date"; "day"]);
    ("new_cases", ["new_cases"; "new_cases_daily"]);
    ("people_vaccinated", ["people_vaccinated"; "people_with_at_least_one_dose"]);
    ("population", ["population"; "pop"]) ].

Definition clean_header (c : string) : string :=
  PyStr.lower (PyStr.remove_bom (PyStr.strip c)).

(** A Python [dict] from label to label, in insertion order. *)
Definition dict := list (string * string).

Fixpoint dict_get (m : dict) (k : string) : option string :=
  match m with
  | [] => None
  | (k', v) :: t => if String.eqb k k' then Some v else dict_get t k
  end.

Fixpoint dict_set (m : dict) (k v : string) : dict :=
  match m with
  | [] => [(k, v)]
  | (k', v') :: t => if String.eqb k k' then (k, v) :: t
                     else (k', v') :: dict_set t k v
  end.

(** [next((c for c in candidates if c in df.columns), None)] *)
Definition first_found (candidates cols : list string) : option string :=
  find (fun c => mem c cols) candidates.

Definition truthy (s : string) : bool :=
  match s with EmptyString => false | _ => true end.

(** One turn of the loop [for canon, candidates in ALT.items()]. *)
Definition rename_step (cols : list string) (m : dict)
    (entry : string * list string) : dict :=
  let (canon, candidates) := entry in
  match first_found candidates cols with
  | Some found =>
      if truthy found && negb (String.eqb found canon)
      then dict_set m found canon else m
  | None => m
  end.

Definition build_rename_map (alt : list (string * list string))
    (cols : list string) : dict :=
  fold_left (rename_step cols) alt [].

Definition rename_label (m : dict) (c : string) : string :=
  match dict_get m c with Some v => v | None => c end.

(** [df.rename(columns=m)]: a new frame. *)
Definition rename (m : dict) (df : DataFrame) : DataFrame :=
  mkDF (map (rename_label m) (columns df)) (rows df).

(** The store of frame objects; a reference is a position in it. *)
Definition ref := nat.
Definition store := list DataFrame.

Definition deref (h : store) (r : ref) : option DataFrame := nth_error h r.

Fixpoint assign (h : store) (r : ref) (d : DataFrame) : store :=
  match h, r with
  | [], _ => []
  | _ :: t, 0 => d :: t
  | x :: t, S r' => x :: assign t r' d
  end.

Definition alloc (h : store) (d : DataFrame) : store * ref :=
  (h ++ [d], length h).

(** [_canon(df)]: the first statement assigns to [df.columns] of the
    caller's object; [df.rename] then builds a new object, and only when
    the rename map is not empty. Returns the reference held by [df] at
    [return] and the store. *)
Definition _canon (h : store) (r : ref) : option (ref * store) :=
  match deref h r with
  | None => None
  | Some df =>
      let cleaned := map clean_header (columns df) in
      let h1 := assign h r (mkDF cleaned (rows df)) in
      let rename_map := build_rename_map ALT cleaned in
      match rename_map with
      | [] => Some (r, h1)
      | _ :: _ =>
          let (h2, r2) := alloc h1 (rename rename_map (mkDF cleaned (rows df))) in
          Some (r2, h2)
      end
  end.

(** The frame that [_canon] returns, read off the store. *)
Definition canon_result (df : DataFrame) : option DataFrame :=
  match _canon [df] 0 with
  | Some (r, h) => deref h r
  | None => None
  end.

Inductive result (A : Type) : Type :=
| Ok (a : A)
| KeyError (msg : string).
Arguments Ok {A} a.
Arguments KeyError {A} msg.

Definition missing_columns (cols : list string) (need : list string) : list string :=
  filter (fun c => negb (mem c cols)) need.

Definition require_message : string := "Faltan columnas requeridas tras normalizar: ".

Definition _require (df : DataFrame) (cols : list string) : result unit :=
  match missing_columns (columns df) cols with
  | [] => Ok tt
  | missing => KeyError (require_message ++ PyStr.repr_list missing)%string
  end.

Definition REQUIRED : list string :=
  ["location"; "date"; "new_cases"; "people_vaccinated"; "population"].

(** The frame operations of [datos_procesados] and of the checks, on a
    frame with pairwise distinct labels (see the conventions): each label
    of a subset names one column. *)

(** [df.dropna(subset=...)] *)
Definition dropna_subset (subset : list string) (df : DataFrame) : DataFrame :=
  mkDF (columns df)
       (filter (fun r => negb (existsb (fun c => isnull (get (columns df) c r)) subset))
               (rows df)).

(** [df.duplicated(subset=...)]: a row is flagged when an earlier row has
    the same key. [seen] holds the keys met so far. *)
Fixpoint duplicated_from (seen : list (list cell)) (keys : list (list cell)) : list bool :=
  match keys with
  | [] => []
  | k :: t => existsb (key_eqb k) seen :: duplicated_from (k :: seen) t
  end.

Definition duplicated (subset : list string) (df : DataFrame) : list bool :=
  duplicated_from [] (map (key_of (columns df) subset) (rows df)).

Fixpoint keep_unflagged {A : Type} (xs : list A) (flags : list bool) : list A :=
  match xs, flags with
  | x :: xs', b :: flags' =>
      if b then keep_unflagged xs' flags' else x :: keep_unflagged xs' flags'
  | _, _ => []
  end.

(** [df.drop_duplicates(subset=...)], keeping the first of each key. *)
Definition drop_duplicates (subset : list string) (df : DataFrame) : DataFrame :=
  mkDF (columns df) (keep_unflagged (rows df) (duplicated subset df)).

Definition isin (v : cell) (xs : list string) : bool :=
  match v with CStr s => mem s xs | _ => false end.

(** [df[df["location"].isin(PAISES)]] *)
Definition filter_paises (df : DataFrame) : DataFrame :=
  mkDF (columns df)
       (filter (fun r => isin (get (columns df) "location" r) PAISES) (rows df)).

(** [df[cols]] *)
Definition select (cols : list string) (df : DataFrame) : DataFrame :=
  mkDF cols (map (fun r => map (fun c => get (columns df) c r) cols) (rows df)).

Definition datos_procesados (leer_datos : DataFrame) : result DataFrame :=
  let df := leer_datos in
  match _require df REQUIRED with
  | KeyError msg => KeyError msg
  | Ok _ =>
      let df := dropna_subset ["new_cases"; "people_vaccinated"] df in
      let df := drop_duplicates ["location"; "date"] df in
      let df := filter_paises df in
      Ok (select REQUIRED df)
  end.

(** ** checks.py *)

Record AssetCheckResult : Type := mkCheck {
  passed : bool;
  description : string
}.

Definition _columns_missing (df : DataFrame) (cols : list string) : list string :=
  filter (fun c => negb (mem c (columns df))) cols.

Definition count_true (bs : list bool) : nat :=
  length (filter (fun b => b) bs).

Definition unique_loc_date (leer_datos : DataFrame) : AssetCheckResult :=
  let need := ["location"; "date"] in
  match _columns_missing leer_datos need with
  | (_ :: _) as miss => mkCheck false ("Faltan columnas: " ++ PyStr.repr_list miss)%string
  | [] =>
      let dup := count_true (duplicated need leer_datos) in
      mkCheck (dup =? 0) ("duplicados (location,date): " ++ PyStr.str_of_nat dup)%string
  end.

(** ** metricas.py *)

(** A row of [datos_procesados]: the entity, the timestamp that
    [pd.to_datetime] gives for its date (a day number), and the three
    numeric columns, each a finite number or missing. *)
Record Row : Type := mkRow {
  location : string;
  date : Z;
  new_cases : option Q;
  people_vaccinated : option Q;
  population : option Q
}.

(** A numeric column. *)
Definition series := list (option Q).

Definition notna {A : Type} (x : option A) : bool :=
  match x with Some _ => true | None => false end.

(** Number of observations of a window that are not missing. *)
Definition count_valid (xs : series) : nat := length (filter notna xs).

Fixpoint sum_valid (xs : series) : Q :=
  match xs with
  | [] => 0%Q
  | Some q :: t => (q + sum_valid t)%Q
  | None :: t => sum_valid t
  end.

(** The window of [w] rows that ends at position [j] (shorter at the start). *)
Definition window (w : nat) (xs : series) (j : nat) : series :=
  skipn (S j - w) (firstn (S j) xs).

(** [s.rolling(w, min_periods=minp).agg()]: the aggregate of the
    observations of the window, missing when fewer than [minp] of them are
    present. *)
Definition rolling (w minp : nat) (agg : series -> Q) (xs : series) : series :=
  map (fun j => let win := window w xs j in
                if minp <=? count_valid win then Some (agg win) else None)
      (seq 0 (length xs)).

Definition roll_sum (win : series) : Q := sum_valid win.

Definition roll_mean (win : series) : Q :=
  (sum_valid win / inject_Z (Z.of_nat (count_valid win)))%Q.

(** [s.shift(n)] *)
Definition shift (n : nat) (xs : series) : series :=
  firstn (length xs) (repeat None n ++ xs).

(** The values of the group of key [k], in frame order. *)
Definition group_of (keys : list string) (vals : series) (k : string) : series :=
  map snd (filter (fun kv => String.eqb k (fst kv)) (combine keys vals)).

(** The position of row [i] inside its group. *)
Definition rank (keys : list string) (i : nat) : nat :=
  length (filter (String.eqb (nth i keys EmptyString)) (firstn i keys)).

(** [df.groupby(key)[col].transform(f)]: [f] runs on each group's series and
    its results go back to the rows they came from. *)
Definition groupby_transform (keys : list string) (vals : series)
    (f : series -> series) : series :=
  map (fun i => nth (rank keys i) (f (group_of keys vals (nth i keys EmptyString))) None)
      (seq 0 (length keys)).

(** [df.sort_values(["location", "date"])]: a stable sort. *)
Definition row_leb (a b : Row) : bool :=
  match String.compare (location a) (location b) with
  | Lt => true
  | Gt => false
  | Eq => (date a <=? date b)%Z
  end.

Fixpoint insert_row (r : Row) (l : list Row) : list Row :=
  match l with
  | [] => [r]
  | h :: t => if row_leb r h then r :: l else h :: insert_row r t
  end.

Fixpoint sort_values (l : list Row) : list Row :=
  match l with
  | [] => []
  | h :: t => insert_row h (sort_values t)
  end.

(** [(new_cases / population.replace({0: NA})) * 100000], one cell of the
    quotient. What a 0 among the populations does to the column as a whole
    is in [metrica_incidencia_7d_asset]. *)
Definition incidencia_diaria (r : Row) : option Q :=
  match new_cases r, population r with
  | Some n, Some p =>
      if Qeq_bool p 0 then None else Some (n / p * 100000)%Q
  | _, _ => None
  end.

Record IncidenceRow : Type := mkIncidence {
  inc_date : Z;
  inc_location : string;
  incidencia_7d : option Q
}.

(** The column [df["incidencia_diaria"]]. *)
Definition col_incidencia_diaria (df : list Row) : series :=
  map incidencia_diaria df.

(** The column [df["incidencia_7d"]]. *)
Definition col_incidencia_7d (df : list Row) : series :=
  groupby_transform (map location df) (col_incidencia_diaria df)
                    (rolling 7 7 roll_mean).

(** The table that [metrica_incidencia_7d] returns when it returns, that is
    when the rolling mean runs on a float column;
    [metrica_incidencia_7d_asset] adds the call that raises. *)
Definition metrica_incidencia_7d (datos_procesados : list Row) : list IncidenceRow :=
  let df := sort_values datos_procesados in
  let table := map (fun rv => mkIncidence (date (fst rv)) (location (fst rv)) (snd rv))
                   (combine df (col_incidencia_7d df)) in
  filter (fun o => notna (incidencia_7d o)) table.

(** A quotient of two float cells. *)
Inductive float : Type :=
| Fin (q : Q)
| PInf
| NInf
| NaN.

Definition fdiv (a b : option Q) : float :=
  match a, b with
  | Some x, Some y =>
      if Qeq_bool y 0 then
        (if Qeq_bool x 0 then NaN
         else if Qle_bool 0 x then PInf else NInf)
      else Fin (x / y)%Q
  | _, _ => NaN
  end.

(** [.replace([inf, -inf], pd.NA)] *)
Definition replace_inf (x : float) : float :=
  match x with
  | PInf | NInf => NaN
  | _ => x
  end.

Definition float_isna (x : float) : bool :=
  match x with NaN => true | _ => false end.

Record GrowthRow : Type := mkGrowth {
  semana_fin : Z;
  growth_location : string;
  casos_semana : option Q;
  factor_crec_7d : float
}.

Fixpoint zip_with {A B C : Type} (f : A -> B -> C) (xs : list A) (ys : list B) : list C :=
  match xs, ys with
  | x :: xs', y :: ys' => f x y :: zip_with f xs' ys'
  | _, _ => []
  end.

(** The column [df["casos_semana"]]. *)
Definition col_casos_semana (df : list Row) : series :=
  groupby_transform (map location df) (map new_cases df) (rolling 7 1 roll_sum).

(** The column [df["casos_semana_prev"]]. *)
Definition col_casos_semana_prev (df : list Row) : series :=
  groupby_transform (map location df) (col_casos_semana df) (shift 7).

(** The column [df["factor_crec_7d"]], infinities already replaced. *)
Definition col_factor_crec_7d (df : list Row) : list float :=
  map replace_inf (zip_with fdiv (col_casos_semana df) (col_casos_semana_prev df)).

Definition metrica_factor_crec_7d (datos_procesados : list Row) : list GrowthRow :=
  let df := datos_procesados in
  let table := zip_with (fun r cf => mkGrowth (date r) (location r) (fst cf) (snd cf))
                        df (combine (col_casos_semana df) (col_factor_crec_7d df)) in
  filter (fun g => notna (casos_semana g) && negb (float_isna (factor_crec_7d g))) table.

(** The rows of entity [loc] among the first [i + 1] rows of the frame:
    the row at [i] and the rows of its entity before it, in frame order. *)
Definition history (df : list Row) (i : nat) (loc : string) : list Row :=
  filter (fun r => String.eqb loc (location r)) (firstn (S i) df).

(** The last [n] elements of a list (all of it when it is shorter). *)
Definition last_n {A : Type} (n : nat) (l : list A) : list A :=
  skipn (length l - n) l.

Definition row_le (a b : Row) : Prop := row_leb a b = true.

Definition date_le (a b : Row) : Prop := (date a <= date b)%Z.

(** The rows of entity [loc], in frame order. *)
Definition entity_rows (df : list Row) (loc : string) : list Row :=
  filter (fun r => String.eqb loc (location r)) df.

Definition mean7 (win : series) : Q := (sum_valid win / 7)%Q.

(** Reading a processed frame as the rows the metrics work on. *)
Definition num_of_cell (v : cell) : option Q :=
  match v with CNum q => Some q | _ => None end.


(** Aliases are resolved correctly when each canonical name heads its own
    candidate list and no canonical name is listed twice. *)
Definition canon_heads_candidates (alt : list (string * list string)) : Prop :=
  forall cn cands, In (cn, cands) alt -> exists tl, cands = cn :: tl.


(** ** Sample inputs *)


Definition frame_padded_alias : DataFrame :=
  mkDF [" Date "; "Entity"] [[CStr "2020-03-01"; CStr "Peru"]].


Definition obs (loc : string) (day cases pop : Z) : Row :=
  mkRow loc day (Some (inject_Z cases)) (Some 1%Q) (Some (inject_Z pop)).

(** Eight days of one entity, in date order, with 1, 2, ..., 8 new cases. *)
Definition eight_days : list Row :=
  map (fun d => obs "Peru" d d 100000) [1; 2; 3; 4; 5; 6; 7; 8]%Z.

(** The same eight records, latest first. *)
Definition eight_days_latest_first : list Row := rev eight_days.

(** Six days of one entity. *)
Definition six_days : list Row :=
  map (fun d => obs "Peru" d d 100000) [1; 2; 3; 4; 5; 6]%Z.

(** A week with one case a day, then a week without cases. *)
Definition fading_fortnight : list Row :=
  map (fun d => obs "Peru" d 1 100000) [1; 2; 3; 4; 5; 6; 7]%Z ++
  map (fun d => obs "Peru" d 0 100000) [8; 9; 10; 11; 12; 13; 14]%Z.

(** A week with one case a day, then a week of downward corrections. *)
Definition corrected_fortnight : list Row :=
  map (fun d => obs "Peru" d 1 100000) [1; 2; 3; 4; 5; 6; 7]%Z ++
  map (fun d => obs "Peru" d (-1) 100000) [8; 9; 10; 11; 12; 13; 14]%Z.

(** Thirteen days with 1, 2, ..., 13 new cases among 100000 people. *)
Definition thirteen_days : list Row :=
  map (fun d => obs "Peru" d d 100000)
      [1; 2; 3; 4; 5; 6; 7; 8; 9; 10; 11; 12; 13]%Z.

(** Seven days with 7 new cases each; the population of day 3 is 0. *)
Definition week_with_zero_population : list Row :=
  map (fun d => obs "Peru" d 7 (if (d =? 3)%Z then 0 else 100000))
      [1; 2; 3; 4; 5; 6; 7]%Z.

(** The first row of the incidence table of a record set. *)
Definition first_incidence_row (datos : list Row) : IncidenceRow :=
  hd (mkIncidence 0 EmptyString None) (metrica_incidencia_7d datos).

(** A raw frame with a row of an entity that is not configured, a row of
    Peru without population, and a second row of Peru for the same date. *)
Definition frame_three_rows : DataFrame :=
  mkDF REQUIRED
       [[CStr "Brazil"; CDate 1; CNum 5; CNum 2; CNum 1000];
        [CStr "Peru"; CDate 1; CNum 5; CNum 2; CNull];
        [CStr "Peru"; CDate 1; CNum 6; CNum 2; CNum 1000]].

(** A row has both metrics that [dropna] looks at. *)
Definition complete (cols : list string) (r : list cell) : bool :=
  negb (existsb (fun c => isnull (get cols c r)) ["new_cases"; "people_vaccinated"]).

(** The row as [df[cols]] returns it. *)
Definition project (cols : list string) (r : list cell) : list cell :=
  map (fun c => get cols c r) REQUIRED.

(** ** More of datos.py and checks.py *)

(** The frame that [_canon] returns for a frame the caller holds. *)
Definition canon_value (df : DataFrame) : DataFrame :=
  match canon_result df with Some out => out | None => df end.

Fixpoint update_nth {A : Type} (i : nat) (f : A -> A) (l : list A) : list A :=
  match l, i with
  | [], _ => []
  | x :: t, 0 => f x :: t
  | x :: t, S i' => x :: update_nth i' f t
  end.

(** A float cell: a number, or missing. *)
Definition cell_of_option (v : option Q) : cell :=
  match v with Some q => CNum q | None => CNull end.

(** [df[col] = pd.to_numeric(df[col], errors="coerce")]. What pandas reads
    out of a cell that is neither a number nor missing (the text of a CSV
    field) is left to [to_numeric]. *)
Definition coerce_column (to_numeric : cell -> option Q) (col : string)
    (df : DataFrame) : DataFrame :=
  match col_index col (columns df) with
  | Some i =>
      mkDF (columns df)
           (map (update_nth i (fun v => cell_of_option (to_numeric v))) (rows df))
  | None => df
  end.

(** [leer_datos], from the frame that [pd.read_csv] returned on: the
    download, the parsing of the CSV text and the log line are not part of
    the model. The coercion is that of headers that clean to pairwise
    distinct labels; when two headers clean to the same numeric label
    [pd.to_numeric] is handed a frame and raises: that call is outside
    the model. *)
Definition leer_datos (to_numeric : cell -> option Q) (csv : DataFrame)
    : result DataFrame :=
  let df := canon_value csv in
  let df :=
    fold_left (fun d col => if mem col (columns d)
                            then coerce_column to_numeric col d else d)
              ["new_cases"; "people_vaccinated"; "population"] df in
  match _require df ["location"; "date"] with
  | KeyError msg => KeyError msg
  | Ok _ => Ok df
  end.

(** The column [df[c]] as a list of cells. *)
Definition column (df : DataFrame) (c : string) : list cell :=
  map (get (columns df) c) (rows df).

(** [series.max()] of timestamps, missing values skipped; [None] is NaT. *)
Fixpoint max_date (xs : list (option Z)) : option Z :=
  match xs with
  | [] => None
  | None :: t => max_date t
  | Some d :: t =>
      match max_date t with
      | Some m => Some (Z.max d m)
      | None => Some d
      end
  end.

(** [max_date_not_future]. [to_datetime] is [pd.to_datetime(errors="coerce")]
    on one cell, [today] is [dt.date.today()] and [isoformat] prints a date.
    The frame has one column labelled date. *)
Definition max_date_not_future (to_datetime : cell -> option Z) (today : Z)
    (isoformat : Z -> string) (leer_datos : DataFrame) : AssetCheckResult :=
  if negb (mem "date" (columns leer_datos))
  then mkCheck false "Columna 'date' no existe"
  else
    match max_date (map to_datetime (column leer_datos "date")) with
    | None => mkCheck false "max(date)=NaT"
    | Some maxd =>
        let ok := true in
        let nota := if (today <? maxd)%Z then "> hoy (advertencia)" else "ok" in
        mkCheck ok ("max(date)=" ++ isoformat maxd ++ " " ++ nota)%string
    end.

Definition keys_not_null (leer_datos : DataFrame) : AssetCheckResult :=
  let need := ["location"; "date"; "population"] in
  match _columns_missing leer_datos need with
  | (_ :: _) as miss => mkCheck false ("Faltan columnas: " ++ PyStr.repr_list miss)%string
  | [] =>
      let nnull :=
        length (filter (fun r => existsb (fun c => isnull (get (columns leer_datos) c r)) need)
                       (rows leer_datos)) in
      mkCheck true (" " ++ PyStr.str_of_nat nnull ++
                    " filas con nulos en claves (advertencia)")%string
  end.

(** [(serie <= 0)], [(serie < 0)] and [(serie > 2000)] on one value: a
    comparison with a missing value is false. *)
Definition le_zero (v : option Q) : bool :=
  match v with Some q => Qle_bool q 0 | None => false end.

Definition lt_zero (v : option Q) : bool :=
  match v with Some q => negb (Qle_bool 0 q) | None => false end.

Definition gt_2000 (v : option Q) : bool :=
  match v with Some q => negb (Qle_bool q 2000) | None => false end.

Definition gt_zero (v : option Q) : bool :=
  match v with Some q => negb (Qle_bool q 0) | None => false end.

Definition population_positive (to_numeric : cell -> option Q)
    (leer_datos : DataFrame) : AssetCheckResult :=
  if negb (mem "population" (columns leer_datos))
  then mkCheck false "Falta columna 'population'"
  else
    let pop := map to_numeric (column leer_datos "population") in
    let nonpos := length (filter le_zero pop) in
    mkCheck (nonpos =? 0) ("population<=0: " ++ PyStr.str_of_nat nonpos)%string.

Definition new_cases_nonnegative (to_numeric : cell -> option Q)
    (leer_datos : DataFrame) : AssetCheckResult :=
  if negb (mem "new_cases" (columns leer_datos))
  then mkCheck false "Falta columna 'new_cases'"
  else
    let vals := map to_numeric (column leer_datos "new_cases") in
    let neg := length (filter lt_zero vals) in
    mkCheck (neg =? 0) ("new_cases<0: " ++ PyStr.str_of_nat neg)%string.

Definition incidencia_en_rango (to_numeric : cell -> option Q)
    (metrica_incidencia_7d : DataFrame) : AssetCheckResult :=
  if negb (mem "incidencia_7d" (columns metrica_incidencia_7d))
  then mkCheck false "Falta 'incidencia_7d'"
  else
    let serie := map to_numeric (column metrica_incidencia_7d "incidencia_7d") in
    let fuera := length (filter (fun v => lt_zero v || gt_2000 v) serie) in
    mkCheck (fuera =? 0) ("valores fuera de [0,2000]: " ++ PyStr.str_of_nat fuera)%string.

(** [factor_crec_valido] on a column of finite or missing values (a cell
    holds no infinity, so the [replace] of infinities changes nothing):
    the missing ones are counted by [isna()] and again by [~(... > 0)]. *)
Definition factor_crec_valido (to_numeric : cell -> option Q)
    (metrica_factor_crec_7d : DataFrame) : AssetCheckResult :=
  if negb (mem "factor_crec_7d" (columns metrica_factor_crec_7d))
  then mkCheck false "Falta 'factor_crec_7d'"
  else
    let serie := map to_numeric (column metrica_factor_crec_7d "factor_crec_7d") in
    let invalidos :=
      length (filter (fun v => negb (notna v)) serie) +
      length (filter (fun v => negb (gt_zero v)) serie) in
    mkCheck true
      ("⚠️ " ++ PyStr.str_of_nat invalidos ++
       " registros inválidos (NaN/inf/<=0 en ventanas tempranas)")%string.

(** The tables of the two metrics as frames, columns in the order the
    source selects them; the growth table names its date [semana_fin]. *)
Definition incidence_frame (t : list IncidenceRow) : DataFrame :=
  mkDF ["date"; "location"; "incidencia_7d"]
       (map (fun o => [CDate (inc_date o); CStr (inc_location o);
                       cell_of_option (incidencia_7d o)]) t).

Definition cell_of_float (x : float) : cell :=
  match x with Fin q => CNum q | _ => CNull end.

Definition growth_frame (t : list GrowthRow) : DataFrame :=
  mkDF ["semana_fin"; "location"; "casos_semana"; "factor_crec_7d"]
       (map (fun g => [CDate (semana_fin g); CStr (growth_location g);
                       cell_of_option (casos_semana g);
                       cell_of_float (factor_crec_7d g)]) t).

(** What is known of [pd.to_numeric] and [pd.to_datetime] on the cells the
    model distinguishes: a number is itself, a date is itself, a missing
    value stays missing. *)
Definition numeric_coercion (to_numeric : cell -> option Q) : Prop :=
  (forall q, to_numeric (CNum q) = Some q) /\ to_numeric CNull = None.

Definition datetime_coercion (to_datetime : cell -> option Z) : Prop :=
  (forall d, to_datetime (CDate d) = Some d) /\ to_datetime CNull = None.

(** The values of [xs] on the rows whose key is [k]. *)
Definition pick {A : Type} (keys : list string) (k : string) (xs : list A) : list A :=
  map snd (filter (fun kv => String.eqb k (fst kv)) (combine keys xs)).

(** A frame gives every row one cell per column. *)
Definition rectangular (df : DataFrame) : Prop :=
  forall r, In r (rows df) -> length r = length (columns df).

(** No two rows of the record set share entity and date. *)
Definition unique_keys (datos : list Row) : Prop :=
  forall a b, In a datos -> In b datos ->
              location a = location b -> date a = date b -> a = b.

Definition incidence_le (a b : IncidenceRow) : Prop :=
  match String.compare (inc_location a) (inc_location b) with
  | Lt => True
  | Gt => False
  | Eq => (inc_date a <= inc_date b)%Z
  end.

(** The rename map after the entries [done] of the alias table: a label is
    a key exactly when it is the first candidate present of one of them and
    differs from its canonical name. *)
Definition rename_spec (cols : list string) (done : list (string * list string))
    (m : dict) : Prop :=
  forall c cn,
    dict_get m c = Some cn <->
    exists cands, In (cn, cands) done /\ first_found cands cols = Some c /\
                  truthy c && negb (String.eqb c cn) = true.

(** No alias is listed under two canonical names. *)
Definition own_candidates (alt : list (string * list string)) : Prop :=
  forall e1 e2 a, In e1 alt -> In e2 alt -> In a (snd e1) -> In a (snd e2) -> e1 = e2.

(** Every cell of column [col] is a number or missing. *)
Definition numeric_or_missing (df : DataFrame) (col : string) : Prop :=
  forall r, In r (rows df) -> exists v, get (columns df) col r = cell_of_option v.

(** A CSV frame with padded and aliased headers and a text in new_cases. *)
Definition csv_sample : DataFrame :=
  mkDF [" Entity"; "Day"; "new_cases"; "pop"]
       [[CStr "Peru"; CDate 1; CStr "n/a"; CNum 5];
        [CStr "Peru"; CDate 2; CNum 3; CNull]].

(** No row of [l] has the key of a row before it. *)
Definition no_repeat (f : list cell -> list cell) (l : list (list cell)) : Prop :=
  forall l1 x l2, l = l1 ++ x :: l2 ->
                  forall y, In y l1 -> key_eqb (f x) (f y) = false.

(** No negative case count and no negative population in the record set. *)
Definition nonneg_inputs (datos : list Row) : Prop :=
  forall r, In r datos ->
    (forall n, new_cases r = Some n -> (0 <= n)%Q) /\
    (forall p, population r = Some p -> (0 <= p)%Q).

Definition nonneg_series (xs : series) : Prop :=
  forall q, In (Some q) xs -> (0 <= q)%Q.

(** A growth row whose factor is not above 0. *)
Definition nonpositive_factor (g : GrowthRow) : bool :=
  match factor_crec_7d g with Fin q => Qle_bool q 0 | _ => false end.

(** Eight days of one entity without a case. *)
Definition zero_days : list Row :=
  map (fun d => obs "Peru" d 0 100000) [1; 2; 3; 4; 5; 6; 7; 8]%Z.

(** Every character of the string is ASCII whitespace. *)
Fixpoint all_space (s : string) : bool :=
  match s with
  | EmptyString => true
  | String c s' => PyStr.isspace c && all_space s'
  end.

(** ** [metrica_incidencia_7d] with its error path *)

(** What a call gives back: the value it returned, or the DataError it
    raised. *)
Inductive outcome (A : Type) : Type :=
| Returned (a : A)
| DataError.
Arguments Returned {A} a.
Arguments DataError {A}.

(** The dtype of a column of numbers. *)
Inductive dtype : Type :=
| float64
| object.

(** The dtype of [population.replace({0: pd.NA})]: a float column in which
    nothing is replaced stays a float column; once a 0 is replaced by
    [pd.NA] the result is an object column. *)
Definition replace_zero_dtype (pop : series) : dtype :=
  if existsb (fun v => match v with
                       | Some p => Qeq_bool p 0
                       | None => false
                       end) pop
  then object else float64.

(** [metrica_incidencia_7d] as a call of the asset. On a float column the
    table is the one of [metrica_incidencia_7d]. When the replacement has
    made the population an object column, the quotient is an object column
    too and [rolling(7, min_periods=7).mean()] raises DataError: no table
    is returned, for any entity. *)
Definition metrica_incidencia_7d_asset (datos_procesados : list Row)
    : outcome (list IncidenceRow) :=
  let df := sort_values datos_procesados in
  match replace_zero_dtype (map population df) with
  | object => DataError
  | float64 => Returned (metrica_incidencia_7d datos_procesados)
  end.

(** Some population of the record set is exactly 0. *)
Definition has_zero_population (datos : list Row) : bool :=
  existsb (fun r => match population r with
                    | Some p => Qeq_bool p 0
                    | None => false
                    end) datos.

(** A timestamp cell read as a day number. *)
Definition date_of_cell (v : cell) : option Z :=
  match v with CDate d => Some d | _ => None end.

(** A frame that has lost its date column. *)
Definition frame_without_date : DataFrame :=
  mkDF ["location"; "new_cases"] [[CStr "Peru"; CNum 5]].

(** A day number printed in decimal, standing for [isoformat] in the
    examples. *)
Definition day_label (d : Z) : string := PyStr.str_of_nat (Z.to_nat d).

(** A row has a null under one of the three key columns. *)
Definition null_in_keys (cols : list string) (r : list cell) : bool :=
  existsb (fun c => isnull (get cols c r)) ["location"; "date"; "population"].

(** * Properties *)

(** Proves that the labels of a given header are pairwise distinct. *)
Ltac distinct_labels :=
  cbv;
  repeat (apply NoDup_cons; [simpl; intuition discriminate|]);
  apply NoDup_nil.

(** ** Lists and labels *)

Lemma mem_In (c : string) (cols : list string) :
  mem c cols = true <-> In c cols.
Proof.
  unfold mem. rewrite existsb_exists. split.
  - intros [x [Hx He]]. apply String.eqb_eq in He. now subst.
  - intros H. exists c. split; [assumption | apply String.eqb_refl].
Qed.

Lemma mem_false_In (c : string) (cols : list string) :
  mem c cols = false <-> ~ In c cols.
Proof.
  rewrite <- mem_In. destruct (mem c cols); split; intros H; congruence.
Qed.

Lemma missing_columns_spec (cols need : list string) (c : string) :
  In c (missing_columns cols need) <-> In c need /\ ~ In c cols.
Proof.
  unfold missing_columns. rewrite filter_In, negb_true_iff, mem_false_In.
  tauto.
Qed.

Lemma missing_columns_nil (cols need : list string) :
  missing_columns cols need = [] <-> (forall c, In c need -> In c cols).
Proof.
  split.
  - intros H c Hc. destruct (mem c cols) eqn:E.
    + now apply mem_In.
    + assert (Hin : In c (missing_columns cols need)).
      { apply missing_columns_spec. split; [assumption | now apply mem_false_In]. }
      rewrite H in Hin. destruct Hin.
  - intros H. destruct (missing_columns cols need) as [|c t] eqn:E; [reflexivity|].
    assert (Hin : In c (missing_columns cols need)) by (rewrite E; now left).
    apply missing_columns_spec in Hin. destruct Hin as [Hn Hc].
    exfalso. apply Hc. now apply H.
Qed.

Lemma nth_error_map_seq {A : Type} (g : nat -> A) (n i : nat) :
  i < n -> nth_error (map g (seq 0 n)) i = Some (g i).
Proof.
  intros H. rewrite nth_error_map, nth_error_seq.
  destruct (Nat.ltb_spec i n); [reflexivity | lia].
Qed.

(** ** [_require] and [datos_procesados] *)

Lemma require_error (df : DataFrame) (cols : list string) (msg : string) :
  _require df cols = KeyError msg <->
  missing_columns (columns df) cols <> [] /\
  msg = (require_message ++ PyStr.repr_list (missing_columns (columns df) cols))%string.
Proof.
  unfold _require. destruct (missing_columns (columns df) cols) as [|c t].
  - split; [discriminate | intros [H _]; congruence].
  - split.
    + intros H. injection H as <-. split; [discriminate | reflexivity].
    + intros [_ ->]. reflexivity.
Qed.

Lemma datos_procesados_error (df : DataFrame) (msg : string) :
  datos_procesados df = KeyError msg <-> _require df REQUIRED = KeyError msg.
Proof.
  unfold datos_procesados. destruct (_require df REQUIRED) as [u|m].
  - split; discriminate.
  - split; intros H; injection H as ->; reflexivity.
Qed.

(** C8. [datos_procesados] raises the structural error exactly when one of
    the five canonical columns is absent from its input; the error depends
    on the column labels alone (it is raised before any row is read, so any
    other rows under the same labels give the same error), and its message
    lists exactly the canonical columns that are absent. *)
Theorem datos_procesados_structural_error (df : DataFrame) :
  ((exists msg, datos_procesados df = KeyError msg) <->
   (exists c, In c REQUIRED /\ ~ In c (columns df))) /\
  (forall msg, datos_procesados df = KeyError msg ->
     msg = (require_message ++
            PyStr.repr_list (missing_columns (columns df) REQUIRED))%string /\
     (forall c, In c (missing_columns (columns df) REQUIRED) <->
                In c REQUIRED /\ ~ In c (columns df)) /\
     (forall other_rows,
        datos_procesados (mkDF (columns df) other_rows) = KeyError msg)).
Proof.
  split.
  - split.
    + intros [msg H]. apply datos_procesados_error, require_error in H.
      destruct H as [Hne _].
      destruct (missing_columns (columns df) REQUIRED) as [|c t] eqn:E;
        [congruence|].
      exists c. apply missing_columns_spec. rewrite E. now left.
    + intros [c Hc]. apply missing_columns_spec in Hc.
      exists (require_message ++
              PyStr.repr_list (missing_columns (columns df) REQUIRED))%string.
      apply datos_procesados_error, require_error. split; [|reflexivity].
      intros E. rewrite E in Hc. destruct Hc.
  - intros msg H. apply datos_procesados_error, require_error in H.
    destruct H as [Hne ->]. split; [reflexivity|]. split.
    + intros c. apply missing_columns_spec.
    + intros other_rows. apply datos_procesados_error, require_error.
      simpl. split; [assumption | reflexivity].
Qed.

(** ** Duplicate keys *)

Lemma In_firstn_nth_error {A : Type} (l : list A) (j : nat) (x : A) :
  In x (firstn j l) <-> exists i, i < j /\ nth_error l i = Some x.
Proof.
  split.
  - intros H. apply In_nth_error in H. destruct H as [i Hi].
    rewrite nth_error_firstn in Hi.
    destruct (Nat.ltb_spec i j); [|discriminate]. now exists i.
  - intros [i [Hlt Hi]]. apply nth_error_In with (n := i).
    rewrite nth_error_firstn.
    destruct (Nat.ltb_spec i j); [assumption | lia].
Qed.

Lemma duplicated_from_nth (ks : list (list cell)) :
  forall seen j kj,
    nth_error ks j = Some kj ->
    nth_error (duplicated_from seen ks) j =
    Some (existsb (key_eqb kj) (rev (firstn j ks) ++ seen)).
Proof.
  induction ks as [|k t IH]; intros seen j kj H.
  - destruct j; discriminate.
  - destruct j as [|j'].
    + simpl in *. now injection H as ->.
    + simpl in H. simpl duplicated_from. simpl nth_error.
      rewrite (IH (k :: seen) j' kj H). simpl firstn. simpl rev.
      now rewrite <- app_assoc.
Qed.

Lemma duplicated_from_length (ks : list (list cell)) :
  forall seen, length (duplicated_from seen ks) = length ks.
Proof.
  induction ks as [|k t IH]; intros seen; simpl; [reflexivity|].
  now rewrite IH.
Qed.

Lemma count_true_zero (bs : list bool) :
  count_true bs = 0 <-> (forall b, In b bs -> b = false).
Proof.
  unfold count_true. induction bs as [|b t IH]; simpl.
  - split; [intros _ b [] | reflexivity].
  - destruct b; simpl.
    + split; [discriminate|]. intros H. specialize (H true (or_introl eq_refl)).
      discriminate.
    + rewrite IH. split.
      * intros H b [<-|Hb]; [reflexivity | now apply H].
      * intros H b Hb. apply H. now right.
Qed.

(** A flag of [duplicated] is set exactly for a row that repeats the key of
    an earlier row. *)
Lemma duplicated_flag (keys : list (list cell)) :
  (exists b, In b (duplicated_from [] keys) /\ b = true) <->
  (exists i j ki kj, i < j /\ nth_error keys i = Some ki /\
                     nth_error keys j = Some kj /\ key_eqb kj ki = true).
Proof.
  split.
  - intros [b [Hb ->]]. apply In_nth_error in Hb. destruct Hb as [j Hj].
    assert (Hlen : j < length keys).
    { rewrite <- (duplicated_from_length keys []).
      apply nth_error_Some. congruence. }
    destruct (nth_error keys j) as [kj|] eqn:Ekj;
      [|apply nth_error_None in Ekj; lia].
    rewrite (duplicated_from_nth keys [] j kj Ekj) in Hj.
    injection Hj as Hj. rewrite app_nil_r in Hj.
    apply existsb_exists in Hj. destruct Hj as [ki [Hin Heq]].
    apply in_rev, In_firstn_nth_error in Hin. destruct Hin as [i [Hlt Hi]].
    exists i, j, ki, kj. auto.
  - intros [i [j [ki [kj [Hlt [Hi [Hj Heq]]]]]]].
    exists true. split; [|reflexivity].
    apply nth_error_In with (n := j).
    rewrite (duplicated_from_nth keys [] j kj Hj). f_equal.
    rewrite app_nil_r. apply existsb_exists. exists ki. split; [|assumption].
    apply in_rev. rewrite rev_involutive. apply In_firstn_nth_error.
    now exists i.
Qed.


(** ** The rename map of [_canon] *)

Lemma dict_get_set (m : dict) (k v k' : string) :
  dict_get (dict_set m k v) k' =
  if String.eqb k' k then Some v else dict_get m k'.
Proof.
  induction m as [|[a b] t IH]; simpl.
  - reflexivity.
  - destruct (String.eqb_spec k a) as [->|Hka]; simpl.
    + destruct (String.eqb_spec k' a); reflexivity.
    + destruct (String.eqb_spec k' a) as [->|Hk'a].
      * destruct (String.eqb_spec a k); [congruence | reflexivity].
      * apply IH.
Qed.

Section RenameMap.

Variable cols : list string.

Lemma first_found_head (cn found : string) (tl : list string) :
  first_found (cn :: tl) cols = Some found ->
  found <> cn -> ~ In cn cols /\ In found cols.
Proof.
  unfold first_found. simpl. destruct (mem cn cols) eqn:E.
  - intros H. injection H as <-. congruence.
  - intros H _. apply find_some in H. destruct H as [_ H].
    split; [now apply mem_false_In | now apply mem_In].
Qed.



End RenameMap.

Lemma ALT_heads : canon_heads_candidates ALT.
Proof.
  intros cn cands H. simpl in H.
  repeat (destruct H as [H|H]; [injection H as <- <-; eexists; reflexivity|]).
  destruct H.
Qed.



(** ** The store *)

Lemma deref_assign_same (h : store) (r : ref) (d : DataFrame) :
  r < length h -> deref (assign h r d) r = Some d.
Proof.
  unfold deref. revert r. induction h as [|x t IH]; intros r H; simpl in *.
  - lia.
  - destruct r; simpl; [reflexivity | apply IH; lia].
Qed.

Lemma deref_assign_other (h : store) (r q : ref) (d : DataFrame) :
  q <> r -> deref (assign h r d) q = deref h q.
Proof.
  unfold deref. revert r q. induction h as [|x t IH]; intros r q H; simpl.
  - reflexivity.
  - destruct r, q; simpl; try reflexivity; try lia. apply IH. lia.
Qed.

Lemma assign_length (h : store) (r : ref) (d : DataFrame) :
  length (assign h r d) = length h.
Proof.
  revert r. induction h as [|x t IH]; intros r; simpl; [reflexivity|].
  destruct r; simpl; [reflexivity | now rewrite IH].
Qed.

Lemma canon_unfold (h : store) (r : ref) (df : DataFrame) :
  deref h r = Some df ->
  let cleaned := mkDF (map clean_header (columns df)) (rows df) in
  let m := build_rename_map ALT (columns cleaned) in
  _canon h r =
  match m with
  | [] => Some (r, assign h r cleaned)
  | _ :: _ => Some (length h, assign h r cleaned ++ [rename m cleaned])
  end.
Proof.
  intros H. unfold _canon. rewrite H. simpl.
  destruct (build_rename_map ALT (map clean_header (columns df))); [reflexivity|].
  unfold alloc. now rewrite assign_length.
Qed.

(** C7 (as amended). [_canon] is not pure: it writes the cleaned labels
    (stripped, BOM removed, lower case) into the caller's frame. The rows of
    that frame and every other frame of the store are left as they were, the
    returned frame has the caller's rows, and a caller whose labels are
    already clean finds its frame unchanged. *)
Theorem canon_writes_cleaned_labels (h : store) (r : ref) (df : DataFrame) :
  deref h r = Some df ->
  exists r' h',
    _canon h r = Some (r', h') /\
    deref h' r = Some (mkDF (map clean_header (columns df)) (rows df)) /\
    (forall q, q <> r -> q < length h -> deref h' q = deref h q) /\
    (map clean_header (columns df) = columns df -> deref h' r = Some df) /\
    (exists out, deref h' r' = Some out /\ rows out = rows df).
Proof.
  intros H. pose proof (canon_unfold h r df H) as Hc. simpl in Hc.
  assert (Hr : r < length h) by (apply nth_error_Some; unfold deref in H; congruence).
  set (cleaned := mkDF (map clean_header (columns df)) (rows df)) in *.
  assert (Hsame : map clean_header (columns df) = columns df -> cleaned = df).
  { intros E. unfold cleaned. rewrite E. now destruct df. }
  destruct (build_rename_map ALT (map clean_header (columns df))) as [|e m].
  - exists r, (assign h r cleaned). split; [exact Hc|].
    rewrite deref_assign_same by assumption.
    split; [reflexivity|]. split.
    + intros q Hq _. now apply deref_assign_other.
    + split.
      * intros E. now rewrite Hsame.
      * exists cleaned. split; reflexivity.
  - exists (length h), (assign h r cleaned ++ [rename (e :: m) cleaned]).
    split; [exact Hc|].
    assert (Hd : forall q, q < length h ->
              deref (assign h r cleaned ++ [rename (e :: m) cleaned]) q =
              deref (assign h r cleaned) q).
    { intros q Hq. unfold deref. apply nth_error_app1. now rewrite assign_length. }
    rewrite Hd, deref_assign_same by assumption.
    split; [reflexivity|]. split.
    + intros q Hq Hlt. rewrite Hd by assumption. now apply deref_assign_other.
    + split.
      * intros E. now rewrite Hsame.
      * exists (rename (e :: m) cleaned). split; [|reflexivity].
        unfold deref. rewrite nth_error_app2; rewrite assign_length; [|lia].
        now rewrite Nat.sub_diag.
Qed.

Lemma canon_writes_cleaned_labels_witness :
  deref [frame_padded_alias] 0 = Some frame_padded_alias /\
  exists r' h',
    _canon [frame_padded_alias] 0 = Some (r', h') /\
    deref h' 0 = Some (mkDF (map clean_header (columns frame_padded_alias))
                            (rows frame_padded_alias)) /\
    (forall q, q <> 0 -> q < length [frame_padded_alias] ->
               deref h' q = deref [frame_padded_alias] q) /\
    (map clean_header (columns frame_padded_alias) = columns frame_padded_alias ->
     deref h' 0 = Some frame_padded_alias) /\
    (exists out, deref h' r' = Some out /\ rows out = rows frame_padded_alias).
Proof.
  split; [reflexivity|].
  apply (canon_writes_cleaned_labels [frame_padded_alias] 0 frame_padded_alias).
  reflexivity.
Defined.

(** C7 (counterexample). After [_canon] ran on a frame labelled [" Date "]
    and ["Entity"], the caller's own frame carries the labels ["date"] and
    ["entity"]: it is not the frame the caller passed in. *)
Lemma canon_mutates_caller_frame :
  exists r' h',
    _canon [frame_padded_alias] 0 = Some (r', h') /\
    option_map columns (deref h' 0) = Some ["date"; "entity"] /\
    option_map columns (deref h' r') = Some ["date"; "location"] /\
    deref h' 0 <> deref [frame_padded_alias] 0.
Proof.
  eexists. eexists. split; [reflexivity|].
  split; [reflexivity|]. split; [reflexivity|].
  simpl. intros H. discriminate H.
Qed.




(** ** Series: windows, shifts and group transforms *)

Lemma nth_error_zip_with {A B C : Type} (f : A -> B -> C) (xs : list A) :
  forall (ys : list B) (i : nat),
    nth_error (zip_with f xs ys) i =
    match nth_error xs i, nth_error ys i with
    | Some x, Some y => Some (f x y)
    | _, _ => None
    end.
Proof.
  induction xs as [|x xs IH]; intros ys i.
  - simpl. now destruct i.
  - destruct ys as [|y ys].
    + simpl. destruct i; simpl; [reflexivity|].
      now destruct (nth_error xs i).
    + destruct i; simpl; [reflexivity | apply IH].
Qed.

Lemma nth_error_combine_pair {A B : Type} (xs : list A) :
  forall (ys : list B) (i : nat),
    nth_error (combine xs ys) i =
    match nth_error xs i, nth_error ys i with
    | Some x, Some y => Some (x, y)
    | _, _ => None
    end.
Proof.
  induction xs as [|x xs IH]; intros ys i.
  - simpl. now destruct i.
  - destruct ys as [|y ys].
    + simpl. destruct i; simpl; [reflexivity|].
      now destruct (nth_error xs i).
    + destruct i; simpl; [reflexivity | apply IH].
Qed.

Lemma nth_of_nth_error {A : Type} (l : list A) (i : nat) (d : A) :
  nth i l d = match nth_error l i with Some x => x | None => d end.
Proof.
  revert i. induction l as [|x l IH]; intros [|i]; simpl; auto.
Qed.

Lemma rolling_length (w m : nat) (agg : series -> Q) (xs : series) :
  length (rolling w m agg xs) = length xs.
Proof. unfold rolling. now rewrite length_map, length_seq. Qed.

Lemma rolling_nth (w m : nat) (agg : series -> Q) (xs : series) (j : nat) :
  j < length xs ->
  nth j (rolling w m agg xs) None =
  if m <=? count_valid (window w xs j) then Some (agg (window w xs j)) else None.
Proof.
  intros H. rewrite nth_of_nth_error. unfold rolling.
  now rewrite nth_error_map_seq.
Qed.

Lemma shift_nth_lt (n : nat) (xs : series) (j : nat) :
  j < n -> nth j (shift n xs) None = None.
Proof.
  intros H. unfold shift. rewrite nth_firstn.
  destruct (j <? length xs); [|reflexivity].
  rewrite app_nth1 by (now rewrite repeat_length).
  destruct (nth_in_or_default j (repeat (@None Q) n) None) as [Hin|E];
    [now apply repeat_spec in Hin | exact E].
Qed.

Lemma shift_nth_ge (n : nat) (xs : series) (j : nat) :
  n <= j -> j < length xs -> nth j (shift n xs) None = nth (j - n) xs None.
Proof.
  intros H Hj. unfold shift. rewrite nth_firstn.
  destruct (Nat.ltb_spec j (length xs)); [|lia].
  rewrite app_nth2; rewrite repeat_length; [reflexivity | lia].
Qed.

Lemma groupby_transform_length (keys : list string) (vals : series)
    (f : series -> series) :
  length (groupby_transform keys vals f) = length keys.
Proof. unfold groupby_transform. now rewrite length_map, length_seq. Qed.

Lemma groupby_transform_nth (keys : list string) (vals : series)
    (f : series -> series) (i : nat) :
  i < length keys ->
  nth i (groupby_transform keys vals f) None =
  nth (rank keys i) (f (group_of keys vals (nth i keys EmptyString))) None.
Proof.
  intros H. rewrite nth_of_nth_error. unfold groupby_transform.
  now rewrite nth_error_map_seq.
Qed.

Lemma group_of_map (df : list Row) (val : Row -> option Q) (k : string) :
  group_of (map location df) (map val df) k =
  map val (filter (fun r => String.eqb k (location r)) df).
Proof.
  unfold group_of. induction df as [|r df IH]; simpl; [reflexivity|].
  destruct (String.eqb k (location r)); simpl; now rewrite IH.
Qed.

Lemma filter_map_length {A B : Type} (p : B -> bool) (f : A -> B) (l : list A) :
  length (filter p (map f l)) = length (filter (fun x => p (f x)) l).
Proof.
  induction l as [|x l IH]; simpl; [reflexivity|].
  destruct (p (f x)); simpl; now rewrite IH.
Qed.

Lemma nth_map_location (df : list Row) (i : nat) (r : Row) :
  nth_error df i = Some r -> nth i (map location df) EmptyString = location r.
Proof.
  intros H. rewrite nth_of_nth_error, nth_error_map, H. reflexivity.
Qed.

Lemma rank_map (df : list Row) (i : nat) (r : Row) :
  nth_error df i = Some r ->
  rank (map location df) i =
  length (filter (fun r' => String.eqb (location r) (location r')) (firstn i df)).
Proof.
  intros H. unfold rank. rewrite (nth_map_location df i r H).
  now rewrite firstn_map, filter_map_length.
Qed.

Lemma firstn_S_nth_error {A : Type} (l : list A) :
  forall i x, nth_error l i = Some x -> firstn (S i) l = firstn i l ++ [x].
Proof.
  induction l as [|a l IH]; intros [|i] x H; simpl in *; try discriminate.
  - now injection H as ->.
  - f_equal. now apply IH.
Qed.

Lemma history_split (df : list Row) (i : nat) (r : Row) :
  nth_error df i = Some r ->
  history df i (location r) =
  filter (fun r' => String.eqb (location r) (location r')) (firstn i df) ++ [r].
Proof.
  intros H. unfold history. rewrite (firstn_S_nth_error df i r H), filter_app.
  simpl. now rewrite String.eqb_refl.
Qed.

Lemma history_length (df : list Row) (i : nat) (r : Row) :
  nth_error df i = Some r ->
  length (history df i (location r)) = S (rank (map location df) i).
Proof.
  intros H. rewrite (history_split df i r H), length_app, (rank_map df i r H).
  simpl. lia.
Qed.

Lemma history_prefix (df : list Row) (i : nat) (r : Row) :
  nth_error df i = Some r ->
  firstn (S (rank (map location df) i))
         (filter (fun r' => String.eqb (location r) (location r')) df) =
  history df i (location r).
Proof.
  intros H. rewrite (history_split df i r H), (rank_map df i r H).
  set (p := fun r' => String.eqb (location r) (location r')).
  assert (Hf : filter p df =
               filter p (firstn i df) ++ r :: filter p (skipn (S i) df)).
  { rewrite <- (firstn_skipn (S i) df) at 1.
    rewrite (firstn_S_nth_error df i r H), <- app_assoc, filter_app. simpl.
    replace (p r) with true by (unfold p; now rewrite String.eqb_refl).
    reflexivity. }
  rewrite Hf, firstn_app, firstn_all2 by lia.
  replace (S (length (filter p (firstn i df))) - length (filter p (firstn i df)))
    with 1 by lia.
  reflexivity.
Qed.

(** The value that a grouped rolling aggregate leaves at row [i]: the
    aggregate of the last [w] values of the entity up to that row. *)
Lemma transform_rolling_at (df : list Row) (val : Row -> option Q)
    (w m : nat) (agg : series -> Q) (i : nat) (r : Row) :
  nth_error df i = Some r ->
  nth i (groupby_transform (map location df) (map val df) (rolling w m agg)) None =
  (if m <=? count_valid (last_n w (map val (history df i (location r))))
   then Some (agg (last_n w (map val (history df i (location r)))))
   else None).
Proof.
  intros H.
  assert (Hi : i < length (map location df)).
  { rewrite length_map. apply nth_error_Some. congruence. }
  rewrite (groupby_transform_nth _ _ _ i Hi), (nth_map_location df i r H).
  rewrite group_of_map.
  set (F := filter (fun r' => String.eqb (location r) (location r')) df).
  set (j := rank (map location df) i).
  assert (Hpre : firstn (S j) F = history df i (location r))
    by (apply history_prefix; assumption).
  assert (Hlen : length (history df i (location r)) = S j)
    by (apply history_length; assumption).
  assert (Hj : j < length (map val F)).
  { rewrite length_map. rewrite <- Hpre, length_firstn in Hlen. lia. }
  rewrite (rolling_nth w m agg (map val F) j Hj).
  assert (E : firstn (S j) (map val F) = map val (history df i (location r)))
    by (now rewrite firstn_map, Hpre).
  unfold window, last_n. rewrite E, length_map, Hlen. reflexivity.
Qed.

(** ** The growth table *)

(** What a row of the growth output is made of. *)
Lemma growth_row_inv (df : list Row) (g : GrowthRow) :
  In g (metrica_factor_crec_7d df) ->
  exists i r c p,
    nth_error df i = Some r /\
    semana_fin g = date r /\ growth_location g = location r /\
    nth i (col_casos_semana df) None = Some c /\
    nth i (col_casos_semana_prev df) None = Some p /\
    ~ (p == 0)%Q /\
    casos_semana g = Some c /\ factor_crec_7d g = Fin (c / p)%Q.
Proof.
  unfold metrica_factor_crec_7d. intros H. apply filter_In in H.
  destruct H as [Hin Hc]. apply In_nth_error in Hin. destruct Hin as [i Hi].
  rewrite nth_error_zip_with in Hi.
  destruct (nth_error df i) as [r|] eqn:Er; [|discriminate].
  destruct (nth_error (combine _ _) i) as [[c' f']|] eqn:Ec; [|discriminate].
  injection Hi as <-. rewrite nth_error_combine_pair in Ec.
  destruct (nth_error (col_casos_semana df) i) as [c0|] eqn:Es; [|discriminate].
  destruct (nth_error (col_factor_crec_7d df) i) as [f0|] eqn:Ef; [|discriminate].
  injection Ec as <- <-.
  unfold col_factor_crec_7d in Ef.
  rewrite nth_error_map, nth_error_zip_with, Es in Ef.
  destruct (nth_error (col_casos_semana_prev df) i) as [p0|] eqn:Ep;
    [|discriminate].
  simpl in Ef. injection Ef as <-. simpl in Hc.
  destruct c0 as [c|]; [|discriminate]. destruct p0 as [p|]; [|discriminate].
  simpl in Hc. unfold fdiv in *.
  destruct (Qeq_bool p 0) eqn:Ez.
  - destruct (Qeq_bool c 0); [discriminate|].
    destruct (Qle_bool 0 c); discriminate.
  - exists i, r, c, p. rewrite !nth_of_nth_error, Es, Ep. simpl.
    repeat split; auto. now apply Qeq_bool_neq.
Qed.

Lemma filter_firstn_length {A : Type} (p : A -> bool) (n : nat) (l : list A) :
  length (filter p (firstn n l)) <= length (filter p l).
Proof.
  rewrite <- (firstn_skipn n l) at 2. rewrite filter_app, length_app. lia.
Qed.

Lemma last_n_length {A : Type} (n : nat) (l : list A) :
  n <= length l -> length (last_n n l) = n.
Proof. intros H. unfold last_n. rewrite length_skipn. lia. Qed.

(** C2 (as amended). A row of the growth output stands for an input row that
    has at least 7 earlier rows of its entity before it in the frame: its
    casos_semana is the sum over a full window of 7 rows (its own new_cases
    and those of the 6 rows before it), never a partial window, and an
    entity with fewer than 8 rows has no row in the output. *)
Theorem growth_rows_follow_a_full_week (df : list Row) (g : GrowthRow) :
  In g (metrica_factor_crec_7d df) ->
  exists i r,
    nth_error df i = Some r /\
    semana_fin g = date r /\ growth_location g = location r /\
    8 <= length (history df i (location r)) /\
    8 <= length (entity_rows df (location r)) /\
    length (last_n 7 (map new_cases (history df i (location r)))) = 7 /\
    casos_semana g =
    Some (sum_valid (last_n 7 (map new_cases (history df i (location r))))).
Proof.
  intros H. destruct (growth_row_inv df g H)
    as [i [r [c [p [Hr [Hd [Hl [Hs [Hp [_ [Hc _]]]]]]]]]]].
  exists i, r. split; [assumption|]. split; [assumption|]. split; [assumption|].
  assert (Hi : i < length (map location df)).
  { rewrite length_map. apply nth_error_Some. congruence. }
  assert (Hrank : 7 <= rank (map location df) i).
  { destruct (Nat.le_gt_cases 7 (rank (map location df) i)) as [|Hlt];
      [assumption|].
    unfold col_casos_semana_prev in Hp.
    rewrite (groupby_transform_nth _ _ _ i Hi) in Hp.
    rewrite shift_nth_lt in Hp by assumption. discriminate. }
  assert (Hlen : 8 <= length (history df i (location r))).
  { rewrite (history_length df i r Hr). lia. }
  split; [assumption|]. split.
  - unfold history in Hlen. unfold entity_rows.
    pose proof (filter_firstn_length
                  (fun r' => String.eqb (location r) (location r')) (S i) df).
    lia.
  - split.
    + apply last_n_length. rewrite length_map. lia.
    + unfold col_casos_semana in Hs.
      rewrite (transform_rolling_at df new_cases 7 1 roll_sum i r Hr) in Hs.
      rewrite Hc. destruct (1 <=? _); [|discriminate].
      injection Hs as <-. reflexivity.
Qed.

Lemma growth_rows_follow_a_full_week_witness :
  let g := mkGrowth 8 "Peru" (Some 35%Q) (Fin 35%Q) in
  In g (metrica_factor_crec_7d eight_days) /\
  exists i r,
    nth_error eight_days i = Some r /\
    semana_fin g = date r /\ growth_location g = location r /\
    8 <= length (history eight_days i (location r)) /\
    8 <= length (entity_rows eight_days (location r)) /\
    length (last_n 7 (map new_cases (history eight_days i (location r)))) = 7 /\
    casos_semana g =
    Some (sum_valid (last_n 7 (map new_cases (history eight_days i (location r))))).
Proof.
  intros g.
  assert (Hin : In g (metrica_factor_crec_7d eight_days)) by (left; reflexivity).
  split; [exact Hin|].
  exact (growth_rows_follow_a_full_week eight_days g Hin).
Defined.

(** C2 (counterexample). On eight days with 1, ..., 8 new cases the first
    (and only) row of the growth output is the one of day 8: its
    casos_semana is 35, the sum of days 2 to 8, while that day's own
    new_cases is 8. With six days the entity has no row in the output. *)
Lemma growth_first_row_is_not_own_cases :
  exists g r,
    hd_error (metrica_factor_crec_7d eight_days) = Some g /\
    In r eight_days /\ date r = semana_fin g /\ location r = growth_location g /\
    new_cases r = Some (inject_Z 8) /\
    casos_semana g = Some (inject_Z 35) /\
    ~ (inject_Z 35 == inject_Z 8)%Q /\
    metrica_factor_crec_7d six_days = [].
Proof.
  exists (mkGrowth 8 "Peru" (Some 35%Q) (Fin 35%Q)),
         (obs "Peru" 8 8 100000).
  split; [reflexivity|]. split; [simpl; tauto|].
  split; [reflexivity|]. split; [reflexivity|].
  split; [reflexivity|]. split; [reflexivity|].
  split; [|reflexivity]. intros H. discriminate H.
Qed.

(** C3 (as amended). Every factor_crec_7d of the growth output is a finite
    number, neither NaN nor an infinity: it is the quotient of the row's
    casos_semana by its casos_semana_prev, which is present and not zero.
    Its sign is not restricted. *)
Theorem growth_factor_is_finite (df : list Row) (g : GrowthRow) :
  In g (metrica_factor_crec_7d df) ->
  exists i r c p,
    nth_error df i = Some r /\
    semana_fin g = date r /\ growth_location g = location r /\
    nth i (col_casos_semana df) None = Some c /\
    nth i (col_casos_semana_prev df) None = Some p /\
    casos_semana g = Some c /\ ~ (p == 0)%Q /\
    factor_crec_7d g = Fin (c / p)%Q /\
    factor_crec_7d g <> NaN /\ factor_crec_7d g <> PInf /\
    factor_crec_7d g <> NInf.
Proof.
  intros H. destruct (growth_row_inv df g H)
    as [i [r [c [p [Hr [Hd [Hl [Hs [Hpv [Hp [Hc Hf]]]]]]]]]]].
  exists i, r, c, p. rewrite Hf. repeat split; auto; discriminate.
Qed.

Lemma growth_factor_is_finite_witness :
  In (mkGrowth 8 "Peru" (Some 35%Q) (Fin 35%Q)) (metrica_factor_crec_7d eight_days) /\
  exists i r c p,
    nth_error eight_days i = Some r /\
    semana_fin (mkGrowth 8 "Peru" (Some 35%Q) (Fin 35%Q)) = date r /\
    growth_location (mkGrowth 8 "Peru" (Some 35%Q) (Fin 35%Q)) = location r /\
    nth i (col_casos_semana eight_days) None = Some c /\
    nth i (col_casos_semana_prev eight_days) None = Some p /\
    casos_semana (mkGrowth 8 "Peru" (Some 35%Q) (Fin 35%Q)) = Some c /\ ~ (p == 0)%Q /\
    factor_crec_7d (mkGrowth 8 "Peru" (Some 35%Q) (Fin 35%Q)) = Fin (c / p)%Q /\
    factor_crec_7d (mkGrowth 8 "Peru" (Some 35%Q) (Fin 35%Q)) <> NaN /\
    factor_crec_7d (mkGrowth 8 "Peru" (Some 35%Q) (Fin 35%Q)) <> PInf /\
    factor_crec_7d (mkGrowth 8 "Peru" (Some 35%Q) (Fin 35%Q)) <> NInf.
Proof.
  assert (Hin : In (mkGrowth 8 "Peru" (Some 35%Q) (Fin 35%Q))
                   (metrica_factor_crec_7d eight_days)) by (left; reflexivity).
  split; [exact Hin|].
  exact (growth_factor_is_finite eight_days _ Hin).
Defined.

(** C3 (counterexample). After a week with one case a day, a week without
    cases gives a row whose factor is 0, and a week of downward corrections
    gives a row whose factor is -1: both rows are in the output. *)
Lemma growth_factor_zero_and_negative_emitted :
  (exists g q, In g (metrica_factor_crec_7d fading_fortnight) /\
               semana_fin g = 14%Z /\
               factor_crec_7d g = Fin q /\ (q == 0)%Q) /\
  (exists g q, In g (metrica_factor_crec_7d corrected_fortnight) /\
               semana_fin g = 14%Z /\
               factor_crec_7d g = Fin q /\ (q < 0)%Q).
Proof.
  split.
  - exists (mkGrowth 14 "Peru" (Some 0%Q) (Fin (0 # 7))), (0 # 7)%Q.
    split; [vm_compute; tauto|]. split; [reflexivity|].
    split; [reflexivity|]. reflexivity.
  - exists (mkGrowth 14 "Peru" (Some (-7 # 1)%Q) (Fin (-7 # 7))), (-7 # 7)%Q.
    split; [vm_compute; tauto|]. split; [reflexivity|].
    split; [reflexivity|]. reflexivity.
Qed.

(** C1 (the code at the failing input). [metrica_factor_crec_7d] takes the
    rows in the order they arrive: on eight records in date order it reports
    the week that ends on day 8 with 35 cases, on the same records latest
    first it reports a week that ends on day 1 with 28 cases. The incidence
    metric, which sorts first, gives one table for both orders. *)
Theorem growth_depends_on_row_order :
  Permutation eight_days eight_days_latest_first /\
  map (fun g => (semana_fin g, casos_semana g)) (metrica_factor_crec_7d eight_days)
    = [(8%Z, Some (inject_Z 35))] /\
  map (fun g => (semana_fin g, casos_semana g))
      (metrica_factor_crec_7d eight_days_latest_first)
    = [(1%Z, Some (inject_Z 28))] /\
  metrica_factor_crec_7d eight_days <>
  metrica_factor_crec_7d eight_days_latest_first /\
  metrica_incidencia_7d eight_days =
  metrica_incidencia_7d eight_days_latest_first.
Proof.
  split; [apply Permutation_rev|].
  split; [reflexivity|]. split; [reflexivity|].
  split; [|vm_compute; reflexivity].
  intros H. apply (f_equal (map semana_fin)) in H. vm_compute in H.
  discriminate H.
Qed.

(** ** [sort_values] *)

Lemma ascii_compare_lt_trans (a b c : ascii) :
  Ascii.compare a b = Lt -> Ascii.compare b c = Lt -> Ascii.compare a c = Lt.
Proof.
  unfold Ascii.compare. rewrite !N.compare_lt_iff. apply N.lt_trans.
Qed.

Lemma string_compare_lt_trans (s1 : string) :
  forall s2 s3,
    String.compare s1 s2 = Lt -> String.compare s2 s3 = Lt ->
    String.compare s1 s3 = Lt.
Proof.
  induction s1 as [|a s1 IH]; intros [|b s2] [|c s3]; simpl; try congruence.
  destruct (Ascii.compare a b) eqn:Eab; try discriminate.
  - apply Ascii.compare_eq_iff in Eab. subst b.
    destruct (Ascii.compare a c); try discriminate; auto. apply IH.
  - intros _. destruct (Ascii.compare b c) eqn:Ebc; try discriminate.
    + apply Ascii.compare_eq_iff in Ebc. subst c. now rewrite Eab.
    + now rewrite (ascii_compare_lt_trans a b c Eab Ebc).
Qed.

Lemma string_compare_refl (s : string) : String.compare s s = Eq.
Proof.
  induction s as [|a s IH]; simpl; [reflexivity|].
  unfold Ascii.compare. now rewrite N.compare_refl.
Qed.

Lemma row_le_trans (a b c : Row) : row_le a b -> row_le b c -> row_le a c.
Proof.
  unfold row_le, row_leb.
  destruct (String.compare (location a) (location b)) eqn:Eab; try discriminate.
  - apply String.compare_eq_iff in Eab. rewrite Eab.
    destruct (String.compare (location b) (location c)); try discriminate; auto.
    rewrite !Z.leb_le. apply Z.le_trans.
  - intros _.
    destruct (String.compare (location b) (location c)) eqn:Ebc; try discriminate.
    + apply String.compare_eq_iff in Ebc. rewrite <- Ebc, Eab. reflexivity.
    + rewrite (string_compare_lt_trans _ _ _ Eab Ebc). reflexivity.
Qed.

Lemma row_le_total (a b : Row) : row_leb a b = false -> row_le b a.
Proof.
  unfold row_le, row_leb.
  rewrite (String.compare_antisym (location a) (location b)).
  destruct (String.compare (location b) (location a)); simpl;
    try discriminate; auto.
  rewrite Z.leb_gt, Z.leb_le. lia.
Qed.

Lemma insert_row_In (r x : Row) (l : list Row) :
  In x (insert_row r l) -> x = r \/ In x l.
Proof.
  induction l as [|h t IH]; simpl.
  - intros [<-|[]]. now left.
  - destruct (row_leb r h); simpl.
    + intros [<-|H]; auto.
    + intros [<-|H]; auto. destruct (IH H); auto.
Qed.

Lemma insert_row_sorted (r : Row) (l : list Row) :
  StronglySorted row_le l -> StronglySorted row_le (insert_row r l).
Proof.
  induction 1 as [|h t Hs IH Hall]; simpl.
  - repeat constructor.
  - destruct (row_leb r h) eqn:E.
    + constructor; [now constructor|]. constructor; [exact E|].
      eapply Forall_impl; [|exact Hall]. intros x Hx.
      exact (row_le_trans r h x E Hx).
    + constructor; [exact IH|]. apply Forall_forall. intros x Hx.
      destruct (insert_row_In r x t Hx) as [->|Hin].
      * now apply row_le_total.
      * rewrite Forall_forall in Hall. now apply Hall.
Qed.

Lemma sort_values_sorted (l : list Row) : StronglySorted row_le (sort_values l).
Proof.
  induction l as [|h t IH]; simpl; [constructor | now apply insert_row_sorted].
Qed.

Lemma insert_row_perm (r : Row) (l : list Row) :
  Permutation (insert_row r l) (r :: l).
Proof.
  induction l as [|h t IH]; simpl; [reflexivity|].
  destruct (row_leb r h); [reflexivity|].
  rewrite IH. apply perm_swap.
Qed.

Lemma sort_values_perm (l : list Row) : Permutation (sort_values l) l.
Proof.
  induction l as [|h t IH]; simpl; [reflexivity|].
  now rewrite insert_row_perm, IH.
Qed.

Lemma StronglySorted_filter {A : Type} (R : A -> A -> Prop) (p : A -> bool)
    (l : list A) :
  StronglySorted R l -> StronglySorted R (filter p l).
Proof.
  induction 1 as [|h t Hs IH Hall]; simpl; [constructor|].
  destruct (p h); [|exact IH]. constructor; [exact IH|].
  apply Forall_forall. intros x Hx. apply filter_In in Hx.
  rewrite Forall_forall in Hall. now apply Hall.
Qed.

Lemma StronglySorted_firstn {A : Type} (R : A -> A -> Prop) (n : nat)
    (l : list A) :
  StronglySorted R l -> StronglySorted R (firstn n l).
Proof.
  intros H. revert n. induction H as [|h t Hs IH Hall]; intros [|n]; simpl;
    try constructor.
  - apply IH.
  - apply Forall_forall. intros x Hx. rewrite Forall_forall in Hall.
    apply Hall. rewrite <- (firstn_skipn n t). apply in_or_app. now left.
Qed.

Lemma StronglySorted_weaken {A : Type} (R R' : A -> A -> Prop) (l : list A) :
  (forall a b, In a l -> In b l -> R a b -> R' a b) ->
  StronglySorted R l -> StronglySorted R' l.
Proof.
  intros Himp H. induction H as [|h t Hs IH Hall]; [constructor|].
  constructor.
  - apply IH. intros a b Ha Hb. apply Himp; now right.
  - apply Forall_forall. intros x Hx. rewrite Forall_forall in Hall.
    apply Himp; [now left | now right | now apply Hall].
Qed.

(** In the sorted frame the rows of one entity are in date order. *)
Lemma history_chronological (datos : list Row) (i : nat) (loc : string) :
  StronglySorted date_le (history (sort_values datos) i loc).
Proof.
  unfold history.
  apply StronglySorted_weaken with (R := row_le).
  - intros a b Ha Hb. apply filter_In in Ha, Hb.
    destruct Ha as [_ Ha], Hb as [_ Hb].
    apply String.eqb_eq in Ha, Hb. unfold row_le, row_leb, date_le.
    rewrite <- Ha, <- Hb.
    rewrite string_compare_refl.
    apply Z.leb_le.
  - apply StronglySorted_filter, StronglySorted_firstn, sort_values_sorted.
Qed.

(** ** The incidence table *)

Lemma filter_length_bound {A : Type} (p : A -> bool) (l : list A) :
  length (filter p l) <= length l.
Proof.
  induction l as [|x l IH]; simpl; [lia|]. destruct (p x); simpl; lia.
Qed.

Lemma filter_keeps_all {A : Type} (p : A -> bool) (l : list A) :
  length (filter p l) = length l -> forall x, In x l -> p x = true.
Proof.
  induction l as [|a l IH]; simpl; intros H x Hx; [destruct Hx|].
  pose proof (filter_length_bound p l) as Hb.
  destruct (p a) eqn:E; simpl in H; [|lia].
  destruct Hx as [<-|Hx]; [exact E | apply IH; [lia | exact Hx]].
Qed.

Lemma filter_drops_some {A : Type} (p : A -> bool) (l : list A) (x : A) :
  In x l -> p x = false -> length (filter p l) < length l.
Proof.
  intros Hx Hp. pose proof (filter_length_bound p l) as Hb.
  destruct (Nat.eq_dec (length (filter p l)) (length l)) as [E|]; [|lia].
  rewrite (filter_keeps_all p l E x Hx) in Hp. discriminate.
Qed.

Lemma last_n_length_le {A : Type} (n : nat) (l : list A) :
  length (last_n n l) <= n.
Proof. unfold last_n. rewrite length_skipn. lia. Qed.

Lemma last_n_all {A : Type} (n : nat) (l : list A) :
  length l <= n -> last_n n l = l.
Proof.
  intros H. unfold last_n. replace (length l - n) with 0 by lia. reflexivity.
Qed.

(** The rolling mean of [metrica_incidencia_7d] at row [i] of the sorted
    frame. *)
Lemma incidencia_7d_at (df : list Row) (i : nat) (r : Row) :
  nth_error df i = Some r ->
  nth i (col_incidencia_7d df) None =
  (if 7 <=? count_valid (last_n 7 (map incidencia_diaria (history df i (location r))))
   then Some (roll_mean (last_n 7 (map incidencia_diaria (history df i (location r)))))
   else None).
Proof.
  intros H. unfold col_incidencia_7d, col_incidencia_diaria.
  now apply transform_rolling_at.
Qed.

(** A window with a missing value has no rolling mean. *)
Lemma window_with_missing (win : series) :
  length win <= 7 -> In None win -> (7 <=? count_valid win) = false.
Proof.
  intros Hlen Hin. apply Nat.leb_gt. unfold count_valid.
  pose proof (filter_drops_some notna win None Hin eq_refl). lia.
Qed.

Lemma incidence_row_inv (datos : list Row) (o : IncidenceRow) :
  In o (metrica_incidencia_7d datos) ->
  exists i r,
    nth_error (sort_values datos) i = Some r /\
    inc_date o = date r /\ inc_location o = location r /\
    7 <= length (history (sort_values datos) i (location r)) /\
    length (last_n 7 (map incidencia_diaria
                          (history (sort_values datos) i (location r)))) = 7 /\
    count_valid (last_n 7 (map incidencia_diaria
                               (history (sort_values datos) i (location r)))) = 7 /\
    ~ In None (last_n 7 (map incidencia_diaria
                             (history (sort_values datos) i (location r)))) /\
    incidencia_7d o =
    Some (mean7 (last_n 7 (map incidencia_diaria
                               (history (sort_values datos) i (location r))))).
Proof.
  unfold metrica_incidencia_7d. intros H. apply filter_In in H.
  destruct H as [Hin Hna]. apply in_map_iff in Hin.
  destruct Hin as [[r v] [<- Hin]]. simpl in Hna.
  apply In_nth_error in Hin. destruct Hin as [i Hi].
  rewrite nth_error_combine_pair in Hi.
  destruct (nth_error (sort_values datos) i) as [r0|] eqn:Er; [|discriminate].
  destruct (nth_error (col_incidencia_7d _) i) as [v0|] eqn:Ev; [|discriminate].
  injection Hi as -> ->.
  pose proof (incidencia_7d_at _ i r Er) as Hat.
  rewrite nth_of_nth_error, Ev in Hat.
  set (win := last_n 7 (map incidencia_diaria
                            (history (sort_values datos) i (location r)))) in *.
  destruct (Nat.leb_spec 7 (count_valid win)) as [Hc|Hc];
    [|subst v; discriminate].
  pose proof (last_n_length_le 7 (map incidencia_diaria
              (history (sort_values datos) i (location r)))) as Hle.
  fold win in Hle.
  pose proof (filter_length_bound notna win) as Hb. unfold count_valid in Hc.
  assert (Hlen : length win = 7) by lia.
  assert (Hcnt : count_valid win = 7) by (unfold count_valid; lia).
  exists i, r. simpl. repeat split; auto.
  - unfold win, last_n in Hlen. rewrite length_skipn, length_map in Hlen. lia.
  - intros Hn. pose proof (window_with_missing win Hle Hn) as Hf.
    apply Nat.leb_gt in Hf. lia.
  - rewrite Hat. unfold roll_mean, mean7. rewrite Hcnt. reflexivity.
Qed.

(** C4 (as amended). A row of the incidence output stands for a row of the
    date-sorted frame that closes a window of 7 rows of its entity (itself
    and the 6 before it, in date order), all 7 daily incidences defined, and
    its value is their arithmetic mean; no partial window is emitted. On the
    entity's 7th row the window is the entity's first 7 daily incidences. *)
Theorem incidence_rows_close_a_full_window (datos : list Row) (o : IncidenceRow) :
  In o (metrica_incidencia_7d datos) ->
  exists i r,
    Permutation (sort_values datos) datos /\
    nth_error (sort_values datos) i = Some r /\
    inc_date o = date r /\ inc_location o = location r /\
    StronglySorted date_le (history (sort_values datos) i (location r)) /\
    history (sort_values datos) i (location r) =
      firstn (length (history (sort_values datos) i (location r)))
             (entity_rows (sort_values datos) (location r)) /\
    7 <= length (history (sort_values datos) i (location r)) /\
    length (last_n 7 (map incidencia_diaria
                          (history (sort_values datos) i (location r)))) = 7 /\
    ~ In None (last_n 7 (map incidencia_diaria
                             (history (sort_values datos) i (location r)))) /\
    incidencia_7d o =
      Some (mean7 (last_n 7 (map incidencia_diaria
                                 (history (sort_values datos) i (location r))))) /\
    (length (history (sort_values datos) i (location r)) = 7 ->
     incidencia_7d o =
       Some (mean7 (map incidencia_diaria
                        (firstn 7 (entity_rows (sort_values datos) (location r)))))).
Proof.
  intros H. destruct (incidence_row_inv datos o H)
    as [i [r [Hr [Hd [Hl [Hlen [Hw [_ [Hn Hv]]]]]]]]].
  assert (Hpre : history (sort_values datos) i (location r) =
                 firstn (length (history (sort_values datos) i (location r)))
                        (entity_rows (sort_values datos) (location r))).
  { rewrite (history_length _ i r Hr). symmetry.
    apply (history_prefix _ i r Hr). }
  exists i, r.
  split; [apply sort_values_perm|]. split; [assumption|].
  split; [assumption|]. split; [assumption|].
  split; [apply history_chronological|]. split; [exact Hpre|].
  split; [assumption|]. split; [assumption|]. split; [assumption|].
  split; [assumption|].
  intros H7. rewrite Hv. rewrite last_n_all by (rewrite length_map; lia).
  rewrite Hpre at 1. rewrite H7. reflexivity.
Qed.

Lemma incidence_rows_close_a_full_window_witness :
  let datos := thirteen_days in
  let o := first_incidence_row datos in
  In o (metrica_incidencia_7d datos) /\
  exists i r,
    Permutation (sort_values datos) datos /\
    nth_error (sort_values datos) i = Some r /\
    inc_date o = date r /\ inc_location o = location r /\
    StronglySorted date_le (history (sort_values datos) i (location r)) /\
    history (sort_values datos) i (location r) =
      firstn (length (history (sort_values datos) i (location r)))
             (entity_rows (sort_values datos) (location r)) /\
    7 <= length (history (sort_values datos) i (location r)) /\
    length (last_n 7 (map incidencia_diaria
                          (history (sort_values datos) i (location r)))) = 7 /\
    ~ In None (last_n 7 (map incidencia_diaria
                             (history (sort_values datos) i (location r)))) /\
    incidencia_7d o =
      Some (mean7 (last_n 7 (map incidencia_diaria
                                 (history (sort_values datos) i (location r))))) /\
    (length (history (sort_values datos) i (location r)) = 7 ->
     incidencia_7d o =
       Some (mean7 (map incidencia_diaria
                        (firstn 7 (entity_rows (sort_values datos) (location r)))))).
Proof.
  intros datos o.
  assert (Hin : In o (metrica_incidencia_7d datos)) by (left; vm_compute; reflexivity).
  split; [exact Hin|].
  exact (incidence_rows_close_a_full_window datos o Hin).
Defined.

(** C4 (counterexample). On thirteen days with 1, ..., 13 cases among 100000
    people the first row of the output is the one of day 7, which has only
    6 rows before it, and its value 4 is the mean of the first 7 daily
    incidences; the 7th row of the output is the one of day 13 and its value
    is 10. *)
Lemma seventh_emitted_incidence_is_not_first_week_mean :
  exists o1 o7 v1 v7,
    nth_error (metrica_incidencia_7d thirteen_days) 0 = Some o1 /\
    inc_date o1 = 7%Z /\ incidencia_7d o1 = Some v1 /\
    length (filter (fun r => (date r <? inc_date o1)%Z) thirteen_days) = 6 /\
    nth_error (metrica_incidencia_7d thirteen_days) 6 = Some o7 /\
    inc_date o7 = 13%Z /\ incidencia_7d o7 = Some v7 /\
    (v1 == 4)%Q /\ (v7 == 10)%Q /\
    (mean7 (firstn 7 (map incidencia_diaria (sort_values thirteen_days))) == 4)%Q /\
    ~ (v7 == mean7 (firstn 7 (map incidencia_diaria (sort_values thirteen_days))))%Q.
Proof.
  do 4 eexists.
  split; [vm_compute; reflexivity|]. split; [reflexivity|].
  split; [reflexivity|]. split; [reflexivity|].
  split; [vm_compute; reflexivity|]. split; [reflexivity|].
  split; [reflexivity|].
  split; [vm_compute; reflexivity|]. split; [vm_compute; reflexivity|].
  split; [vm_compute; reflexivity|].
  intros H. vm_compute in H. discriminate H.
Qed.

Lemma has_zero_population_spec (datos : list Row) :
  has_zero_population datos = true <->
  exists r p, In r datos /\ population r = Some p /\ (p == 0)%Q.
Proof.
  unfold has_zero_population. rewrite existsb_exists. split.
  - intros [r [Hr H]]. destruct (population r) as [p|] eqn:E; [|discriminate].
    exists r, p. split; [exact Hr|]. split; [exact E|]. now apply Qeq_bool_iff.
  - intros [r [p [Hr [Hp Hz]]]]. exists r. split; [exact Hr|].
    rewrite Hp. now apply Qeq_bool_iff.
Qed.

Lemma metrica_incidencia_7d_asset_eq (datos : list Row) :
  metrica_incidencia_7d_asset datos =
  if has_zero_population datos then DataError
  else Returned (metrica_incidencia_7d datos).
Proof.
  unfold metrica_incidencia_7d_asset, replace_zero_dtype.
  cbv zeta.
  set (z := fun v : option Q => match v with
                                | Some p => Qeq_bool p 0
                                | None => false
                                end).
  assert (E : existsb z (map population (sort_values datos)) =
              has_zero_population datos).
  { apply eq_true_iff_eq. unfold has_zero_population.
    rewrite !existsb_exists. split.
    - intros [v [Hv Hz]]. apply in_map_iff in Hv. destruct Hv as [r [<- Hr]].
      exists r. split; [|exact Hz].
      apply (Permutation_in r (sort_values_perm datos) Hr).
    - intros [r [Hr Hz]]. exists (population r). split; [|exact Hz].
      apply in_map.
      apply (Permutation_in r (Permutation_sym (sort_values_perm datos)) Hr). }
  rewrite E. now destruct (has_zero_population datos).
Qed.

(** C5 (the code at the failing input). A population of 0 does not leave an
    undefined daily incidence that the window then skips. In the week of 7
    rows whose day 3 has population 0 the call raises DataError and returns
    no table at all; so does every call on a record set that holds a
    population of 0, and only those. A call that returns has therefore
    never met the case: each of its rows with new_cases and population
    present has a defined daily incidence. *)
Theorem zero_population_raises_DataError :
  metrica_incidencia_7d_asset week_with_zero_population = DataError /\
  (forall datos,
     metrica_incidencia_7d_asset datos = DataError <->
     exists r p, In r datos /\ population r = Some p /\ (p == 0)%Q) /\
  (forall datos t,
     metrica_incidencia_7d_asset datos = Returned t ->
     t = metrica_incidencia_7d datos /\
     forall r, In r datos -> new_cases r <> None -> population r <> None ->
               incidencia_diaria r <> None).
Proof.
  split; [vm_compute; reflexivity|]. split.
  - intros datos. rewrite <- has_zero_population_spec.
    rewrite metrica_incidencia_7d_asset_eq.
    destruct (has_zero_population datos); split; intros H;
      try reflexivity; discriminate.
  - intros datos t H. rewrite metrica_incidencia_7d_asset_eq in H.
    destruct (has_zero_population datos) eqn:Ez; [discriminate|].
    injection H as <-. split; [reflexivity|].
    intros r Hr Hn Hp. unfold incidencia_diaria.
    destruct (new_cases r) as [n|]; [|congruence].
    destruct (population r) as [p|] eqn:Ep; [|congruence].
    destruct (Qeq_bool p 0) eqn:E0; [|discriminate].
    exfalso. assert (Ht : has_zero_population datos = true).
    { apply has_zero_population_spec. exists r, p.
      split; [exact Hr|]. split; [exact Ep|]. now apply Qeq_bool_iff. }
    congruence.
Qed.

(** ** Which rows [datos_procesados] keeps *)


Lemma filter_split {A : Type} (p : A -> bool) (l : list A) :
  forall l1' x l2',
    filter p l = l1' ++ x :: l2' ->
    exists l1 l2, l = l1 ++ x :: l2 /\ filter p l1 = l1' /\ p x = true.
Proof.
  induction l as [|a t IH]; intros l1' x l2' H.
  - now destruct l1'.
  - simpl in H. destruct (p a) eqn:E.
    + destruct l1' as [|b l1''].
      * simpl in H. injection H as -> H. exists [], t. auto.
      * simpl in H. injection H as -> H.
        destruct (IH l1'' x l2' H) as [l1 [l2 [-> [Hf Hp]]]].
        exists (b :: l1), l2. simpl. rewrite E, Hf. auto.
    + destruct (IH l1' x l2' H) as [l1 [l2 [-> [Hf Hp]]]].
      exists (a :: l1), l2. simpl. rewrite E. auto.
Qed.

Lemma existsb_false_forall {A : Type} (p : A -> bool) (l : list A) :
  existsb p l = false <-> (forall x, In x l -> p x = false).
Proof.
  induction l as [|a t IH]; simpl.
  - split; [intros _ x [] | reflexivity].
  - rewrite orb_false_iff, IH. split.
    + intros [Ha Ht] x [<-|Hx]; auto.
    + intros H. split; [apply H; now left | intros x Hx; apply H; now right].
Qed.






(** * Further properties *)

(** ** Alias resolution in [_canon] *)

Lemma rename_step_spec (cols : list string) (alt done : list (string * list string))
    (m : dict) (e : string * list string) :
  own_candidates alt ->
  (forall x, In x done -> In x alt) -> In e alt ->
  rename_spec cols done m ->
  rename_spec cols (done ++ [e]) (rename_step cols m e).
Proof.
  intros Hown Hdone He Hm. destruct e as [cn0 cands0]. unfold rename_step.
  assert (Hold : forall c cn,
            (exists cands, In (cn, cands) done /\ first_found cands cols = Some c /\
                           truthy c && negb (String.eqb c cn) = true) ->
            exists cands, In (cn, cands) (done ++ [(cn0, cands0)]) /\
                          first_found cands cols = Some c /\
                          truthy c && negb (String.eqb c cn) = true).
  { intros c cn [cands [H1 H2]]. exists cands. split; [|exact H2].
    apply in_or_app. now left. }
  assert (Hnew : forall cn cands,
            In (cn, cands) (done ++ [(cn0, cands0)]) ->
            In (cn, cands) done \/ (cn = cn0 /\ cands = cands0)).
  { intros cn cands H. apply in_app_or in H. destruct H as [H|[H|[]]]; auto.
    injection H as <- <-. now right. }
  destruct (first_found cands0 cols) as [f|] eqn:Ef.
  - destruct (truthy f && negb (String.eqb f cn0)) eqn:Eg.
    + intros c cn. rewrite dict_get_set. destruct (String.eqb_spec c f) as [->|Hne].
      * split.
        -- intros H. injection H as <-. exists cands0. split; [|auto].
           apply in_or_app. right. now left.
        -- intros [cands [Hin [Hf _]]].
           destruct (Hnew cn cands Hin) as [Hin'|[-> _]]; [|reflexivity].
           assert (E : (cn, cands) = (cn0, cands0)).
           { apply (Hown _ _ f); simpl; auto.
             - apply (find_some _ _ Hf).
             - apply (find_some _ _ Ef). }
           now injection E as -> _.
      * rewrite (Hm c cn). split; [apply Hold|].
        intros [cands [Hin [Hf Hg]]].
        destruct (Hnew cn cands Hin) as [Hin'|[-> ->]].
        -- exists cands. auto.
        -- rewrite Ef in Hf. injection Hf as ->. congruence.
    + intros c cn. rewrite (Hm c cn). split; [apply Hold|].
      intros [cands [Hin [Hf Hg]]].
      destruct (Hnew cn cands Hin) as [Hin'|[-> ->]].
      * exists cands. auto.
      * rewrite Ef in Hf. injection Hf as ->. congruence.
  - intros c cn. rewrite (Hm c cn). split; [apply Hold|].
    intros [cands [Hin [Hf Hg]]].
    destruct (Hnew cn cands Hin) as [Hin'|[-> ->]].
    + exists cands. auto.
    + congruence.
Qed.

Lemma fold_rename_spec (cols : list string) (alt : list (string * list string)) :
  own_candidates alt ->
  forall rest done m,
    (forall x, In x done -> In x alt) -> (forall x, In x rest -> In x alt) ->
    rename_spec cols done m ->
    rename_spec cols (done ++ rest) (fold_left (rename_step cols) rest m).
Proof.
  intros Hown. induction rest as [|e rest IH]; intros done m Hd Hr Hm.
  - now rewrite app_nil_r.
  - simpl fold_left.
    replace (done ++ e :: rest) with ((done ++ [e]) ++ rest)
      by (now rewrite <- app_assoc).
    apply IH.
    + intros x Hx. apply in_app_or in Hx. destruct Hx as [Hx|[<-|[]]].
      * now apply Hd.
      * apply Hr. now left.
    + intros x Hx. apply Hr. now right.
    + apply (rename_step_spec cols alt); auto. apply Hr. now left.
Qed.

Lemma ALT_own_candidates : own_candidates ALT.
Proof.
  intros [cn1 c1] [cn2 c2] a H1 H2 Ha1 Ha2. simpl in *.
  repeat (destruct H1 as [H1|H1]; [injection H1 as <- <-|]); try destruct H1;
    repeat (destruct H2 as [H2|H2]; [injection H2 as <- <-|]); try destruct H2;
    try reflexivity; exfalso; simpl in *;
    repeat (destruct Ha1 as [Ha1|Ha1]; [subst a|]); try destruct Ha1;
    intuition discriminate.
Qed.

Lemma ALT_truthy (cn a : string) (cands : list string) :
  In (cn, cands) ALT -> In a cands -> truthy a = true.
Proof.
  intros H Ha. simpl in H.
  repeat (destruct H as [H|H]; [injection H as <- <-|]); try destruct H;
    simpl in Ha;
    repeat (destruct Ha as [Ha|Ha]; [subst a; reflexivity|]); destruct Ha.
Qed.

(** The rename map of [_canon], key by key. *)
Lemma build_rename_map_spec (cols : list string) :
  rename_spec cols ALT (build_rename_map ALT cols).
Proof.
  unfold build_rename_map.
  apply (fold_rename_spec cols ALT ALT_own_candidates ALT [] []); auto.
  - intros x [].
  - intros c cn. simpl. split; [discriminate|]. intros [cands [[] _]].
Qed.

Lemma rename_label_nil (cols : list string) : map (rename_label []) cols = cols.
Proof. unfold rename_label. simpl. apply map_id. Qed.

Lemma canon_value_eq (df : DataFrame) :
  canon_value df =
  mkDF (map (rename_label (build_rename_map ALT (map clean_header (columns df))))
            (map clean_header (columns df)))
       (rows df).
Proof.
  unfold canon_value, canon_result.
  pose proof (canon_unfold [df] 0 df eq_refl) as Hc. simpl in Hc. rewrite Hc.
  destruct (build_rename_map ALT (map clean_header (columns df))) as [|e m] eqn:E.
  - simpl. now rewrite rename_label_nil.
  - reflexivity.
Qed.

Lemma first_found_exists (cands cols : list string) :
  (exists a, In a cands /\ In a cols) ->
  exists f, first_found cands cols = Some f.
Proof.
  intros [a [Ha Hc]]. unfold first_found.
  destruct (find (fun c => mem c cols) cands) as [f|] eqn:E; [now exists f|].
  pose proof (find_none _ _ E a Ha) as Hn. simpl in Hn.
  apply mem_false_In in Hn. contradiction.
Qed.

Lemma canon_column_present (df : DataFrame) (cn : string) (cands : list string) :
  In (cn, cands) ALT ->
  (In cn (columns (canon_value df)) <->
   exists a, In a cands /\ In a (map clean_header (columns df))).
Proof.
  intros Hin. rewrite canon_value_eq. simpl columns.
  set (cols := map clean_header (columns df)).
  pose proof (build_rename_map_spec cols) as Hspec.
  set (m := build_rename_map ALT cols) in *.
  destruct (ALT_heads cn cands Hin) as [tl Htl].
  split.
  - intros H. apply in_map_iff in H. destruct H as [c [Hc Hcol]].
    unfold rename_label in Hc. destruct (dict_get m c) as [cn'|] eqn:Eg.
    + subst cn'. apply Hspec in Eg. destruct Eg as [cands' [Hin' [Hf _]]].
      apply find_some in Hf. destruct Hf as [Hc1 Hc2]. apply mem_In in Hc2.
      assert (E : (cn, cands') = (cn, cands)).
      { apply (ALT_own_candidates _ _ cn); auto; simpl.
        - destruct (ALT_heads cn cands' Hin') as [tl' ->]. now left.
        - rewrite Htl. now left. }
      injection E as ->. exists c. auto.
    + subst c. exists cn. split; [rewrite Htl; now left | assumption].
  - intros Hex. destruct (first_found_exists cands cols Hex) as [f Hf].
    pose proof (find_some _ _ Hf) as [Hf1 Hf2]. apply mem_In in Hf2.
    apply in_map_iff. exists f. split; [|assumption].
    unfold rename_label. destruct (String.eqb_spec f cn) as [->|Hne].
    + destruct (dict_get m cn) as [cn'|] eqn:Eg; [|reflexivity].
      apply Hspec in Eg. destruct Eg as [cands' [Hin' [Hf' Hg]]].
      apply find_some in Hf'. destruct Hf' as [Hc1 _].
      assert (E : (cn', cands') = (cn, cands))
        by (apply (ALT_own_candidates _ _ cn); auto).
      injection E as -> _. apply andb_true_iff in Hg. destruct Hg as [_ Hg].
      rewrite String.eqb_refl in Hg. discriminate.
    + assert (Eg : dict_get m f = Some cn).
      { apply Hspec. exists cands. split; [assumption|]. split; [assumption|].
        rewrite (ALT_truthy cn f cands Hin Hf1). simpl.
        apply negb_true_iff. now apply String.eqb_neq. }
      now rewrite Eg.
Qed.

(** X1. After [_canon] a canonical column is present exactly when one of
    its accepted aliases is among the cleaned input labels. *)
Theorem canon_resolves_aliases (df : DataFrame) (cn : string) (cands : list string) :
  In (cn, cands) ALT ->
  (In cn (columns (canon_value df)) <->
   exists a, In a cands /\ In a (map clean_header (columns df))).
Proof. exact (canon_column_present df cn cands). Qed.

Lemma canon_resolves_aliases_witness :
  In ("location", ["location"; "entity"; "country"; "country_name";
                   "location_name"; "place"]) ALT /\
  (In "location" (columns (canon_value frame_padded_alias)) <->
   exists a, In a ["location"; "entity"; "country"; "country_name";
                   "location_name"; "place"] /\
             In a (map clean_header (columns frame_padded_alias))).
Proof.
  assert (H : In ("location", ["location"; "entity"; "country"; "country_name";
                               "location_name"; "place"]) ALT) by (left; reflexivity).
  split; [exact H|].
  exact (canon_resolves_aliases frame_padded_alias _ _ H).
Defined.

(** X2. [_canon] keeps the number and the order of the columns. A cleaned
    label is changed only when it is the first alias present of a canonical
    name that is itself absent, and then it becomes that name; a label that
    is not in the alias table is only cleaned. *)
Theorem canon_touches_first_alias_only (df : DataFrame) :
  let cols := map clean_header (columns df) in
  let m := build_rename_map ALT cols in
  columns (canon_value df) = map (rename_label m) cols /\
  length (columns (canon_value df)) = length (columns df) /\
  (forall c, rename_label m c <> c ->
     exists cands, In (rename_label m c, cands) ALT /\
                   first_found cands cols = Some c /\
                   ~ In (rename_label m c) cols) /\
  (forall c, (forall cn cands, In (cn, cands) ALT -> ~ In c cands) ->
             rename_label m c = c).
Proof.
  intros cols m. rewrite canon_value_eq. simpl columns. fold cols. fold m.
  pose proof (build_rename_map_spec cols) as Hspec. fold m in Hspec.
  split; [reflexivity|]. split; [unfold cols; now rewrite !length_map|].
  assert (Hkey : forall c cn, dict_get m c = Some cn ->
            exists cands, In (cn, cands) ALT /\ first_found cands cols = Some c /\
                          ~ In cn cols).
  { intros c cn Eg. apply Hspec in Eg. destruct Eg as [cands [Hin [Hf Hg]]].
    exists cands. split; [assumption|]. split; [assumption|].
    destruct (ALT_heads cn cands Hin) as [tl ->].
    apply andb_true_iff in Hg. destruct Hg as [_ Hg].
    apply negb_true_iff, String.eqb_neq in Hg.
    apply (first_found_head cols cn c tl Hf Hg). }
  split.
  - intros c Hne. unfold rename_label in *.
    destruct (dict_get m c) as [cn|] eqn:Eg; [|congruence].
    apply (Hkey c cn Eg).
  - intros c Hno. unfold rename_label.
    destruct (dict_get m c) as [cn|] eqn:Eg; [|reflexivity].
    destruct (Hkey c cn Eg) as [cands [Hin [Hf _]]].
    apply find_some in Hf. destruct Hf as [Hc _].
    exfalso. exact (Hno cn cands Hin Hc).
Qed.

(** ** [leer_datos] *)

Lemma coerce_column_columns (tn : cell -> option Q) (col : string) (df : DataFrame) :
  columns (coerce_column tn col df) = columns df.
Proof. unfold coerce_column. now destruct (col_index col (columns df)). Qed.

Lemma coerce_column_rows_length (tn : cell -> option Q) (col : string) (df : DataFrame) :
  length (rows (coerce_column tn col df)) = length (rows df).
Proof.
  unfold coerce_column. destruct (col_index col (columns df)); [|reflexivity].
  simpl. now rewrite length_map.
Qed.

(** The frame of [leer_datos] before [_require] looks at it. *)
Lemma leer_datos_unfold (tn : cell -> option Q) (csv : DataFrame) :
  exists df,
    columns df = columns (canon_value csv) /\
    length (rows df) = length (rows csv) /\
    leer_datos tn csv =
    match _require df ["location"; "date"] with
    | KeyError msg => KeyError msg
    | Ok _ => Ok df
    end.
Proof.
  unfold leer_datos. eexists. split; [|split; [|reflexivity]].
  - simpl.
    repeat match goal with
           | |- context [if ?b then _ else _] => destruct b
           end; rewrite ?coerce_column_columns; reflexivity.
  - simpl.
    repeat match goal with
           | |- context [if ?b then _ else _] => destruct b
           end; rewrite ?coerce_column_rows_length, canon_value_eq; reflexivity.
Qed.

Lemma ALT_location :
  In ("location", ["location"; "entity"; "country"; "country_name";
                   "location_name"; "place"]) ALT.
Proof. simpl. auto. Qed.

Lemma ALT_date : In ("date", ["date"; "day"]) ALT.
Proof. simpl. auto. Qed.

(** X3. On a CSV whose cleaned headers are pairwise distinct [leer_datos]
    returns a frame exactly when some cleaned header is an alias of
    location and some cleaned header is an alias of date; otherwise it
    raises the KeyError of [_require]. The frame it returns has the labels
    [_canon] produced and one row per input row. *)
Theorem leer_datos_needs_location_and_date (tn : cell -> option Q) (csv : DataFrame) :
  NoDup (map clean_header (columns csv)) ->
  ((exists out, leer_datos tn csv = Ok out) <->
   (exists a, In a ["location"; "entity"; "country"; "country_name";
                    "location_name"; "place"] /\
              In a (map clean_header (columns csv))) /\
   (exists a, In a ["date"; "day"] /\ In a (map clean_header (columns csv)))) /\
  (forall out, leer_datos tn csv = Ok out ->
     columns out = columns (canon_value csv) /\
     length (rows out) = length (rows csv)) /\
  (forall msg, leer_datos tn csv = KeyError msg ->
     msg = (require_message ++
            PyStr.repr_list (missing_columns (columns (canon_value csv))
                                             ["location"; "date"]))%string).
Proof.
  intros _.
  destruct (leer_datos_unfold tn csv) as [df [Hcols [Hrows Heq]]].
  rewrite Heq. unfold _require. rewrite Hcols.
  rewrite <- (canon_column_present csv _ _ ALT_location).
  rewrite <- (canon_column_present csv _ _ ALT_date).
  destruct (missing_columns (columns (canon_value csv)) ["location"; "date"])
    as [|c t] eqn:Em.
  - split; [|split].
    + split; [|intros _; now exists df].
      intros _. pose proof (proj1 (missing_columns_nil _ _) Em) as H.
      split; apply H; simpl; auto.
    + intros out H. injection H as <-. auto.
    + intros msg H. discriminate.
  - split; [|split].
    + split; [intros [out H]; discriminate|].
      intros [H1 H2]. exfalso.
      assert (Hnil : missing_columns (columns (canon_value csv)) ["location"; "date"] = []).
      { apply missing_columns_nil. intros x [<-|[<-|[]]]; assumption. }
      congruence.
    + intros out H. discriminate.
    + intros msg H. injection H as <-. reflexivity.
Qed.

Lemma leer_datos_needs_location_and_date_witness :
  NoDup (map clean_header (columns csv_sample)) /\
  ((exists out, leer_datos num_of_cell csv_sample = Ok out) <->
   (exists a, In a ["location"; "entity"; "country"; "country_name";
                    "location_name"; "place"] /\
              In a (map clean_header (columns csv_sample))) /\
   (exists a, In a ["date"; "day"] /\ In a (map clean_header (columns csv_sample)))) /\
  (forall out, leer_datos num_of_cell csv_sample = Ok out ->
     columns out = columns (canon_value csv_sample) /\
     length (rows out) = length (rows csv_sample)) /\
  (forall msg, leer_datos num_of_cell csv_sample = KeyError msg ->
     msg = (require_message ++
            PyStr.repr_list (missing_columns (columns (canon_value csv_sample))
                                             ["location"; "date"]))%string).
Proof.
  assert (Hnd : NoDup (map clean_header (columns csv_sample))) by distinct_labels.
  split; [exact Hnd|].
  exact (leer_datos_needs_location_and_date num_of_cell csv_sample Hnd).
Defined.

Lemma col_index_nth_error (c : string) (cols : list string) :
  forall i, col_index c cols = Some i -> nth_error cols i = Some c.
Proof.
  induction cols as [|h t IH]; simpl; intros i H; [discriminate|].
  destruct (String.eqb_spec c h) as [->|Hne].
  - now injection H as <-.
  - destruct (col_index c t) as [j|]; [|discriminate].
    injection H as <-. simpl. now apply IH.
Qed.

Lemma col_index_mem (c : string) (cols : list string) :
  mem c cols = false -> col_index c cols = None.
Proof.
  unfold mem. induction cols as [|h t IH]; simpl; [reflexivity|].
  intros H. apply orb_false_iff in H. destruct H as [H1 H2].
  rewrite H1, (IH H2). reflexivity.
Qed.

Lemma nth_update_nth_same {A : Type} (f : A -> A) (d : A) (l : list A) :
  forall i, nth i (update_nth i f l) d = if i <? length l then f (nth i l d) else d.
Proof.
  induction l as [|x t IH]; intros [|i]; simpl; try reflexivity.
  rewrite IH. reflexivity.
Qed.

Lemma nth_update_nth_other {A : Type} (f : A -> A) (d : A) (l : list A) :
  forall i j, i <> j -> nth i (update_nth j f l) d = nth i l d.
Proof.
  induction l as [|x t IH]; intros [|i] [|j] H; simpl; try reflexivity; try lia.
  apply IH. lia.
Qed.

Lemma update_nth_length {A : Type} (f : A -> A) (l : list A) :
  forall i, length (update_nth i f l) = length l.
Proof.
  induction l as [|x t IH]; intros [|i]; simpl; try reflexivity.
  now rewrite IH.
Qed.

Lemma coerce_column_numeric (tn : cell -> option Q) (col : string) (df : DataFrame) :
  numeric_or_missing (coerce_column tn col df) col.
Proof.
  intros r Hr. unfold coerce_column in *.
  destruct (col_index col (columns df)) as [i|] eqn:Ei.
  - simpl in *. apply in_map_iff in Hr. destruct Hr as [r0 [<- _]].
    unfold get. rewrite Ei, nth_update_nth_same.
    destruct (i <? length r0); [now eexists | now exists None].
  - exists None. unfold get. now rewrite Ei.
Qed.

Lemma coerce_column_keeps_numeric (tn : cell -> option Q) (col col' : string)
    (df : DataFrame) :
  col' <> col -> numeric_or_missing df col ->
  numeric_or_missing (coerce_column tn col' df) col.
Proof.
  intros Hne Hp r Hr. unfold coerce_column in *.
  destruct (col_index col' (columns df)) as [j|] eqn:Ej; [|now apply Hp].
  simpl in *. apply in_map_iff in Hr. destruct Hr as [r0 [<- Hr0]].
  destruct (Hp r0 Hr0) as [v Hv]. exists v. rewrite <- Hv. unfold get.
  destruct (col_index col (columns df)) as [i|] eqn:Ei; [|reflexivity].
  apply nth_update_nth_other. intros ->.
  apply col_index_nth_error in Ei, Ej. congruence.
Qed.

Lemma absent_column_numeric (df : DataFrame) (col : string) :
  mem col (columns df) = false -> numeric_or_missing df col.
Proof.
  intros H r _. exists None. unfold get. now rewrite (col_index_mem _ _ H).
Qed.

(** X4. In a frame returned by [leer_datos] every cell under new_cases,
    people_vaccinated and population is a number or the missing marker:
    whatever else the CSV held there was coerced. *)
Theorem leer_datos_numeric_columns (tn : cell -> option Q) (csv out : DataFrame)
    (col : string) :
  leer_datos tn csv = Ok out ->
  In col ["new_cases"; "people_vaccinated"; "population"] ->
  numeric_or_missing out col.
Proof.
  unfold leer_datos. simpl fold_left.
  set (d0 := canon_value csv).
  set (d1 := if mem "new_cases" (columns d0)
             then coerce_column tn "new_cases" d0 else d0).
  set (d2 := if mem "people_vaccinated" (columns d1)
             then coerce_column tn "people_vaccinated" d1 else d1).
  set (d3 := if mem "population" (columns d2)
             then coerce_column tn "population" d2 else d2).
  intros H Hcol.
  destruct (_require d3 ["location"; "date"]); [|discriminate].
  injection H as <-.
  assert (H1 : numeric_or_missing d1 "new_cases").
  { unfold d1. destruct (mem "new_cases" (columns d0)) eqn:E;
      [apply coerce_column_numeric | now apply absent_column_numeric]. }
  assert (H2 : numeric_or_missing d2 "people_vaccinated").
  { unfold d2. destruct (mem "people_vaccinated" (columns d1)) eqn:E;
      [apply coerce_column_numeric | now apply absent_column_numeric]. }
  assert (H3 : numeric_or_missing d3 "population").
  { unfold d3. destruct (mem "population" (columns d2)) eqn:E;
      [apply coerce_column_numeric | now apply absent_column_numeric]. }
  assert (K12 : numeric_or_missing d2 "new_cases").
  { unfold d2. destruct (mem "people_vaccinated" (columns d1)); [|exact H1].
    apply coerce_column_keeps_numeric; [discriminate | exact H1]. }
  assert (K13 : numeric_or_missing d3 "new_cases").
  { unfold d3. destruct (mem "population" (columns d2)); [|exact K12].
    apply coerce_column_keeps_numeric; [discriminate | exact K12]. }
  assert (K23 : numeric_or_missing d3 "people_vaccinated").
  { unfold d3. destruct (mem "population" (columns d2)); [|exact H2].
    apply coerce_column_keeps_numeric; [discriminate | exact H2]. }
  destruct Hcol as [<-|[<-|[<-|[]]]]; assumption.
Qed.

Lemma REQUIRED_in_ALT (c : string) :
  In c REQUIRED -> exists cands, In (c, cands) ALT.
Proof.
  unfold REQUIRED, ALT. simpl.
  intros [<-|[<-|[<-|[<-|[<-|[]]]]]]; eexists; eauto 6.
Qed.

Lemma ALT_keys_required (cn : string) (cands : list string) :
  In (cn, cands) ALT -> In cn REQUIRED.
Proof.
  unfold REQUIRED, ALT. simpl. intros H.
  repeat (destruct H as [H|H]; [injection H as <- _; tauto|]). destruct H.
Qed.

(** X5. On a CSV whose cleaned headers are pairwise distinct, ingestion
    goes through both [leer_datos] and [datos_procesados] exactly when each
    of the five canonical names has an alias among the cleaned headers. *)
Theorem ingestion_needs_all_five_aliases (tn : cell -> option Q) (csv : DataFrame) :
  NoDup (map clean_header (columns csv)) ->
  ((exists out processed,
      leer_datos tn csv = Ok out /\ datos_procesados out = Ok processed) <->
   (forall cn cands, In (cn, cands) ALT ->
      exists a, In a cands /\ In a (map clean_header (columns csv)))).
Proof.
  intros _.
  destruct (leer_datos_unfold tn csv) as [df [Hcols [_ Heq]]].
  assert (Hreq : forall need (d : DataFrame),
            (forall c, In c need -> In c (columns d)) ->
            _require d need = Ok tt).
  { intros need d H. unfold _require.
    now rewrite (proj2 (missing_columns_nil (columns d) need) H). }
  assert (Hreq' : forall need (d : DataFrame) c,
            _require d need = Ok tt -> In c need -> In c (columns d)).
  { intros need d c H Hc. unfold _require in H.
    destruct (missing_columns (columns d) need) eqn:E; [|discriminate].
    now apply (proj1 (missing_columns_nil _ _) E). }
  split.
  - intros [out [processed [H1 H2]]] cn cands Hin.
    apply (canon_column_present csv cn cands Hin). rewrite <- Hcols.
    rewrite Heq in H1.
    destruct (_require df ["location"; "date"]); [|discriminate].
    injection H1 as <-. unfold datos_procesados in H2.
    destruct (_require df REQUIRED) as [[]|] eqn:E; [|discriminate].
    apply (Hreq' REQUIRED df cn E).
    exact (ALT_keys_required cn cands Hin).
  - intros H.
    assert (Hall : forall c, In c REQUIRED -> In c (columns df)).
    { intros c Hc. rewrite Hcols.
      destruct (REQUIRED_in_ALT c Hc) as [cands Hin].
      apply (canon_column_present csv c cands Hin). exact (H c cands Hin). }
    exists df. rewrite Heq.
    rewrite (Hreq ["location"; "date"] df)
      by (intros c [<-|[<-|[]]]; apply Hall; simpl; tauto).
    unfold datos_procesados. rewrite (Hreq REQUIRED df Hall).
    eexists. split; reflexivity.
Qed.

Lemma ingestion_needs_all_five_aliases_witness :
  NoDup (map clean_header (columns csv_sample)) /\
  ((exists out processed,
      leer_datos num_of_cell csv_sample = Ok out /\ datos_procesados out = Ok processed) <->
   (forall cn cands, In (cn, cands) ALT ->
      exists a, In a cands /\ In a (map clean_header (columns csv_sample)))).
Proof.
  assert (Hnd : NoDup (map clean_header (columns csv_sample))) by distinct_labels.
  split; [exact Hnd|].
  exact (ingestion_needs_all_five_aliases num_of_cell csv_sample Hnd).
Defined.

Lemma leer_datos_numeric_columns_witness :
  leer_datos num_of_cell csv_sample =
    Ok (mkDF ["location"; "date"; "new_cases"; "population"]
             [[CStr "Peru"; CDate 1; CNull; CNum 5];
              [CStr "Peru"; CDate 2; CNum 3; CNull]]) /\
  In "new_cases" ["new_cases"; "people_vaccinated"; "population"] /\
  numeric_or_missing
    (mkDF ["location"; "date"; "new_cases"; "population"]
          [[CStr "Peru"; CDate 1; CNull; CNum 5];
           [CStr "Peru"; CDate 2; CNum 3; CNull]]) "new_cases".
Proof.
  assert (H : leer_datos num_of_cell csv_sample =
              Ok (mkDF ["location"; "date"; "new_cases"; "population"]
                       [[CStr "Peru"; CDate 1; CNull; CNum 5];
                        [CStr "Peru"; CDate 2; CNum 3; CNull]])) by reflexivity.
  assert (Hc : In "new_cases" ["new_cases"; "people_vaccinated"; "population"])
    by (simpl; tauto).
  split; [exact H|]. split; [exact Hc|].
  exact (leer_datos_numeric_columns num_of_cell csv_sample _ "new_cases" H Hc).
Defined.

(** ** The input checks *)

Lemma filter_length_zero {A : Type} (p : A -> bool) (l : list A) :
  length (filter p l) = 0 <-> (forall x, In x l -> p x = false).
Proof.
  induction l as [|a t IH]; simpl.
  - split; [intros _ x [] | reflexivity].
  - destruct (p a) eqn:E; simpl.
    + split; [discriminate|]. intros H. specialize (H a (or_introl eq_refl)).
      congruence.
    + rewrite IH. split.
      * intros H x [<-|Hx]; auto.
      * intros H x Hx. apply H. now right.
Qed.

Lemma mem_negb_false (c : string) (cols : list string) :
  negb (mem c cols) = false <-> In c cols.
Proof. rewrite negb_false_iff. apply mem_In. Qed.

(** A check that compares a coerced column with a bound passes when the
    column is there and no value that is present violates the bound. *)
Lemma bound_check_passes (tn : cell -> option Q) (df : DataFrame) (c : string)
    (bad : option Q -> bool) :
  (length (filter bad (map tn (column df c))) =? 0) = true <->
  (forall r, In r (rows df) -> bad (tn (get (columns df) c r)) = false).
Proof.
  rewrite Nat.eqb_eq, filter_length_zero. unfold column. split.
  - intros H r Hr. apply H. apply in_map, in_map. exact Hr.
  - intros H x Hx. apply in_map_iff in Hx. destruct Hx as [v [<- Hv]].
    apply in_map_iff in Hv. destruct Hv as [r [<- Hr]]. now apply H.
Qed.

(** X6. [population_positive] passes exactly when the population column is
    present and every population that reads as a number is above 0: a
    missing or unreadable population does not fail the check. *)
Theorem population_positive_passes_iff (tn : cell -> option Q) (df : DataFrame) :
  passed (population_positive tn df) = true <->
  In "population" (columns df) /\
  (forall r q, In r (rows df) -> tn (get (columns df) "population" r) = Some q ->
               (0 < q)%Q).
Proof.
  unfold population_positive.
  destruct (mem "population" (columns df)) eqn:E; simpl.
  - rewrite bound_check_passes. apply mem_In in E. split.
    + intros H. split; [exact E|]. intros r q Hr Hq.
      specialize (H r Hr). rewrite Hq in H. simpl in H.
      apply Qnot_le_lt. intros Hle. apply Qle_bool_iff in Hle. congruence.
    + intros [_ H] r Hr. destruct (tn _) as [q|] eqn:Eq; [|reflexivity].
      simpl. destruct (Qle_bool q 0) eqn:El; [|reflexivity].
      apply Qle_bool_iff in El. specialize (H r q Hr Eq).
      exfalso. exact (Qlt_not_le _ _ H El).
  - apply mem_false_In in E. split; [discriminate | tauto].
Qed.

(** X7. [new_cases_nonnegative] passes exactly when the new_cases column is
    present and no new_cases that reads as a number is below 0; missing
    values are not counted. *)
Theorem new_cases_nonnegative_passes_iff (tn : cell -> option Q) (df : DataFrame) :
  passed (new_cases_nonnegative tn df) = true <->
  In "new_cases" (columns df) /\
  (forall r q, In r (rows df) -> tn (get (columns df) "new_cases" r) = Some q ->
               (0 <= q)%Q).
Proof.
  unfold new_cases_nonnegative.
  destruct (mem "new_cases" (columns df)) eqn:E; simpl.
  - rewrite bound_check_passes. apply mem_In in E. split.
    + intros H. split; [exact E|]. intros r q Hr Hq.
      specialize (H r Hr). rewrite Hq in H. simpl in H.
      apply negb_false_iff in H. now apply Qle_bool_iff.
    + intros [_ H] r Hr. destruct (tn _) as [q|] eqn:Eq; [|reflexivity].
      simpl. apply negb_false_iff, Qle_bool_iff. exact (H r q Hr Eq).
  - apply mem_false_In in E. split; [discriminate | tauto].
Qed.

Lemma max_date_spec (xs : list (option Z)) (m : Z) :
  max_date xs = Some m <->
  In (Some m) xs /\ (forall d, In (Some d) xs -> (d <= m)%Z).
Proof.
  revert m. induction xs as [|[d|] t IH]; intros m; simpl.
  - split; [discriminate | intros [[] _]].
  - destruct (max_date t) as [mt|] eqn:Et.
    + specialize (IH mt). destruct (proj1 IH eq_refl) as [Hin Hmax]. split.
      * intros H. injection H as <-. split.
        -- destruct (Z.max_spec d mt) as [[_ ->]|[_ ->]]; auto.
        -- intros d' [H|H]; [injection H as <-; lia|].
           specialize (Hmax d' H). lia.
      * intros [Hm Hall]. f_equal.
        assert (d <= m)%Z by (apply Hall; now left).
        assert (mt <= m)%Z by (apply Hall; now right).
        destruct Hm as [Hm|Hm]; [injection Hm as <-; lia|].
        specialize (Hmax m Hm). lia.
    + assert (Hnone : forall x, ~ In (Some x) t).
      { intros x Hx. clear IH. induction t as [|[y|] t' IHt]; simpl in *.
        - exact Hx.
        - destruct (max_date t'); discriminate.
        - destruct Hx as [Hx|Hx]; [discriminate | now apply IHt]. }
      split.
      * intros H. injection H as <-. split; [now left|].
        intros d' [H|H]; [injection H as <-; lia | now apply Hnone in H].
      * intros [[Hm|Hm] _]; [exact Hm | now apply Hnone in Hm].
  - rewrite IH. split.
    + intros [H1 H2]. split; [now right|].
      intros d [H|H]; [discriminate | now apply H2].
    + intros [[H1|H1] H2]; [discriminate|]. split; [exact H1|].
      intros d H. apply H2. now right.
Qed.

(** X8. On a frame whose labels are pairwise distinct
    [max_date_not_future] passes exactly when the date column is present
    and at least one date parses. Whether the latest date is in the future
    has no influence on the outcome: it only turns the note of the
    description from [ok] into the warning. *)
Theorem max_date_not_future_passes_iff (to_datetime : cell -> option Z)
    (today : Z) (isoformat : Z -> string) (df : DataFrame) :
  NoDup (columns df) ->
  (passed (max_date_not_future to_datetime today isoformat df) = true <->
   In "date" (columns df) /\
   exists r d, In r (rows df) /\ to_datetime (get (columns df) "date" r) = Some d) /\
  (forall other_day,
     passed (max_date_not_future to_datetime other_day isoformat df) =
     passed (max_date_not_future to_datetime today isoformat df)) /\
  (forall m,
     max_date (map to_datetime (column df "date")) = Some m ->
     In "date" (columns df) ->
     description (max_date_not_future to_datetime today isoformat df) =
     ("max(date)=" ++ isoformat m ++ " " ++
      (if (today <? m)%Z then "> hoy (advertencia)" else "ok"))%string).
Proof.
  intros _. unfold max_date_not_future.
  destruct (mem "date" (columns df)) eqn:E; simpl.
  - apply mem_In in E. split; [|split].
    + destruct (max_date (map to_datetime (column df "date"))) as [m|] eqn:Em; simpl.
      * split; [|reflexivity]. intros _. split; [exact E|].
        apply max_date_spec in Em. destruct Em as [Hin _].
        apply in_map_iff in Hin. destruct Hin as [v [Hv Hin]].
        unfold column in Hin. apply in_map_iff in Hin.
        destruct Hin as [r [<- Hr]]. now exists r, m.
      * split; [discriminate|]. intros [_ [r [d [Hr Hd]]]]. exfalso.
        assert (Hin : In (Some d) (map to_datetime (column df "date"))).
        { rewrite <- Hd. unfold column. apply in_map, in_map. exact Hr. }
        clear - Em Hin. revert Em Hin.
        generalize (map to_datetime (column df "date")). intros xs.
        induction xs as [|[y|] t IH]; simpl; intros Em Hin.
        -- exact Hin.
        -- destruct (max_date t); discriminate.
        -- destruct Hin as [Hin|Hin]; [discriminate | now apply IH].
    + intros other_day.
      now destruct (max_date (map to_datetime (column df "date"))).
    + intros m -> _. reflexivity.
  - apply mem_false_In in E. split; [|split].
    + split; [discriminate | tauto].
    + reflexivity.
    + intros m _ Hin. contradiction.
Qed.

Lemma max_date_not_future_passes_iff_witness :
  NoDup (columns frame_three_rows) /\
  (passed (max_date_not_future date_of_cell 5 day_label frame_three_rows) = true <->
   In "date" (columns frame_three_rows) /\
   exists r d, In r (rows frame_three_rows) /\ date_of_cell (get (columns frame_three_rows) "date" r) = Some d) /\
  (forall other_day,
     passed (max_date_not_future date_of_cell other_day day_label frame_three_rows) =
     passed (max_date_not_future date_of_cell 5 day_label frame_three_rows)) /\
  (forall m,
     max_date (map date_of_cell (column frame_three_rows "date")) = Some m ->
     In "date" (columns frame_three_rows) ->
     description (max_date_not_future date_of_cell 5 day_label frame_three_rows) =
     ("max(date)=" ++ day_label m ++ " " ++
      (if (5 <? m)%Z then "> hoy (advertencia)" else "ok"))%string).
Proof.
  assert (Hnd : NoDup (columns frame_three_rows)) by distinct_labels.
  split; [exact Hnd|].
  exact (max_date_not_future_passes_iff date_of_cell 5 day_label
           frame_three_rows Hnd).
Defined.

(** X9. On a frame whose labels are pairwise distinct [keys_not_null]
    only looks at the header to decide: it passes exactly when location,
    date and population are present, whatever the rows hold. When it passes
    the number in its description is the number of rows with a null under
    one of the three labels (0 exactly when no key cell is null); when it
    fails the description lists every missing label, in the order
    location, date, population. *)
Theorem keys_not_null_passes_iff (df : DataFrame) :
  NoDup (columns df) ->
  (passed (keys_not_null df) = true <->
   In "location" (columns df) /\ In "date" (columns df) /\
   In "population" (columns df)) /\
  (forall other_rows,
     passed (keys_not_null (mkDF (columns df) other_rows)) =
     passed (keys_not_null df)) /\
  (passed (keys_not_null df) = true ->
   description (keys_not_null df) =
     (" " ++ PyStr.str_of_nat
               (length (filter (null_in_keys (columns df)) (rows df))) ++
      " filas con nulos en claves (advertencia)")%string) /\
  (passed (keys_not_null df) = false ->
   description (keys_not_null df) =
     ("Faltan columnas: " ++
      PyStr.repr_list (filter (fun c => negb (mem c (columns df)))
                              ["location"; "date"; "population"]))%string) /\
  (length (filter (null_in_keys (columns df)) (rows df)) = 0 <->
   forall r c, In r (rows df) ->
               In c ["location"; "date"; "population"] ->
               isnull (get (columns df) c r) = false).
Proof.
  intros _. unfold keys_not_null.
  change (_columns_missing df ["location"; "date"; "population"])
    with (missing_columns (columns df) ["location"; "date"; "population"]).
  change (filter (fun c => negb (mem c (columns df)))
                 ["location"; "date"; "population"])
    with (missing_columns (columns df) ["location"; "date"; "population"]).
  assert (Hzero : length (filter (null_in_keys (columns df)) (rows df)) = 0 <->
                  forall r c, In r (rows df) ->
                              In c ["location"; "date"; "population"] ->
                              isnull (get (columns df) c r) = false).
  { rewrite filter_length_zero. unfold null_in_keys. split.
    - intros H r c Hr Hc. specialize (H r Hr).
      rewrite existsb_false_forall in H. now apply H.
    - intros H r Hr. apply existsb_false_forall. intros c Hc. now apply H. }
  assert (Hother : forall other_rows,
            _columns_missing (mkDF (columns df) other_rows)
                             ["location"; "date"; "population"] =
            missing_columns (columns df) ["location"; "date"; "population"])
    by reflexivity.
  destruct (missing_columns (columns df) ["location"; "date"; "population"])
    as [|c t] eqn:Em.
  - pose proof (proj1 (missing_columns_nil _ _) Em) as Hall.
    split; [|split; [|split; [|split]]].
    + simpl. split; [|reflexivity]. intros _.
      repeat split; apply Hall; simpl; tauto.
    + intros other_rows. now rewrite Hother.
    + intros _. reflexivity.
    + simpl. discriminate.
    + exact Hzero.
  - split; [|split; [|split; [|split]]].
    + simpl. split; [discriminate|]. intros [H1 [H2 H3]].
      assert (Hnil : missing_columns (columns df)
                       ["location"; "date"; "population"] = []).
      { apply missing_columns_nil. intros x [<-|[<-|[<-|[]]]]; assumption. }
      congruence.
    + intros other_rows. now rewrite Hother.
    + simpl. discriminate.
    + intros _. reflexivity.
    + exact Hzero.
Qed.

Lemma keys_not_null_passes_iff_witness :
  NoDup (columns frame_three_rows) /\
  (passed (keys_not_null frame_three_rows) = true <->
   In "location" (columns frame_three_rows) /\ In "date" (columns frame_three_rows) /\
   In "population" (columns frame_three_rows)) /\
  (forall other_rows,
     passed (keys_not_null (mkDF (columns frame_three_rows) other_rows)) =
     passed (keys_not_null frame_three_rows)) /\
  (passed (keys_not_null frame_three_rows) = true ->
   description (keys_not_null frame_three_rows) =
     (" " ++ PyStr.str_of_nat
               (length (filter (null_in_keys (columns frame_three_rows)) (rows frame_three_rows))) ++
      " filas con nulos en claves (advertencia)")%string) /\
  (passed (keys_not_null frame_three_rows) = false ->
   description (keys_not_null frame_three_rows) =
     ("Faltan columnas: " ++
      PyStr.repr_list (filter (fun c => negb (mem c (columns frame_three_rows)))
                              ["location"; "date"; "population"]))%string) /\
  (length (filter (null_in_keys (columns frame_three_rows)) (rows frame_three_rows)) = 0 <->
   forall r c, In r (rows frame_three_rows) ->
               In c ["location"; "date"; "population"] ->
               isnull (get (columns frame_three_rows) c r) = false).
Proof.
  assert (Hnd : NoDup (columns frame_three_rows)) by distinct_labels.
  split; [exact Hnd|].
  exact (keys_not_null_passes_iff frame_three_rows Hnd).
Defined.

(** ** The processed frame *)

Lemma datos_procesados_ok (df out : DataFrame) :
  datos_procesados df = Ok out ->
  (forall c, In c REQUIRED -> In c (columns df)) /\
  out = select REQUIRED
          (filter_paises
             (drop_duplicates ["location"; "date"]
                (dropna_subset ["new_cases"; "people_vaccinated"] df))).
Proof.
  unfold datos_procesados, _require.
  destruct (missing_columns (columns df) REQUIRED) eqn:E; [|discriminate].
  intros H. injection H as <-. split; [|reflexivity].
  now apply missing_columns_nil.
Qed.

Lemma dedup_no_repeat (f : list cell -> list cell) (l : list (list cell)) :
  forall seen,
    (forall x, In x (keep_unflagged l (duplicated_from seen (map f l))) ->
               existsb (key_eqb (f x)) seen = false) /\
    no_repeat f (keep_unflagged l (duplicated_from seen (map f l))).
Proof.
  induction l as [|a t IH]; intros seen.
  - simpl. split; [intros x [] | intros l1 x l2 H; now destruct l1].
  - simpl map. simpl duplicated_from. simpl keep_unflagged.
    destruct (IH (f a :: seen)) as [Hseen Hnr].
    assert (Hs : forall x,
              In x (keep_unflagged t (duplicated_from (f a :: seen) (map f t))) ->
              key_eqb (f x) (f a) = false /\ existsb (key_eqb (f x)) seen = false).
    { intros x Hx. specialize (Hseen x Hx). simpl in Hseen.
      now apply orb_false_iff in Hseen. }
    destruct (existsb (key_eqb (f a)) seen) eqn:E.
    + split; [|exact Hnr]. intros x Hx. now apply Hs.
    + split.
      * intros x [<-|Hx]; [exact E | now apply Hs].
      * intros l1 x l2 Hl y Hy. destruct l1 as [|b l1]; [destruct Hy|].
        simpl in Hl. injection Hl as <- Hl.
        assert (Hx : In x (keep_unflagged t (duplicated_from (f a :: seen) (map f t)))).
        { rewrite Hl. apply in_or_app. right. now left. }
        destruct Hy as [<-|Hy]; [now apply Hs|].
        exact (Hnr l1 x l2 Hl y Hy).
Qed.

Lemma no_repeat_filter (f : list cell -> list cell) (p : list cell -> bool)
    (l : list (list cell)) :
  no_repeat f l -> no_repeat f (filter p l).
Proof.
  intros H l1 x l2 Hl y Hy.
  destruct (filter_split p l l1 x l2 Hl) as [m1 [m2 [Hm [Hf _]]]].
  apply (H m1 x m2 Hm). rewrite <- Hf in Hy. now apply filter_In in Hy.
Qed.

Lemma no_repeat_flags (f : list cell -> list cell) (l : list (list cell)) :
  no_repeat f l -> forall b, In b (duplicated_from [] (map f l)) -> b = false.
Proof.
  intros H b Hb. destruct b; [|reflexivity]. exfalso.
  assert (Hex : exists b, In b (duplicated_from [] (map f l)) /\ b = true)
    by (now exists true).
  apply duplicated_flag in Hex.
  destruct Hex as [i [j [ki [kj [Hlt [Hi [Hj Heq]]]]]]].
  rewrite nth_error_map in Hi, Hj.
  destruct (nth_error l i) as [xi|] eqn:Ei; [|discriminate].
  destruct (nth_error l j) as [xj|] eqn:Ej; [|discriminate].
  injection Hi as <-. injection Hj as <-.
  destruct (nth_error_split l j Ej) as [l1 [l2 [Hl Hlen]]].
  assert (Hin : In xi l1).
  { apply nth_error_In with (n := i). rewrite Hl in Ei.
    rewrite nth_error_app1 in Ei by lia. exact Ei. }
  rewrite (H l1 xj l2 Hl xi Hin) in Heq. discriminate.
Qed.

Lemma key_of_project (cols : list string) (r : list cell) :
  key_of REQUIRED ["location"; "date"] (project cols r) =
  key_of cols ["location"; "date"] r.
Proof. reflexivity. Qed.

(** X10. The frame that [datos_procesados] makes of a frame with pairwise
    distinct labels has no repeated (location, date): [unique_loc_date]
    passes on it. *)
Theorem processed_frame_has_unique_keys (df out : DataFrame) :
  NoDup (columns df) ->
  datos_procesados df = Ok out ->
  passed (unique_loc_date out) = true /\
  no_repeat (key_of (columns out) ["location"; "date"]) (rows out).
Proof.
  intros _ H. destruct (datos_procesados_ok df out H) as [_ ->].
  set (cols := columns df).
  set (key := key_of cols ["location"; "date"]).
  set (F := filter (fun r => negb (existsb (fun c => isnull (get cols c r))
                                     ["new_cases"; "people_vaccinated"])) (rows df)).
  set (K := filter (fun r => isin (get cols "location" r) PAISES)
                   (keep_unflagged F (duplicated_from [] (map key F)))).
  assert (Hrows : rows (select REQUIRED
            (filter_paises (drop_duplicates ["location"; "date"]
               (dropna_subset ["new_cases"; "people_vaccinated"] df)))) =
          map (project cols) K) by reflexivity.
  assert (HK : no_repeat key K).
  { apply no_repeat_filter. apply (dedup_no_repeat key F []). }
  assert (Hnr : no_repeat (key_of REQUIRED ["location"; "date"]) (map (project cols) K)).
  { intros l1 x l2 Hl y Hy.
    assert (Hsplit : exists k1 xk k2, K = k1 ++ xk :: k2 /\
               l1 = map (project cols) k1 /\ x = project cols xk).
    { clear - Hl. revert l1 Hl. induction K as [|a K' IH]; intros l1 Hl.
      - destruct l1; discriminate.
      - destruct l1 as [|b l1]; simpl in Hl; injection Hl as Ha Hl.
        + exists [], a, K'. auto.
        + destruct (IH l1 Hl) as [k1 [xk [k2 [-> [-> ->]]]]].
          exists (a :: k1), xk, k2. simpl. rewrite Ha. auto. }
    destruct Hsplit as [k1 [xk [k2 [HKs [-> ->]]]]].
    apply in_map_iff in Hy. destruct Hy as [yk [<- Hyk]].
    rewrite !key_of_project. exact (HK k1 xk k2 HKs yk Hyk). }
  split; [|simpl columns; rewrite Hrows; exact Hnr].
  unfold unique_loc_date. simpl. apply Nat.eqb_eq. apply count_true_zero.
  unfold duplicated. simpl columns. rewrite Hrows.
  apply no_repeat_flags. exact Hnr.
Qed.

Lemma processed_frame_has_unique_keys_witness :
  NoDup (columns frame_three_rows) /\
  datos_procesados frame_three_rows =
    Ok (mkDF REQUIRED [[CStr "Peru"; CDate 1; CNum 5; CNum 2; CNull]]) /\
  passed (unique_loc_date
            (mkDF REQUIRED [[CStr "Peru"; CDate 1; CNum 5; CNum 2; CNull]])) = true /\
  no_repeat (key_of (columns (mkDF REQUIRED [[CStr "Peru"; CDate 1; CNum 5; CNum 2; CNull]]))
                    ["location"; "date"])
            (rows (mkDF REQUIRED [[CStr "Peru"; CDate 1; CNum 5; CNum 2; CNull]])).
Proof.
  assert (Hnd : NoDup (columns frame_three_rows)) by distinct_labels.
  assert (H : datos_procesados frame_three_rows =
              Ok (mkDF REQUIRED [[CStr "Peru"; CDate 1; CNum 5; CNum 2; CNull]]))
    by reflexivity.
  split; [exact Hnd|]. split; [exact H|].
  exact (processed_frame_has_unique_keys frame_three_rows _ Hnd H).
Defined.

Lemma filter_all_true {A : Type} (p : A -> bool) (l : list A) :
  (forall x, In x l -> p x = true) -> filter p l = l.
Proof.
  induction l as [|a t IH]; simpl; intros H; [reflexivity|].
  rewrite (H a (or_introl eq_refl)). f_equal. apply IH.
  intros x Hx. apply H. now right.
Qed.

Lemma keep_unflagged_all {A : Type} (l : list A) :
  forall flags,
    length flags = length l -> (forall b, In b flags -> b = false) ->
    keep_unflagged l flags = l.
Proof.
  induction l as [|a t IH]; intros [|b flags] Hlen Hall; simpl in *;
    try reflexivity; try discriminate.
  rewrite (Hall b (or_introl eq_refl)). f_equal. apply IH; [lia|].
  intros x Hx. apply Hall. now right.
Qed.

Lemma keep_unflagged_length {A : Type} (l : list A) :
  forall flags, length (keep_unflagged l flags) <= length l.
Proof.
  induction l as [|a t IH]; intros [|b flags]; simpl; try lia.
  specialize (IH flags). destruct b; simpl; lia.
Qed.

(** The rows of the processed frame, each the projection of an input row
    that has both metrics and a configured location. *)
Lemma processed_rows (df out : DataFrame) :
  datos_procesados df = Ok out ->
  columns out = REQUIRED /\
  length (rows out) <= length (rows df) /\
  (forall x, In x (rows out) ->
     exists r, In r (rows df) /\ x = project (columns df) r /\
               complete (columns df) r = true /\
               isin (get (columns df) "location" r) PAISES = true).
Proof.
  intros H. destruct (datos_procesados_ok df out H) as [_ ->].
  split; [reflexivity|]. split.
  - simpl. rewrite length_map.
    etransitivity; [apply filter_length_bound|].
    etransitivity; [apply keep_unflagged_length|].
    apply filter_length_bound.
  - intros x Hx. simpl in Hx. apply in_map_iff in Hx.
    destruct Hx as [r [<- Hr]]. apply filter_In in Hr. destruct Hr as [Hr Hisin].
    assert (Hsub : forall (l : list (list cell)) flags y,
              In y (keep_unflagged l flags) -> In y l).
    { induction l as [|a t IH]; intros [|b flags] y Hy; simpl in *; try tauto.
      destruct b; [right; now apply (IH flags) |].
      destruct Hy as [<-|Hy]; [now left | right; now apply (IH flags)]. }
    apply Hsub in Hr. apply filter_In in Hr. destruct Hr as [Hr Hc].
    exists r. auto.
Qed.

(** X11. What [datos_procesados] returns for a frame with pairwise distinct
    labels: the five canonical columns in their fixed order, five cells a
    row, every location one of PAISES, new_cases and people_vaccinated
    never null, and no more rows than it was given. *)
Theorem processed_frame_shape (df out : DataFrame) :
  NoDup (columns df) ->
  datos_procesados df = Ok out ->
  columns out = REQUIRED /\
  length (rows out) <= length (rows df) /\
  (forall x, In x (rows out) ->
     length x = 5 /\
     (exists s, get (columns out) "location" x = CStr s /\ In s PAISES) /\
     isnull (get (columns out) "new_cases" x) = false /\
     isnull (get (columns out) "people_vaccinated" x) = false).
Proof.
  intros _ H. destruct (processed_rows df out H) as [Hc [Hlen Hrows]].
  split; [exact Hc|]. split; [exact Hlen|].
  intros x Hx. destruct (Hrows x Hx) as [r [_ [-> [Hcomp Hisin]]]].
  rewrite Hc. split; [reflexivity|]. split.
  - change (get REQUIRED "location" (project (columns df) r))
      with (get (columns df) "location" r).
    destruct (get (columns df) "location" r) as [|s| |]; try discriminate.
    exists s. split; [reflexivity|]. now apply mem_In.
  - unfold complete in Hcomp. apply negb_true_iff in Hcomp. simpl in Hcomp.
    apply orb_false_iff in Hcomp. destruct Hcomp as [H1 H2].
    apply orb_false_iff in H2. destruct H2 as [H2 _].
    split; [exact H1 | exact H2].
Qed.

Lemma processed_frame_shape_witness :
  NoDup (columns frame_three_rows) /\
  datos_procesados frame_three_rows =
    Ok (mkDF REQUIRED [[CStr "Peru"; CDate 1; CNum 5; CNum 2; CNull]]) /\
  columns (mkDF REQUIRED [[CStr "Peru"; CDate 1; CNum 5; CNum 2; CNull]]) = REQUIRED /\
  length (rows (mkDF REQUIRED [[CStr "Peru"; CDate 1; CNum 5; CNum 2; CNull]]))
    <= length (rows frame_three_rows) /\
  (forall x, In x (rows (mkDF REQUIRED [[CStr "Peru"; CDate 1; CNum 5; CNum 2; CNull]])) ->
     length x = 5 /\
     (exists s, get (columns (mkDF REQUIRED [[CStr "Peru"; CDate 1; CNum 5; CNum 2; CNull]]))
                    "location" x = CStr s /\ In s PAISES) /\
     isnull (get (columns (mkDF REQUIRED [[CStr "Peru"; CDate 1; CNum 5; CNum 2; CNull]]))
                 "new_cases" x) = false /\
     isnull (get (columns (mkDF REQUIRED [[CStr "Peru"; CDate 1; CNum 5; CNum 2; CNull]]))
                 "people_vaccinated" x) = false).
Proof.
  assert (Hnd : NoDup (columns frame_three_rows)) by distinct_labels.
  assert (H : datos_procesados frame_three_rows =
              Ok (mkDF REQUIRED [[CStr "Peru"; CDate 1; CNum 5; CNum 2; CNull]]))
    by reflexivity.
  split; [exact Hnd|]. split; [exact H|].
  exact (processed_frame_shape frame_three_rows _ Hnd H).
Defined.

Lemma processed_no_repeat (df out : DataFrame) :
  datos_procesados df = Ok out ->
  forall b, In b (duplicated ["location"; "date"] out) -> b = false.
Proof.
  intros H. destruct (datos_procesados_ok df out H) as [_ ->].
  set (cols := columns df).
  set (key := key_of cols ["location"; "date"]).
  set (F := filter (fun r => negb (existsb (fun c => isnull (get cols c r))
                                     ["new_cases"; "people_vaccinated"])) (rows df)).
  set (K := filter (fun r => isin (get cols "location" r) PAISES)
                   (keep_unflagged F (duplicated_from [] (map key F)))).
  assert (HK : no_repeat key K).
  { apply no_repeat_filter. apply (dedup_no_repeat key F []). }
  unfold duplicated.
  change (rows (select REQUIRED
            (filter_paises (drop_duplicates ["location"; "date"]
               (dropna_subset ["new_cases"; "people_vaccinated"] df)))))
    with (map (project cols) K).
  simpl columns. rewrite map_map.
  rewrite (map_ext _ key) by (intros r; apply key_of_project).
  now apply no_repeat_flags.
Qed.

(** X12. [datos_procesados] is idempotent: given its own output it returns
    that frame again. *)
Theorem datos_procesados_idempotent (df out : DataFrame) :
  datos_procesados df = Ok out -> datos_procesados out = Ok out.
Proof.
  intros H. pose proof (processed_rows df out H) as [Hc [_ Hrows]].
  pose proof (processed_no_repeat df out H) as Hflags.
  destruct out as [ocols orows]. simpl in Hc. subst ocols.
  simpl rows in *.
  assert (Hreq : _require (mkDF REQUIRED orows) REQUIRED = Ok tt) by reflexivity.
  unfold datos_procesados. rewrite Hreq.
  unfold select, filter_paises, drop_duplicates, dropna_subset.
  cbn [rows columns]. unfold duplicated in *. cbn [rows columns] in *.
  assert (H1 : filter (fun r => negb (existsb (fun c => isnull (get REQUIRED c r))
                                        ["new_cases"; "people_vaccinated"])) orows
               = orows).
  { apply filter_all_true. intros x Hx.
    destruct (Hrows x Hx) as [r [_ [-> [Hcomp _]]]]. exact Hcomp. }
  rewrite H1.
  rewrite (keep_unflagged_all orows)
    by (try (rewrite duplicated_from_length, length_map; reflexivity);
        exact Hflags).
  assert (H2 : filter (fun r => isin (get REQUIRED "location" r) PAISES) orows = orows).
  { apply filter_all_true. intros x Hx.
    destruct (Hrows x Hx) as [r [_ [-> [_ Hisin]]]]. exact Hisin. }
  rewrite H2. f_equal. f_equal.
  rewrite <- (map_id orows) at 2. apply map_ext_in. intros x Hx.
  destruct (Hrows x Hx) as [r [_ [-> _]]]. reflexivity.
Qed.

Lemma datos_procesados_idempotent_witness :
  datos_procesados frame_three_rows =
    Ok (mkDF REQUIRED [[CStr "Peru"; CDate 1; CNum 5; CNum 2; CNull]]) /\
  datos_procesados (mkDF REQUIRED [[CStr "Peru"; CDate 1; CNum 5; CNum 2; CNull]]) =
    Ok (mkDF REQUIRED [[CStr "Peru"; CDate 1; CNum 5; CNum 2; CNull]]).
Proof.
  assert (H : datos_procesados frame_three_rows =
              Ok (mkDF REQUIRED [[CStr "Peru"; CDate 1; CNum 5; CNum 2; CNull]]))
    by reflexivity.
  split; [exact H|].
  exact (datos_procesados_idempotent frame_three_rows _ H).
Defined.

(** ** Signs and ranges of the metrics *)

Lemma sum_valid_nonneg (xs : series) : nonneg_series xs -> (0 <= sum_valid xs)%Q.
Proof.
  induction xs as [|[q|] t IH]; simpl; intros H.
  - apply Qle_refl.
  - replace 0%Q with (0 + 0)%Q by reflexivity. apply Qplus_le_compat.
    + apply H. now left.
    + apply IH. intros x Hx. apply H. now right.
  - apply IH. intros x Hx. apply H. now right.
Qed.

Lemma In_last_n {A : Type} (n : nat) (l : list A) (x : A) :
  In x (last_n n l) -> In x l.
Proof.
  unfold last_n. intros H. rewrite <- (firstn_skipn (length l - n) l).
  apply in_or_app. now right.
Qed.

Lemma In_history (df : list Row) (i : nat) (loc : string) (r : Row) :
  In r (history df i loc) -> In r df.
Proof.
  unfold history. intros H. apply filter_In in H. destruct H as [H _].
  rewrite <- (firstn_skipn (S i) df). apply in_or_app. now left.
Qed.

Lemma incidencia_diaria_nonneg (r : Row) (q : Q) :
  (forall n, new_cases r = Some n -> (0 <= n)%Q) ->
  (forall p, population r = Some p -> (0 <= p)%Q) ->
  incidencia_diaria r = Some q -> (0 <= q)%Q.
Proof.
  intros Hn Hp. unfold incidencia_diaria.
  destruct (new_cases r) as [n|]; [|discriminate].
  destruct (population r) as [p|]; [|discriminate].
  destruct (Qeq_bool p 0); [discriminate|]. intros H. injection H as <-.
  apply Qmult_le_0_compat; [|discriminate].
  apply Qmult_le_0_compat; [now apply Hn|].
  apply Qinv_le_0_compat. now apply Hp.
Qed.

(** X13. When no new_cases and no population of the record set is negative,
    every value of the incidence table is a number that is not negative. *)
Theorem incidence_is_nonnegative (datos : list Row) (o : IncidenceRow) :
  nonneg_inputs datos ->
  In o (metrica_incidencia_7d datos) ->
  exists v, incidencia_7d o = Some v /\ (0 <= v)%Q.
Proof.
  intros Hnn H. destruct (incidence_row_inv datos o H)
    as [i [r [Hr [_ [_ [_ [_ [_ [_ Hv]]]]]]]]].
  eexists. split; [exact Hv|]. unfold mean7.
  apply Qmult_le_0_compat; [|discriminate].
  apply sum_valid_nonneg. intros q Hq. apply In_last_n in Hq.
  apply in_map_iff in Hq. destruct Hq as [r' [Hq Hr']].
  apply In_history in Hr'.
  apply (Permutation_in _ (sort_values_perm datos)) in Hr'.
  destruct (Hnn r' Hr') as [Hn Hp].
  exact (incidencia_diaria_nonneg r' q Hn Hp Hq).
Qed.

Lemma incidence_is_nonnegative_witness :
  nonneg_inputs thirteen_days /\
  In (first_incidence_row thirteen_days) (metrica_incidencia_7d thirteen_days) /\
  exists v, incidencia_7d (first_incidence_row thirteen_days) = Some v /\ (0 <= v)%Q.
Proof.
  assert (Hnn : nonneg_inputs thirteen_days).
  { intros r Hr. simpl in Hr.
    repeat (destruct Hr as [<-|Hr];
            [split; intros x Hx; injection Hx as <-; discriminate|]).
    destruct Hr. }
  assert (Hin : In (first_incidence_row thirteen_days)
                   (metrica_incidencia_7d thirteen_days))
    by (left; vm_compute; reflexivity).
  split; [exact Hnn|]. split; [exact Hin|].
  exact (incidence_is_nonnegative thirteen_days _ Hnn Hin).
Defined.

Lemma casos_semana_nonneg (df : list Row) :
  (forall r n, In r df -> new_cases r = Some n -> (0 <= n)%Q) ->
  nonneg_series (col_casos_semana df).
Proof.
  intros Hnn c Hc. apply In_nth_error in Hc. destruct Hc as [i Hi].
  assert (Hlt : i < length df).
  { assert (i < length (col_casos_semana df)) by (apply nth_error_Some; congruence).
    unfold col_casos_semana in H.
    now rewrite groupby_transform_length, length_map in H. }
  destruct (nth_error df i) as [r|] eqn:Er; [|apply nth_error_None in Er; lia].
  pose proof (transform_rolling_at df new_cases 7 1 roll_sum i r Er) as Hat.
  fold (col_casos_semana df) in Hat. rewrite nth_of_nth_error, Hi in Hat.
  destruct (1 <=? _); [|discriminate]. injection Hat as ->.
  apply sum_valid_nonneg. intros q Hq. apply In_last_n in Hq.
  apply in_map_iff in Hq. destruct Hq as [r' [Hq Hr']].
  apply In_history in Hr'. exact (Hnn r' q Hr' Hq).
Qed.

Lemma In_pick {A : Type} (keys : list string) (k : string) (xs : list A) (x : A) :
  In x (pick keys k xs) -> In x xs.
Proof.
  unfold pick. intros H. apply in_map_iff in H. destruct H as [[k' y] [<- H]].
  apply filter_In in H. destruct H as [H _]. now apply in_combine_r in H.
Qed.

Lemma In_shift (n : nat) (xs : series) (q : Q) (j : nat) :
  nth j (shift n xs) None = Some q -> In (Some q) xs.
Proof.
  unfold shift. intros H.
  assert (Hin : In (Some q) (firstn (length xs) (repeat None n ++ xs))).
  { rewrite <- H. apply nth_In.
    destruct (Nat.lt_ge_cases j (length (firstn (length xs) (repeat None n ++ xs))));
      [assumption|].
    rewrite nth_overflow in H by assumption. discriminate. }
  assert (Hin' : In (Some q) (repeat None n ++ xs)).
  { rewrite <- (firstn_skipn (length xs) (repeat None n ++ xs)).
    apply in_or_app. now left. }
  apply in_app_or in Hin'. destruct Hin' as [Hr|Hx]; [|exact Hx].
  apply repeat_spec in Hr. discriminate.
Qed.

(** X14. When no new_cases of the record set is negative, every factor of
    the growth table is a number that is not negative, and it is 0 exactly
    when the week's casos_semana is 0. *)
Theorem growth_factor_is_nonnegative (df : list Row) (g : GrowthRow) :
  (forall r n, In r df -> new_cases r = Some n -> (0 <= n)%Q) ->
  In g (metrica_factor_crec_7d df) ->
  exists c q,
    casos_semana g = Some c /\ factor_crec_7d g = Fin q /\
    (0 <= c)%Q /\ (0 <= q)%Q /\ ((q == 0)%Q <-> (c == 0)%Q).
Proof.
  intros Hnn H. destruct (growth_row_inv df g H)
    as [i [r [c [p [Hr [_ [_ [Hs [Hpv [Hp [Hc Hf]]]]]]]]]]].
  pose proof (casos_semana_nonneg df Hnn) as Hcs.
  assert (Hc0 : (0 <= c)%Q).
  { apply Hcs. rewrite <- Hs. apply nth_In.
    destruct (Nat.lt_ge_cases i (length (col_casos_semana df))); [assumption|].
    rewrite nth_overflow in Hs by assumption. discriminate. }
  assert (Hp0 : (0 < p)%Q).
  { assert (Hge : (0 <= p)%Q).
    { apply Hcs. unfold col_casos_semana_prev in Hpv.
      assert (Hi : i < length (map location df)).
      { rewrite length_map. apply nth_error_Some. congruence. }
      rewrite (groupby_transform_nth _ _ _ i Hi) in Hpv.
      apply In_shift in Hpv. now apply In_pick in Hpv. }
    apply Qle_lteq in Hge. destruct Hge as [Hlt|Heq]; [exact Hlt|].
    exfalso. apply Hp. now symmetry. }
  exists c, (c / p)%Q. split; [exact Hc|]. split; [exact Hf|].
  split; [exact Hc0|]. split.
  - apply Qmult_le_0_compat; [exact Hc0|].
    apply Qinv_le_0_compat. now apply Qlt_le_weak.
  - split.
    + intros Hq. assert (E : (c == c / p * p)%Q).
      { rewrite Qmult_comm. symmetry. apply Qmult_div_r. exact Hp. }
      rewrite E, Hq. reflexivity.
    + intros Hz. unfold Qdiv. rewrite Hz. reflexivity.
Qed.

Lemma growth_factor_is_nonnegative_witness :
  (forall r n, In r eight_days -> new_cases r = Some n -> (0 <= n)%Q) /\
  In (mkGrowth 8 "Peru" (Some 35%Q) (Fin 35%Q)) (metrica_factor_crec_7d eight_days) /\
  exists c q,
    casos_semana (mkGrowth 8 "Peru" (Some 35%Q) (Fin 35%Q)) = Some c /\
    factor_crec_7d (mkGrowth 8 "Peru" (Some 35%Q) (Fin 35%Q)) = Fin q /\
    (0 <= c)%Q /\ (0 <= q)%Q /\ ((q == 0)%Q <-> (c == 0)%Q).
Proof.
  assert (Hnn : forall r n, In r eight_days -> new_cases r = Some n -> (0 <= n)%Q).
  { intros r n Hr. simpl in Hr.
    repeat (destruct Hr as [<-|Hr]; [intros Hx; injection Hx as <-; discriminate|]).
    destruct Hr. }
  assert (Hin : In (mkGrowth 8 "Peru" (Some 35%Q) (Fin 35%Q))
                   (metrica_factor_crec_7d eight_days)) by (left; reflexivity).
  split; [exact Hnn|]. split; [exact Hin|].
  exact (growth_factor_is_nonnegative eight_days _ Hnn Hin).
Defined.

(** ** The output checks *)

Lemma coercion_of_option (tn : cell -> option Q) (v : option Q) :
  numeric_coercion tn -> tn (cell_of_option v) = v.
Proof. intros [Hn Hz]. destruct v as [q|]; simpl; [apply Hn | exact Hz]. Qed.

Lemma numeric_coercion_num_of_cell : numeric_coercion num_of_cell.
Proof. split; reflexivity. Qed.

(** X15. On an incidence table [incidencia_en_rango] passes exactly when
    every value that is present lies between 0 and 2000. *)
Theorem incidencia_en_rango_passes_iff (tn : cell -> option Q)
    (t : list IncidenceRow) :
  numeric_coercion tn ->
  (passed (incidencia_en_rango tn (incidence_frame t)) = true <->
   forall o v, In o t -> incidencia_7d o = Some v -> (0 <= v)%Q /\ (v <= 2000)%Q).
Proof.
  intros Htn. unfold incidencia_en_rango.
  change (negb (mem "incidencia_7d" (columns (incidence_frame t)))) with false.
  cbv iota. simpl passed. rewrite bound_check_passes. simpl rows. split.
  - intros H o v Ho Hv.
    specialize (H _ (in_map _ _ _ Ho)). cbv beta in H.
    change (get (columns (incidence_frame t)) "incidencia_7d"
                [CDate (inc_date o); CStr (inc_location o);
                 cell_of_option (incidencia_7d o)])
      with (cell_of_option (incidencia_7d o)) in H.
    rewrite (coercion_of_option tn _ Htn), Hv in H. simpl in H.
    apply orb_false_iff in H. destruct H as [H1 H2].
    apply negb_false_iff in H1, H2. split; now apply Qle_bool_iff.
  - intros H r Hr. apply in_map_iff in Hr. destruct Hr as [o [<- Ho]].
    change (get (columns (incidence_frame t)) "incidencia_7d"
                [CDate (inc_date o); CStr (inc_location o);
                 cell_of_option (incidencia_7d o)])
      with (cell_of_option (incidencia_7d o)).
    rewrite (coercion_of_option tn _ Htn).
    destruct (incidencia_7d o) as [v|] eqn:Ev; [|reflexivity].
    destruct (H o v Ho Ev) as [H1 H2]. simpl.
    apply orb_false_iff. split; apply negb_false_iff; now apply Qle_bool_iff.
Qed.

Lemma incidencia_en_rango_passes_iff_witness :
  numeric_coercion num_of_cell /\
  (passed (incidencia_en_rango num_of_cell
             (incidence_frame (metrica_incidencia_7d thirteen_days))) = true <->
   forall o v, In o (metrica_incidencia_7d thirteen_days) ->
               incidencia_7d o = Some v -> (0 <= v)%Q /\ (v <= 2000)%Q).
Proof.
  split; [exact numeric_coercion_num_of_cell|].
  exact (incidencia_en_rango_passes_iff num_of_cell
           (metrica_incidencia_7d thirteen_days) numeric_coercion_num_of_cell).
Defined.

Lemma invalid_count_split (serie : series) :
  length (filter (fun v => negb (gt_zero v)) serie) =
  length (filter (fun v => negb (notna v)) serie) + length (filter le_zero serie).
Proof.
  induction serie as [|[q|] t IH]; simpl; [reflexivity| |].
  - rewrite negb_involutive. destruct (Qle_bool q 0); simpl; lia.
  - rewrite IH. lia.
Qed.

(** X16. [factor_crec_valido] fails only for a missing column. With the
    column present it passes whatever the values are, and the number it
    reports counts every missing factor twice (once as missing, once as
    not above 0) and every factor that is 0 or negative once. *)
Theorem factor_crec_valido_count (tn : cell -> option Q) (df : DataFrame) :
  (passed (factor_crec_valido tn df) = true <-> In "factor_crec_7d" (columns df)) /\
  (In "factor_crec_7d" (columns df) ->
   description (factor_crec_valido tn df) =
   ("⚠️ " ++
    PyStr.str_of_nat
      (2 * length (filter (fun v => negb (notna v))
                          (map tn (column df "factor_crec_7d"))) +
       length (filter le_zero (map tn (column df "factor_crec_7d")))) ++
    " registros inválidos (NaN/inf/<=0 en ventanas tempranas)")%string).
Proof.
  unfold factor_crec_valido.
  destruct (mem "factor_crec_7d" (columns df)) eqn:E; simpl negb; cbv iota.
  - apply mem_In in E. split; [simpl; tauto|]. intros _. cbn [description].
    rewrite invalid_count_split.
    assert (Hn : forall a b, a + (a + b) = 2 * a + b) by (intros; lia).
    rewrite Hn. reflexivity.
  - apply mem_false_In in E. split; [simpl; split; [discriminate | tauto]|].
    intros H. contradiction.
Qed.

Lemma finite_factors_count (tn : cell -> option Q) (t : list GrowthRow) :
  numeric_coercion tn ->
  (forall g, In g t -> exists q, factor_crec_7d g = Fin q) ->
  length (filter (fun v => negb (notna v))
                 (map tn (column (growth_frame t) "factor_crec_7d"))) = 0 /\
  length (filter le_zero (map tn (column (growth_frame t) "factor_crec_7d"))) =
  length (filter nonpositive_factor t).
Proof.
  intros [Hn _] Hfin.
  assert (E : map tn (column (growth_frame t) "factor_crec_7d") =
              map (fun g => tn (cell_of_float (factor_crec_7d g))) t).
  { unfold column. simpl rows. rewrite !map_map. reflexivity. }
  rewrite E. clear E.
  induction t as [|g t IH]; [split; reflexivity|].
  destruct (Hfin g (or_introl eq_refl)) as [q Hq].
  destruct IH as [IH1 IH2]; [intros x Hx; apply Hfin; now right|].
  simpl map. rewrite Hq. simpl cell_of_float. rewrite Hn. simpl. split.
  - exact IH1.
  - unfold nonpositive_factor at 1. rewrite Hq.
    destruct (Qle_bool q 0); simpl; now rewrite IH2.
Qed.

(** X17. On the growth table that [metrica_factor_crec_7d] returns,
    [factor_crec_valido] passes and the number it reports is the number of
    rows whose factor is 0 or negative: no row of that table has a missing
    factor. *)
Theorem factor_crec_valido_on_growth_table (tn : cell -> option Q) (df : list Row) :
  numeric_coercion tn ->
  factor_crec_valido tn (growth_frame (metrica_factor_crec_7d df)) =
  mkCheck true
    ("⚠️ " ++
     PyStr.str_of_nat (length (filter nonpositive_factor (metrica_factor_crec_7d df))) ++
     " registros inválidos (NaN/inf/<=0 en ventanas tempranas)")%string.
Proof.
  intros Htn.
  assert (Hfin : forall g, In g (metrica_factor_crec_7d df) ->
                           exists q, factor_crec_7d g = Fin q).
  { intros g Hg. destruct (growth_row_inv df g Hg)
      as [i [r [c [p [_ [_ [_ [_ [_ [_ [_ Hf]]]]]]]]]]]. eexists. exact Hf. }
  destruct (finite_factors_count tn _ Htn Hfin) as [H0 H1].
  unfold factor_crec_valido.
  change (negb (mem "factor_crec_7d"
                    (columns (growth_frame (metrica_factor_crec_7d df)))))
    with false.
  cbv iota. rewrite invalid_count_split, H0, H1. reflexivity.
Qed.

Lemma factor_crec_valido_on_growth_table_witness :
  numeric_coercion num_of_cell /\
  factor_crec_valido num_of_cell (growth_frame (metrica_factor_crec_7d fading_fortnight)) =
  mkCheck true
    ("⚠️ " ++
     PyStr.str_of_nat
       (length (filter nonpositive_factor (metrica_factor_crec_7d fading_fortnight))) ++
     " registros inválidos (NaN/inf/<=0 en ventanas tempranas)")%string.
Proof.
  split; [exact numeric_coercion_num_of_cell|].
  exact (factor_crec_valido_on_growth_table num_of_cell fading_fortnight
           numeric_coercion_num_of_cell).
Defined.

(** ** Order of the incidence table *)

Lemma StronglySorted_map_combine {A B C : Type} (R : A -> A -> Prop)
    (R' : C -> C -> Prop) (g : A * B -> C) (l : list A) :
  (forall a b y y', R a b -> R' (g (a, y)) (g (b, y'))) ->
  StronglySorted R l ->
  forall ys : list B, StronglySorted R' (map g (combine l ys)).
Proof.
  intros Hg H. induction H as [|h t Hs IH Hall]; intros ys; simpl; [constructor|].
  destruct ys as [|y ys]; simpl; [constructor|]. constructor; [apply IH|].
  apply Forall_forall. intros x Hx. apply in_map_iff in Hx.
  destruct Hx as [[b y'] [<- Hin]]. apply in_combine_l in Hin.
  rewrite Forall_forall in Hall. apply Hg. now apply Hall.
Qed.

(** X18. The incidence table comes out ordered by location and, within a
    location, by date. *)
Theorem incidence_table_is_sorted (datos : list Row) :
  StronglySorted incidence_le (metrica_incidencia_7d datos).
Proof.
  unfold metrica_incidencia_7d. apply StronglySorted_filter.
  apply StronglySorted_map_combine with (R := row_le).
  - intros a b y y'. unfold row_le, row_leb, incidence_le. simpl.
    destruct (String.compare (location a) (location b)); try discriminate; auto.
    apply Z.leb_le.
  - apply sort_values_sorted.
Qed.

Lemma row_le_antisym (a b : Row) :
  row_le a b -> row_le b a -> location a = location b /\ date a = date b.
Proof.
  unfold row_le, row_leb.
  rewrite (String.compare_antisym (location a) (location b)).
  destruct (String.compare (location b) (location a)) eqn:E; simpl;
    try discriminate.
  apply String.compare_eq_iff in E. rewrite !Z.leb_le. intros H1 H2.
  split; [now symmetry | lia].
Qed.

Lemma sorted_permutation_eq {A : Type} (R : A -> A -> Prop) (l1 : list A) :
  forall l2,
    StronglySorted R l1 -> StronglySorted R l2 -> Permutation l1 l2 ->
    (forall a b, In a l1 -> In b l1 -> R a b -> R b a -> a = b) ->
    l1 = l2.
Proof.
  induction l1 as [|a t1 IH]; intros l2 H1 H2 Hp Hanti.
  - apply Permutation_nil in Hp. now subst.
  - destruct l2 as [|b t2].
    + apply Permutation_sym, Permutation_nil in Hp. discriminate.
    + inversion H1 as [|? ? Hs1 Hall1]; subst.
      inversion H2 as [|? ? Hs2 Hall2]; subst.
      rewrite Forall_forall in Hall1, Hall2.
      assert (Hab : a = b).
      { assert (Ha : In a (b :: t2))
          by (apply (Permutation_in _ Hp); now left).
        assert (Hb : In b (a :: t1))
          by (apply (Permutation_in _ (Permutation_sym Hp)); now left).
        destruct Ha as [->|Ha]; [reflexivity|].
        destruct Hb as [->|Hb]; [reflexivity|].
        apply Hanti; [now left | now right | now apply Hall1 | now apply Hall2]. }
      subst b. f_equal. apply IH; auto.
      * now apply Permutation_cons_inv in Hp.
      * intros x y Hx Hy. apply Hanti; now right.
Qed.

(** X19. When no two records share entity and date, the incidence table
    does not depend on the order of the input rows. *)
Theorem incidence_ignores_row_order (datos datos' : list Row) :
  unique_keys datos ->
  Permutation datos datos' ->
  metrica_incidencia_7d datos = metrica_incidencia_7d datos'.
Proof.
  intros Hu Hp.
  assert (E : sort_values datos = sort_values datos').
  { apply (sorted_permutation_eq row_le); try apply sort_values_sorted.
    - rewrite (sort_values_perm datos), Hp. symmetry. apply sort_values_perm.
    - intros a b Ha Hb Hab Hba.
      destruct (row_le_antisym a b Hab Hba) as [Hl Hd].
      apply Hu; auto; apply (Permutation_in _ (sort_values_perm datos));
        assumption. }
  unfold metrica_incidencia_7d. now rewrite E.
Qed.

Lemma incidence_ignores_row_order_witness :
  unique_keys eight_days /\
  Permutation eight_days eight_days_latest_first /\
  metrica_incidencia_7d eight_days = metrica_incidencia_7d eight_days_latest_first.
Proof.
  assert (Hu : unique_keys eight_days).
  { intros a b Ha Hb _ Hd. simpl in Ha, Hb.
    repeat (destruct Ha as [<-|Ha]; [|]);
      try destruct Ha;
      repeat (destruct Hb as [<-|Hb]; [|]);
      try destruct Hb; try reflexivity; discriminate Hd. }
  assert (Hp : Permutation eight_days eight_days_latest_first)
    by apply Permutation_rev.
  split; [exact Hu|]. split; [exact Hp|].
  exact (incidence_ignores_row_order eight_days eight_days_latest_first Hu Hp).
Defined.

(** ** Entities do not influence each other *)

Lemma combine_app_eq {A B : Type} (l1 : list A) :
  forall (l2 : list A) (m1 m2 : list B),
    length l1 = length m1 ->
    combine (l1 ++ l2) (m1 ++ m2) = combine l1 m1 ++ combine l2 m2.
Proof.
  induction l1 as [|a l1 IH]; intros l2 [|b m1] m2 H; simpl in *;
    try discriminate; [reflexivity|].
  f_equal. apply IH. lia.
Qed.

Lemma pick_app {A : Type} (keys1 keys2 : list string) (k : string)
    (xs1 xs2 : list A) :
  length keys1 = length xs1 ->
  pick (keys1 ++ keys2) k (xs1 ++ xs2) = pick keys1 k xs1 ++ pick keys2 k xs2.
Proof.
  intros H. unfold pick. now rewrite combine_app_eq, filter_app, map_app.
Qed.

Lemma pick_map {A B : Type} (g : A -> B) (k : string) (keys : list string) :
  forall xs : list A, pick keys k (map g xs) = map g (pick keys k xs).
Proof.
  unfold pick. induction keys as [|a keys IH]; intros [|x xs]; simpl;
    try reflexivity.
  destruct (String.eqb k a); simpl; now rewrite IH.
Qed.

Lemma zip_with_nil_r {A B C : Type} (f : A -> B -> C) (xs : list A) :
  zip_with f xs [] = [].
Proof. now destruct xs. Qed.

Lemma pick_zip_with {A B C : Type} (f : A -> B -> C) (k : string)
    (keys : list string) :
  forall (xs : list A) (ys : list B),
    pick keys k (zip_with f xs ys) = zip_with f (pick keys k xs) (pick keys k ys).
Proof.
  unfold pick. induction keys as [|a keys IH]; intros [|x xs] [|y ys]; simpl;
    try reflexivity.
  - now rewrite zip_with_nil_r.
  - destruct (String.eqb k a); simpl; now rewrite IH.
Qed.

Lemma combine_nil_r {A B : Type} (xs : list A) : combine xs (@nil B) = [].
Proof. now destruct xs. Qed.

Lemma pick_combine {A B : Type} (k : string) (keys : list string) :
  forall (xs : list A) (ys : list B),
    pick keys k (combine xs ys) = combine (pick keys k xs) (pick keys k ys).
Proof.
  unfold pick. induction keys as [|a keys IH]; intros [|x xs] [|y ys]; simpl;
    try reflexivity.
  - now rewrite combine_nil_r.
  - destruct (String.eqb k a); simpl; now rewrite IH.
Qed.

Lemma pick_rows (df : list Row) (k : string) :
  pick (map location df) k df = entity_rows df k.
Proof.
  unfold pick, entity_rows. induction df as [|r df IH]; simpl; [reflexivity|].
  destruct (String.eqb k (location r)); simpl; now rewrite IH.
Qed.

Lemma pick_length {A : Type} (k : string) (keys : list string) :
  forall xs : list A,
    length xs = length keys ->
    length (pick keys k xs) = length (filter (String.eqb k) keys).
Proof.
  unfold pick. induction keys as [|a keys IH]; intros [|x xs] H; simpl in *;
    try discriminate; [reflexivity|].
  destruct (String.eqb k a); simpl; rewrite IH by lia; reflexivity.
Qed.

Lemma pick_same {A : Type} (k : string) (keys : list string) :
  forall xs : list A,
    length xs = length keys -> (forall a, In a keys -> a = k) ->
    pick keys k xs = xs.
Proof.
  unfold pick. induction keys as [|a keys IH]; intros [|x xs] H Hall; simpl in *;
    try discriminate; [reflexivity|].
  rewrite (Hall a (or_introl eq_refl)), String.eqb_refl. simpl. f_equal.
  apply IH; [lia|]. intros b Hb. apply Hall. now right.
Qed.

Lemma map_nth_seq {A : Type} (d : A) (l : list A) :
  map (fun j => nth j l d) (seq 0 (length l)) = l.
Proof.
  induction l as [|x l IH]; simpl; [reflexivity|].
  f_equal. rewrite <- seq_shift, map_map. exact IH.
Qed.

Lemma pick_by_rank {B : Type} (h : nat -> string -> B) (k : string)
    (keys : list string) :
  pick keys k (map (fun i => h (rank keys i) (nth i keys EmptyString))
                   (seq 0 (length keys))) =
  map (fun j => h j k) (seq 0 (length (filter (String.eqb k) keys))).
Proof.
  induction keys as [|a keys IH] using rev_ind; [reflexivity|].
  rewrite length_app. simpl length. rewrite Nat.add_1_r, seq_S, map_app.
  simpl map. rewrite ?Nat.add_0_l.
  assert (Hpre : map (fun i => h (rank (keys ++ [a]) i)
                                 (nth i (keys ++ [a]) EmptyString))
                     (seq 0 (length keys)) =
                 map (fun i => h (rank keys i) (nth i keys EmptyString))
                     (seq 0 (length keys))).
  { apply map_ext_in. intros i Hi. apply in_seq in Hi.
    unfold rank. rewrite app_nth1 by lia. rewrite firstn_app.
    replace (i - length keys) with 0 by lia. simpl. now rewrite app_nil_r. }
  rewrite Hpre.
  assert (Hlast : rank (keys ++ [a]) (length keys) =
                  length (filter (String.eqb a) keys) /\
                  nth (length keys) (keys ++ [a]) EmptyString = a).
  { unfold rank. rewrite app_nth2 by lia. rewrite Nat.sub_diag. simpl.
    split; [|reflexivity].
    rewrite firstn_app, Nat.sub_diag, firstn_all. simpl. now rewrite app_nil_r. }
  destruct Hlast as [-> ->].
  rewrite pick_app by (now rewrite length_map, length_seq).
  rewrite IH, filter_app, length_app. simpl. unfold pick. simpl.
  destruct (String.eqb_spec k a) as [->|Hne]; simpl.
  - rewrite Nat.add_1_r, seq_S, map_app. reflexivity.
  - now rewrite Nat.add_0_r, app_nil_r.
Qed.

(** A grouped transform, read on the rows of one entity, is the function
    applied to that entity's series. *)
Lemma pick_groupby_transform (keys : list string) (vals : series)
    (f : series -> series) (k : string) :
  length vals = length keys ->
  length (f (pick keys k vals)) = length (pick keys k vals) ->
  pick keys k (groupby_transform keys vals f) = f (pick keys k vals).
Proof.
  intros Hlen Hf. unfold groupby_transform.
  rewrite (pick_by_rank (fun j k' => nth j (f (group_of keys vals k')) None) k keys).
  change (group_of keys vals k) with (pick keys k vals).
  rewrite <- (pick_length k keys vals Hlen), <- Hf.
  apply map_nth_seq.
Qed.

Lemma groupby_single_group (keys : list string) (vals : series)
    (f : series -> series) (k : string) :
  length vals = length keys -> (forall a, In a keys -> a = k) ->
  length (f vals) = length vals ->
  groupby_transform keys vals f = f vals.
Proof.
  intros Hlen Hall Hf.
  rewrite <- (pick_same k keys (groupby_transform keys vals f))
    by (auto using groupby_transform_length).
  rewrite pick_groupby_transform; rewrite ?(pick_same k keys vals Hlen Hall); auto.
Qed.

Lemma shift_length (n : nat) (xs : series) : length (shift n xs) = length xs.
Proof.
  unfold shift. rewrite length_firstn, length_app. lia.
Qed.

Lemma entity_rows_location (df : list Row) (k a : string) :
  In a (map location (entity_rows df k)) -> a = k.
Proof.
  intros H. apply in_map_iff in H. destruct H as [r [<- Hr]].
  unfold entity_rows in Hr. apply filter_In in Hr. destruct Hr as [_ Hr].
  apply String.eqb_eq in Hr. now symmetry.
Qed.

Lemma casos_semana_of_entity (df : list Row) (k : string) :
  col_casos_semana (entity_rows df k) =
  pick (map location df) k (col_casos_semana df).
Proof.
  unfold col_casos_semana.
  rewrite pick_groupby_transform;
    [|now rewrite !length_map | apply rolling_length].
  rewrite pick_map, pick_rows.
  apply (groupby_single_group _ _ _ k).
  - now rewrite !length_map.
  - apply entity_rows_location.
  - apply rolling_length.
Qed.

Lemma casos_semana_prev_of_entity (df : list Row) (k : string) :
  col_casos_semana_prev (entity_rows df k) =
  pick (map location df) k (col_casos_semana_prev df).
Proof.
  unfold col_casos_semana_prev.
  assert (Hlen : forall d, length (col_casos_semana d) = length (map location d)).
  { intros d. unfold col_casos_semana. apply groupby_transform_length. }
  rewrite pick_groupby_transform; [|apply Hlen | apply shift_length].
  rewrite <- casos_semana_of_entity.
  apply (groupby_single_group _ _ _ k).
  - apply Hlen.
  - apply entity_rows_location.
  - apply shift_length.
Qed.

Lemma filter_zip_rows {A B : Type} (mk : Row -> A -> B) (p : B -> bool) (k : string) :
  (forall r x, p (mk r x) = String.eqb k (location r)) ->
  forall (df : list Row) (xs : list A),
    filter p (zip_with mk df xs) =
    zip_with mk (entity_rows df k) (pick (map location df) k xs).
Proof.
  intros Hp. unfold pick, entity_rows.
  induction df as [|r df IH]; intros [|x xs]; simpl; try reflexivity.
  - now rewrite zip_with_nil_r.
  - rewrite Hp. destruct (String.eqb k (location r)); simpl; now rewrite IH.
Qed.

Lemma filter_swap {A : Type} (p q : A -> bool) (l : list A) :
  filter p (filter q l) = filter q (filter p l).
Proof.
  induction l as [|a l IH]; simpl; [reflexivity|].
  destruct (p a) eqn:Ep, (q a) eqn:Eq; simpl; rewrite ?Ep, ?Eq, IH; reflexivity.
Qed.

(** X20. The growth table of one entity is computed from that entity's
    rows alone: the rows of location [k] in the table of a record set are
    the table of the record set cut down to [k]. *)
Theorem growth_of_entity_is_independent (df : list Row) (k : string) :
  filter (fun g => String.eqb k (growth_location g)) (metrica_factor_crec_7d df) =
  metrica_factor_crec_7d (entity_rows df k).
Proof.
  unfold metrica_factor_crec_7d. rewrite filter_swap. f_equal.
  rewrite (filter_zip_rows _ _ k) by reflexivity. f_equal.
  rewrite pick_combine. f_equal.
  - symmetry. apply casos_semana_of_entity.
  - unfold col_factor_crec_7d. rewrite pick_map, pick_zip_with.
    now rewrite <- casos_semana_of_entity, <- casos_semana_prev_of_entity.
Qed.

Lemma insert_row_below (r : Row) (l : list Row) :
  (forall x, In x l -> row_le r x) -> insert_row r l = r :: l.
Proof.
  destruct l as [|h t]; simpl; [reflexivity|]. intros H.
  now rewrite (H h (or_introl eq_refl)).
Qed.

Lemma filter_insert_row (p : Row -> bool) (r : Row) (l : list Row) :
  StronglySorted row_le l ->
  filter p (insert_row r l) =
  if p r then insert_row r (filter p l) else filter p l.
Proof.
  induction 1 as [|h t Hs IH Hall]; simpl.
  - now destruct (p r).
  - rewrite Forall_forall in Hall. destruct (row_leb r h) eqn:E; simpl.
    + destruct (p r) eqn:Er; [|reflexivity].
      destruct (p h) eqn:Eh; simpl.
      * now rewrite E.
      * symmetry. f_equal. apply insert_row_below. intros x Hx.
        apply filter_In in Hx. destruct Hx as [Hx _].
        apply (row_le_trans r h x E). now apply Hall.
    + rewrite IH. destruct (p h) eqn:Eh; simpl.
      * destruct (p r); [now rewrite E | reflexivity].
      * reflexivity.
Qed.

Lemma filter_sort_values (p : Row -> bool) (l : list Row) :
  filter p (sort_values l) = sort_values (filter p l).
Proof.
  induction l as [|h t IH]; simpl; [reflexivity|].
  rewrite filter_insert_row by apply sort_values_sorted.
  rewrite IH. now destruct (p h).
Qed.

Lemma map_combine_zip_with {A B C : Type} (F : A -> B -> C) (l : list A) :
  forall m : list B,
    map (fun ab => F (fst ab) (snd ab)) (combine l m) = zip_with F l m.
Proof.
  induction l as [|a l IH]; intros [|b m]; simpl; try reflexivity.
  now rewrite IH.
Qed.

Lemma incidencia_7d_of_entity (df : list Row) (k : string) :
  col_incidencia_7d (entity_rows df k) =
  pick (map location df) k (col_incidencia_7d df).
Proof.
  unfold col_incidencia_7d, col_incidencia_diaria.
  rewrite pick_groupby_transform;
    [|now rewrite !length_map | apply rolling_length].
  rewrite pick_map, pick_rows.
  apply (groupby_single_group _ _ _ k).
  - now rewrite !length_map.
  - apply entity_rows_location.
  - apply rolling_length.
Qed.

Lemma sort_values_entity_rows (datos : list Row) (k : string) :
  sort_values (entity_rows datos k) = entity_rows (sort_values datos) k.
Proof. unfold entity_rows. symmetry. apply filter_sort_values. Qed.

Lemma incidence_table_of_entity (datos : list Row) (k : string) :
  filter (fun o => String.eqb k (inc_location o)) (metrica_incidencia_7d datos) =
  metrica_incidencia_7d (entity_rows datos k).
Proof.
  unfold metrica_incidencia_7d.
  rewrite sort_values_entity_rows, filter_swap. f_equal.
  rewrite !(map_combine_zip_with
              (fun r v => mkIncidence (date r) (location r) v)).
  rewrite (filter_zip_rows _ _ k) by reflexivity.
  now rewrite <- incidencia_7d_of_entity.
Qed.




(** ** How many rows the tables have *)

Lemma zip_with_length_le {A B C : Type} (f : A -> B -> C) (xs : list A) :
  forall ys : list B, length (zip_with f xs ys) <= length xs.
Proof.
  induction xs as [|x xs IH]; intros [|y ys]; simpl; try lia.
  specialize (IH ys). lia.
Qed.

Lemma filter_skips_prefix {A : Type} (p : A -> bool) (n : nat) (l : list A) :
  (forall i x, i < n -> nth_error l i = Some x -> p x = false) ->
  length (filter p l) <= length l - n.
Proof.
  intros H. rewrite <- (firstn_skipn n l) at 1. rewrite filter_app, length_app.
  assert (H0 : length (filter p (firstn n l)) = 0).
  { apply filter_length_zero. intros x Hx. apply In_firstn_nth_error in Hx.
    destruct Hx as [i [Hi Hx]]. exact (H i x Hi Hx). }
  rewrite H0. simpl. etransitivity; [apply filter_length_bound|].
  rewrite length_skipn. lia.
Qed.

Lemma window_length (w : nat) (xs : series) (j : nat) :
  length (window w xs j) <= S j.
Proof.
  unfold window. rewrite length_skipn, length_firstn. lia.
Qed.

Lemma growth_table_of_entity (df : list Row) (k : string) :
  filter (fun g => String.eqb k (growth_location g)) (metrica_factor_crec_7d df) =
  metrica_factor_crec_7d (entity_rows df k).
Proof.
  unfold metrica_factor_crec_7d. rewrite filter_swap. f_equal.
  rewrite (filter_zip_rows _ _ k) by reflexivity. f_equal.
  rewrite pick_combine. f_equal.
  - symmetry. apply casos_semana_of_entity.
  - unfold col_factor_crec_7d. rewrite pick_map, pick_zip_with.
    now rewrite <- casos_semana_of_entity, <- casos_semana_prev_of_entity.
Qed.

(** X22. An entity with [n] records has at most [n - 7] rows in the growth
    table and at most [n - 6] rows in the incidence table. *)
Theorem tables_lose_the_first_week (datos : list Row) (k : string) :
  length (filter (fun g => String.eqb k (growth_location g))
                 (metrica_factor_crec_7d datos))
    <= length (entity_rows datos k) - 7 /\
  length (filter (fun o => String.eqb k (inc_location o))
                 (metrica_incidencia_7d datos))
    <= length (entity_rows datos k) - 6.
Proof.
  split.
  - rewrite growth_table_of_entity. set (df := entity_rows datos k).
    assert (Hprev : col_casos_semana_prev df = shift 7 (col_casos_semana df)).
    { unfold col_casos_semana_prev. apply (groupby_single_group _ _ _ k).
      - unfold col_casos_semana. apply groupby_transform_length.
      - apply entity_rows_location.
      - apply shift_length. }
    unfold metrica_factor_crec_7d.
    etransitivity; [apply filter_skips_prefix with (n := 7)|].
    + intros i g Hi Hg. rewrite nth_error_zip_with in Hg.
      destruct (nth_error df i) as [r|]; [|discriminate].
      destruct (nth_error (combine _ _) i) as [[c f]|] eqn:Ec; [|discriminate].
      injection Hg as <-. simpl. rewrite nth_error_combine_pair in Ec.
      destruct (nth_error (col_casos_semana df) i) as [c0|] eqn:Es; [|discriminate].
      destruct (nth_error (col_factor_crec_7d df) i) as [f0|] eqn:Ef; [|discriminate].
      injection Ec as <- <-. unfold col_factor_crec_7d in Ef.
      rewrite nth_error_map, nth_error_zip_with, Es, Hprev in Ef.
      destruct (nth_error (shift 7 (col_casos_semana df)) i) as [p0|] eqn:Ep;
        [|discriminate].
      pose proof (shift_nth_lt 7 (col_casos_semana df) i Hi) as Hn.
      rewrite nth_of_nth_error, Ep in Hn. subst p0.
      simpl in Ef. injection Ef as <-.
      destruct c0; simpl; now rewrite ?andb_false_r.
    + pose proof (zip_with_length_le
                    (fun (r : Row) (cf : option Q * float) =>
                       mkGrowth (date r) (location r) (fst cf) (snd cf))
                    df (combine (col_casos_semana df) (col_factor_crec_7d df))).
      lia.
  - rewrite incidence_table_of_entity. unfold metrica_incidencia_7d.
    assert (Hlen : length (sort_values (entity_rows datos k)) =
                   length (entity_rows datos k)).
    { apply Permutation_length, sort_values_perm. }
    rewrite <- Hlen. set (df := sort_values (entity_rows datos k)).
    assert (Hcol : col_incidencia_7d df =
                   rolling 7 7 roll_mean (col_incidencia_diaria df)).
    { unfold col_incidencia_7d. apply (groupby_single_group _ _ _ k).
      - unfold col_incidencia_diaria. now rewrite !length_map.
      - unfold df. rewrite sort_values_entity_rows. apply entity_rows_location.
      - apply rolling_length. }
    etransitivity; [apply filter_skips_prefix with (n := 6)|].
    + intros i o Hi Ho. rewrite nth_error_map, nth_error_combine_pair in Ho.
      destruct (nth_error df i) as [r|] eqn:Er; [|discriminate].
      destruct (nth_error (col_incidencia_7d df) i) as [v|] eqn:Ev; [|discriminate].
      injection Ho as <-. simpl.
      assert (Hi' : i < length (col_incidencia_diaria df)).
      { unfold col_incidencia_diaria. rewrite length_map.
        apply nth_error_Some. congruence. }
      pose proof (rolling_nth 7 7 roll_mean _ i Hi') as Hn.
      rewrite <- Hcol, nth_of_nth_error, Ev in Hn. subst v.
      pose proof (window_length 7 (col_incidencia_diaria df) i) as Hw.
      pose proof (filter_length_bound notna (window 7 (col_incidencia_diaria df) i)) as Hb.
      unfold count_valid.
      destruct (Nat.leb_spec 7
                  (length (filter notna (window 7 (col_incidencia_diaria df) i))));
        [lia | reflexivity].
    + rewrite length_map, length_combine. lia.
Qed.

Lemma sum_valid_zero (xs : series) :
  (forall q, In (Some q) xs -> (q == 0)%Q) -> (sum_valid xs == 0)%Q.
Proof.
  induction xs as [|[q|] t IH]; simpl; intros H.
  - reflexivity.
  - rewrite (H q (or_introl eq_refl)), IH; [reflexivity|].
    intros x Hx. apply H. now right.
  - apply IH. intros x Hx. apply H. now right.
Qed.

(** X23. A record set in which every reported new_cases is 0 has an empty
    growth table: every previous-week sum is 0 and the quotient is dropped,
    not raised as an error. *)
Theorem growth_of_zero_cases_is_empty (df : list Row) :
  (forall r n, In r df -> new_cases r = Some n -> (n == 0)%Q) ->
  metrica_factor_crec_7d df = [].
Proof.
  intros Hz. destruct (metrica_factor_crec_7d df) as [|g t] eqn:E; [reflexivity|].
  exfalso.
  assert (Hg : In g (metrica_factor_crec_7d df)) by (rewrite E; now left).
  destruct (growth_row_inv df g Hg)
    as [i [r [c [p [Hr [_ [_ [_ [Hpv [Hp _]]]]]]]]]].
  apply Hp.
  assert (Hi : i < length (map location df)).
  { rewrite length_map. apply nth_error_Some. congruence. }
  unfold col_casos_semana_prev in Hpv.
  rewrite (groupby_transform_nth _ _ _ i Hi) in Hpv.
  apply In_shift, In_pick in Hpv.
  apply In_nth_error in Hpv. destruct Hpv as [j Hj].
  assert (Hlt : j < length df).
  { assert (j < length (col_casos_semana df)) by (apply nth_error_Some; congruence).
    unfold col_casos_semana in H.
    now rewrite groupby_transform_length, length_map in H. }
  destruct (nth_error df j) as [r'|] eqn:Er'; [|apply nth_error_None in Er'; lia].
  pose proof (transform_rolling_at df new_cases 7 1 roll_sum j r' Er') as Hat.
  fold (col_casos_semana df) in Hat. rewrite nth_of_nth_error, Hj in Hat.
  destruct (1 <=? _); [|discriminate]. injection Hat as ->.
  apply sum_valid_zero. intros q Hq. apply In_last_n in Hq.
  apply in_map_iff in Hq. destruct Hq as [r'' [Hq Hr'']].
  apply In_history in Hr''. exact (Hz r'' q Hr'' Hq).
Qed.

Lemma growth_of_zero_cases_is_empty_witness :
  (forall r n, In r zero_days -> new_cases r = Some n -> (n == 0)%Q) /\
  metrica_factor_crec_7d zero_days = [].
Proof.
  assert (H : forall r n, In r zero_days -> new_cases r = Some n -> (n == 0)%Q).
  { intros r n Hr. simpl in Hr.
    repeat (destruct Hr as [<-|Hr]; [intros Hx; injection Hx as <-; reflexivity|]).
    destruct Hr. }
  split; [exact H|].
  exact (growth_of_zero_cases_is_empty zero_days H).
Defined.

(** ** Cleaning of a header *)

Lemma append_nil_r (s : string) : (s ++ EmptyString)%string = s.
Proof. induction s as [|c s IH]; simpl; [reflexivity | now rewrite IH]. Qed.

Lemma append_assoc (s t u : string) :
  ((s ++ t) ++ u)%string = (s ++ (t ++ u))%string.
Proof. induction s as [|c s IH]; simpl; [reflexivity | now rewrite IH]. Qed.

Lemma pystr_rev_append (s t : string) :
  PyStr.rev (s ++ t) = (PyStr.rev t ++ PyStr.rev s)%string.
Proof.
  induction s as [|c s IH]; simpl.
  - now rewrite append_nil_r.
  - now rewrite IH, append_assoc.
Qed.

Lemma isspace_lower_char (c : ascii) :
  PyStr.isspace (PyStr.lower_char c) = PyStr.isspace c.
Proof. destruct c as [[] [] [] [] [] [] [] []]; reflexivity. Qed.

Lemma is_bom_lower_char (a b c : ascii) :
  PyStr.is_bom (PyStr.lower_char a) (PyStr.lower_char b) (PyStr.lower_char c) =
  PyStr.is_bom a b c.
Proof.
  unfold PyStr.is_bom.
  assert (Ha : (nat_of_ascii (PyStr.lower_char a) =? 239) = (nat_of_ascii a =? 239))
    by (destruct a as [[] [] [] [] [] [] [] []]; reflexivity).
  assert (Hb : (nat_of_ascii (PyStr.lower_char b) =? 187) = (nat_of_ascii b =? 187))
    by (destruct b as [[] [] [] [] [] [] [] []]; reflexivity).
  assert (Hc : (nat_of_ascii (PyStr.lower_char c) =? 191) = (nat_of_ascii c =? 191))
    by (destruct c as [[] [] [] [] [] [] [] []]; reflexivity).
  now rewrite Ha, Hb, Hc.
Qed.

Lemma lower_append (s t : string) :
  PyStr.lower (s ++ t) = (PyStr.lower s ++ PyStr.lower t)%string.
Proof. induction s as [|c s IH]; simpl; [reflexivity | now rewrite IH]. Qed.

Lemma lower_rev (s : string) : PyStr.lower (PyStr.rev s) = PyStr.rev (PyStr.lower s).
Proof.
  induction s as [|c s IH]; simpl; [reflexivity|].
  now rewrite lower_append, IH.
Qed.

Lemma lower_lstrip (s : string) :
  PyStr.lower (PyStr.lstrip s) = PyStr.lstrip (PyStr.lower s).
Proof.
  induction s as [|c s IH]; simpl; [reflexivity|].
  rewrite isspace_lower_char. destruct (PyStr.isspace c); [exact IH | reflexivity].
Qed.

Lemma lower_strip (s : string) :
  PyStr.lower (PyStr.strip s) = PyStr.strip (PyStr.lower s).
Proof.
  unfold PyStr.strip, PyStr.rstrip.
  now rewrite lower_rev, lower_lstrip, lower_rev, lower_lstrip.
Qed.

Lemma remove_bom_cons3 (a b c : ascii) (s : string) :
  PyStr.remove_bom (String a (String b (String c s))) =
  if PyStr.is_bom a b c then PyStr.remove_bom s
  else String a (PyStr.remove_bom (String b (String c s))).
Proof. reflexivity. Qed.

Lemma lower_remove_bom_bounded (n : nat) :
  forall s, String.length s <= n ->
            PyStr.lower (PyStr.remove_bom s) = PyStr.remove_bom (PyStr.lower s).
Proof.
  induction n as [|n IH]; intros s Hlen.
  - destruct s; [reflexivity | simpl in Hlen; lia].
  - destruct s as [|a [|b [|c s]]]; try reflexivity.
    change (PyStr.lower (String a (String b (String c s))))
      with (String (PyStr.lower_char a)
              (String (PyStr.lower_char b)
                 (String (PyStr.lower_char c) (PyStr.lower s)))).
    rewrite !remove_bom_cons3, is_bom_lower_char.
    destruct (PyStr.is_bom a b c).
    + apply IH. simpl in Hlen. lia.
    + change (String (PyStr.lower_char b)
                (String (PyStr.lower_char c) (PyStr.lower s)))
        with (PyStr.lower (String b (String c s))).
      rewrite <- IH by (simpl in *; lia). reflexivity.
Qed.

Lemma lower_remove_bom (s : string) :
  PyStr.lower (PyStr.remove_bom s) = PyStr.remove_bom (PyStr.lower s).
Proof. apply (lower_remove_bom_bounded (String.length s)). lia. Qed.

Lemma clean_header_of_lower (s : string) :
  clean_header s = PyStr.remove_bom (PyStr.strip (PyStr.lower s)).
Proof. unfold clean_header. now rewrite lower_remove_bom, lower_strip. Qed.

(** X24. Cleaning a header does not depend on the case of its ASCII
    letters: two labels with the same lower-case form clean to the same
    label. *)
Theorem clean_header_ignores_case (s t : string) :
  PyStr.lower s = PyStr.lower t -> clean_header s = clean_header t.
Proof.
  intros H. now rewrite (clean_header_of_lower s), (clean_header_of_lower t), H.
Qed.

Lemma clean_header_ignores_case_witness :
  PyStr.lower "New_Cases" = PyStr.lower "NEW_CASES" /\
  clean_header "New_Cases" = clean_header "NEW_CASES".
Proof.
  assert (H : PyStr.lower "New_Cases" = PyStr.lower "NEW_CASES") by reflexivity.
  split; [exact H|].
  exact (clean_header_ignores_case "New_Cases" "NEW_CASES" H).
Defined.

Lemma all_space_append (s t : string) :
  all_space (s ++ t) = all_space s && all_space t.
Proof.
  induction s as [|c s IH]; simpl; [reflexivity|].
  rewrite IH. now rewrite andb_assoc.
Qed.

Lemma all_space_rev (s : string) : all_space (PyStr.rev s) = all_space s.
Proof.
  induction s as [|c s IH]; simpl; [reflexivity|].
  rewrite all_space_append, IH. simpl. rewrite andb_true_r. apply andb_comm.
Qed.

Lemma lstrip_space_prefix (l s : string) :
  all_space l = true -> PyStr.lstrip (l ++ s) = PyStr.lstrip s.
Proof.
  induction l as [|c l IH]; simpl; [reflexivity|].
  intros H. apply andb_true_iff in H. destruct H as [Hc Hl].
  rewrite Hc. now apply IH.
Qed.

Lemma lstrip_all_space (s : string) :
  all_space s = true -> PyStr.lstrip s = EmptyString.
Proof.
  intros H. rewrite <- (append_nil_r s). now rewrite lstrip_space_prefix.
Qed.

Lemma rstrip_space_suffix (s r : string) :
  all_space r = true -> PyStr.rstrip (s ++ r) = PyStr.rstrip s.
Proof.
  intros H. unfold PyStr.rstrip. rewrite pystr_rev_append.
  rewrite lstrip_space_prefix by (now rewrite all_space_rev). reflexivity.
Qed.

Lemma lstrip_before_space (s r : string) :
  all_space r = true ->
  PyStr.lstrip (s ++ r) = (PyStr.lstrip s ++ r)%string \/
  (PyStr.lstrip (s ++ r) = EmptyString /\ PyStr.lstrip s = EmptyString).
Proof.
  intros H. induction s as [|c s IH]; simpl.
  - right. split; [now apply lstrip_all_space | reflexivity].
  - destruct (PyStr.isspace c); [exact IH | now left].
Qed.

(** X25. Whitespace around a header is ignored: padding a label on the left
    and on the right with ASCII whitespace does not change what it cleans
    to. *)
Theorem clean_header_ignores_padding (l s r : string) :
  all_space l = true -> all_space r = true ->
  clean_header (l ++ s ++ r) = clean_header s.
Proof.
  intros Hl Hr. unfold clean_header, PyStr.strip. do 2 f_equal.
  rewrite lstrip_space_prefix by assumption.
  destruct (lstrip_before_space s r Hr) as [E|[E1 E2]].
  - rewrite E. now apply rstrip_space_suffix.
  - now rewrite E1, E2.
Qed.

Lemma clean_header_ignores_padding_witness :
  all_space "  " = true /\ all_space " " = true /\
  clean_header ("  " ++ "Date" ++ " ") = clean_header "Date".
Proof.
  split; [reflexivity|]. split; [reflexivity|].
  apply (clean_header_ignores_padding "  " "Date" " "); reflexivity.
Defined.

Lemma lstrip_before_text (x : string) (c : ascii) (y : string) :
  PyStr.isspace c = false ->
  PyStr.lstrip (x ++ String c y) = (PyStr.lstrip x ++ String c y)%string.
Proof.
  intros H. induction x as [|a x IH]; simpl.
  - now rewrite H.
  - destruct (PyStr.isspace a); [exact IH | reflexivity].
Qed.

(** X26. A byte-order mark at the start of a header is removed, but only
    after the stripping: it keeps [strip] from reaching whitespace that
    follows it. The label cleans to what the rest cleans to exactly when
    the rest has no leading whitespace to lose. *)
Theorem clean_header_leading_bom (s : string) :
  clean_header (PyStr.BOM ++ s) =
    PyStr.lower (PyStr.remove_bom (PyStr.rstrip s)) /\
  (PyStr.lstrip s = s -> clean_header (PyStr.BOM ++ s) = clean_header s).
Proof.
  assert (E : clean_header (PyStr.BOM ++ s) =
              PyStr.lower (PyStr.remove_bom (PyStr.rstrip s))).
  { unfold clean_header, PyStr.strip. f_equal.
    change (PyStr.lstrip (PyStr.BOM ++ s)) with (PyStr.BOM ++ s)%string.
    unfold PyStr.rstrip at 1. rewrite pystr_rev_append.
    change (PyStr.rev PyStr.BOM)
      with (String (ascii_of_nat 191)
              (String (ascii_of_nat 187) (String (ascii_of_nat 239) EmptyString))).
    rewrite lstrip_before_text by reflexivity.
    rewrite pystr_rev_append.
    change (PyStr.rev (String (ascii_of_nat 191)
              (String (ascii_of_nat 187) (String (ascii_of_nat 239) EmptyString))))
      with PyStr.BOM.
    fold (PyStr.rstrip s).
    change (PyStr.BOM ++ PyStr.rstrip s)%string
      with (String (ascii_of_nat 239)
              (String (ascii_of_nat 187)
                 (String (ascii_of_nat 191) (PyStr.rstrip s)))).
    rewrite remove_bom_cons3. reflexivity. }
  split; [exact E|].
  intros H. rewrite E. unfold clean_header, PyStr.strip. now rewrite H.
Qed.

(** ** A key column is missing *)

(** X27. When location or date is missing [unique_loc_date] fails without
    looking at the rows, and its description lists every missing label, in
    the order location, date. *)
Theorem unique_loc_date_missing_columns (df : DataFrame) :
  ~ In "location" (columns df) \/ ~ In "date" (columns df) ->
  passed (unique_loc_date df) = false /\
  description (unique_loc_date df) =
    ("Faltan columnas: " ++
     PyStr.repr_list (filter (fun c => negb (mem c (columns df)))
                             ["location"; "date"]))%string /\
  (forall other_rows,
     unique_loc_date (mkDF (columns df) other_rows) = unique_loc_date df).
Proof.
  intros H. unfold unique_loc_date.
  assert (Hother : forall other_rows,
            _columns_missing (mkDF (columns df) other_rows) ["location"; "date"] =
            _columns_missing df ["location"; "date"]) by reflexivity.
  change (filter (fun c => negb (mem c (columns df))) ["location"; "date"])
    with (_columns_missing df ["location"; "date"]).
  destruct (_columns_missing df ["location"; "date"]) as [|c t] eqn:Em.
  - exfalso.
    pose proof (proj1 (missing_columns_nil (columns df) ["location"; "date"]) Em)
      as Hall.
    destruct H as [H|H]; apply H, Hall; simpl; tauto.
  - split; [reflexivity|]. split; [reflexivity|].
    intros other_rows. now rewrite Hother.
Qed.

Lemma unique_loc_date_missing_columns_witness :
  (~ In "location" (columns frame_without_date) \/
   ~ In "date" (columns frame_without_date)) /\
  passed (unique_loc_date frame_without_date) = false /\
  description (unique_loc_date frame_without_date) = "Faltan columnas: ['date']".
Proof.
  assert (H : ~ In "location" (columns frame_without_date) \/
              ~ In "date" (columns frame_without_date)).
  { right. simpl. intuition discriminate. }
  split; [exact H|].
  destruct (unique_loc_date_missing_columns frame_without_date H) as [Hp [Hd _]].
  split; [exact Hp|]. rewrite Hd. reflexivity.
Defined.
